(** * BanyanHub SDK: guard lifecycle, heartbeat, license cache and update engine

    A shallow embedding of the Go package [sdk]: the authorization state
    machine, the heartbeat loop, license verification with its local cache,
    the constructor [New] and the backend/frontend update pipelines, followed
    by the properties the specification states about them. *)

From Stdlib Require Import ZArith String Ascii List Bool Lia.
From stdpp Require Import base gmap strings pretty list fin_maps.

Import ListNotations.
Local Open Scope string_scope.
Local Open Scope Z_scope.

(** ** The state machine (type [State], struct [stateMachine]) *)

Module Machine.

Inductive State : Type :=
| StateInit
| StateActive
| StateGrace
| StateLocked
| StateBanned.

#[global] Instance State_eq_dec : EqDecision State.
Proof. solve_decision. Defined.

(** [State.String] *)
Definition String_ (s : State) : string :=
  match s with
  | StateInit => "INIT"
  | StateActive => "ACTIVE"
  | StateGrace => "GRACE"
  | StateLocked => "LOCKED"
  | StateBanned => "BANNED"
  end.

(** [newStateMachine] *)
Definition newStateMachine : State := StateInit.

(** The methods of [*stateMachine]; the mutex serialises them, so each is
    a function on the protected field [state]. *)
Definition OnVerifySuccess (s : State) : State :=
  if bool_decide (s = StateInit) || bool_decide (s = StateGrace)
  then StateActive else s.

Definition OnHeartbeatOK (s : State) : State :=
  if bool_decide (s = StateGrace) || bool_decide (s = StateActive)
  then StateActive else s.

Definition OnHeartbeatFail (s : State) : State :=
  if bool_decide (s = StateActive) then StateGrace else s.

Definition OnKill (_ : State) : State := StateBanned.

Definition OnGracePeriodExpired (s : State) : State :=
  if bool_decide (s = StateGrace) then StateLocked else s.

(** The five mutating methods as events, to speak about call sequences. *)
Inductive Event : Type :=
| EvVerifySuccess
| EvHeartbeatOK
| EvHeartbeatFail
| EvGracePeriodExpired
| EvKill.

Definition step (s : State) (e : Event) : State :=
  match e with
  | EvVerifySuccess => OnVerifySuccess s
  | EvHeartbeatOK => OnHeartbeatOK s
  | EvHeartbeatFail => OnHeartbeatFail s
  | EvGracePeriodExpired => OnGracePeriodExpired s
  | EvKill => OnKill s
  end.

Definition run (s : State) (es : list Event) : State := fold_left step es s.

End Machine.

Export Machine.

(** ** Error values (errors.go) *)

Module Errors.

(** The package-level error variables created with [errors.New]. *)
Inductive errVar : Type :=
| ErrLicenseInvalid
| ErrLicenseExpired
| ErrLicenseSuspended
| ErrMachineBanned
| ErrMaxMachinesExceeded
| ErrProjectNotAuthorized
| ErrUpdateFrozen
| ErrNetworkError
| ErrInvalidServerResponse
| ErrNotActivated
| ErrLocked
| ErrBanned
| ErrCDKNotFound
| ErrCDKAlreadyUsed
| ErrCDKRevoked.

(** Modelled from the spec: the error variables [ErrUpdateDownload],
    [ErrUpdateVerify], [ErrUpdateApply] and [ErrUpdateRollback] that
    updater.go wraps; their declarations are not part of errors.go as
    given.  The specification names the classes Transient (download),
    Integrity (verify), Apply and Rollback. *)
Inductive updateErrVar : Type :=
| ErrUpdateDownload
| ErrUpdateVerify
| ErrUpdateApply
| ErrUpdateRollback.

(** A Go [error] value.  [Var v] is the variable itself, the only value
    that [==] identifies with it; [Wrap v d] is
    [fmt.Errorf("%w: ...", v, ...)] with the formatted remainder [d];
    [Msg t] is an error without a wrapped variable (made by [fmt.Errorf]
    without [%w] around a variable of this package, or by a library). *)
Inductive error : Type :=
| Var (v : errVar)
| Wrap (v : errVar) (detail : string)
| WrapUpdate (v : updateErrVar) (detail : string)
| Msg (text : string).

#[global] Instance errVar_eq_dec : EqDecision errVar.
Proof. solve_decision. Defined.
#[global] Instance updateErrVar_eq_dec : EqDecision updateErrVar.
Proof. solve_decision. Defined.
#[global] Instance error_eq_dec : EqDecision error.
Proof. solve_decision. Defined.

Definition varText (v : errVar) : string :=
  match v with
  | ErrLicenseInvalid => "license invalid"
  | ErrLicenseExpired => "license expired"
  | ErrLicenseSuspended => "license suspended"
  | ErrMachineBanned => "machine banned"
  | ErrMaxMachinesExceeded => "max machines exceeded"
  | ErrProjectNotAuthorized => "project not authorized"
  | ErrUpdateFrozen => "update channel frozen"
  | ErrNetworkError => "network error"
  | ErrInvalidServerResponse => "invalid server response"
  | ErrNotActivated => "guard not activated"
  | ErrLocked => "system locked: offline grace period expired"
  | ErrBanned => "system banned"
  | ErrCDKNotFound => "activation code not found"
  | ErrCDKAlreadyUsed => "activation code already used"
  | ErrCDKRevoked => "activation code revoked"
  end.

(** Modelled from the spec: the texts of the four update error variables,
    which are declared outside the given sources; only the class named by
    the specification is kept. *)
Definition updateVarText (v : updateErrVar) : string :=
  match v with
  | ErrUpdateDownload => "update download"
  | ErrUpdateVerify => "update verify"
  | ErrUpdateApply => "update apply"
  | ErrUpdateRollback => "update rollback"
  end.

(** [err.Error()] *)
Definition Error_ (e : error) : string :=
  match e with
  | Var v => varText v
  | Wrap v d => varText v +:+ ": " +:+ d
  | WrapUpdate v d => updateVarText v +:+ ": " +:+ d
  | Msg t => t
  end.

(** [err == v] on error values: identity with the variable. *)
Definition eqVar (e : error) (v : errVar) : bool := bool_decide (e = Var v).

(** [isFatalError] (heartbeat.go); [nil] is handled by the caller, which
    tests [err == nil] first, and is not fatal. *)
Definition isFatalError (err : option error) : bool :=
  match err with
  | None => false
  | Some e =>
      eqVar e ErrBanned || eqVar e ErrLicenseSuspended || eqVar e ErrMachineBanned
  end.

End Errors.

Export Errors.

(** ** Configuration (config.go) *)

Module Cfg.

(** [time.Duration] is a count of nanoseconds. *)
Definition Duration := Z.
Definition Second : Duration := 1000000000.
Definition Minute : Duration := 60 * Second.
Definition Hour : Duration := 60 * Minute.

Record GracePolicy : Type := {
  MaxOfflineDuration : Duration;
  WarningInterval : Duration
}.

(** The three callbacks are function values; the model keeps whether each
    is non-nil, and records every call as an effect. *)
Record OTAConfig : Type := {
  Enabled : bool;
  AutoUpdate : bool;
  CheckInterval : Duration;
  OS : string;
  Arch : string;
  DownloadTimeout : Duration;
  MaxArtifactBytes : Z;
  OnUpdateProgress : bool;
  OnUpdateResult : bool;
  OnUpdateFailure : bool
}.

(** [type UpdateStrategy int] *)
Definition UpdateStrategy := Z.
Definition UpdateBackend : UpdateStrategy := 0.
Definition UpdateFrontend : UpdateStrategy := 1.

(** [PostUpdate func() error]: [None] is a nil hook, [Some r] a hook whose
    call returns [r]. *)
Record ManagedComponent : Type := {
  Slug : string;
  Dir : string;
  Strategy : UpdateStrategy;
  PostUpdate : option (option error)
}.

(** [PublicKeyPEM []byte]: [None] is the nil slice. *)
Record Config : Type := {
  ServerURL : string;
  LicenseKey : string;
  PublicKeyPEM : option string;
  ProjectSlug : string;
  ComponentSlug : string;
  HeartbeatInterval : Duration;
  GracePolicy_ : GracePolicy;
  OTA : OTAConfig;
  ManagedComponents : list ManagedComponent
}.

Definition isZero (d : Z) : bool := Z.eqb d 0.

(** [setDefaults], a method of [Config]; [goos] and [goarch] are [runtime.GOOS] and
    [runtime.GOARCH]. *)
Definition setDefaults (goos goarch : string) (c : Config) : Config :=
  let gp := GracePolicy_ c in
  let o := OTA c in
  let detect := String.eqb (OS o) "" && String.eqb (Arch o) "" in
  {| ServerURL := ServerURL c;
     LicenseKey := LicenseKey c;
     PublicKeyPEM := PublicKeyPEM c;
     ProjectSlug := ProjectSlug c;
     ComponentSlug := ComponentSlug c;
     HeartbeatInterval :=
       if isZero (HeartbeatInterval c) then 1 * Hour else HeartbeatInterval c;
     GracePolicy_ :=
       {| MaxOfflineDuration :=
            if isZero (MaxOfflineDuration gp) then 72 * Hour
            else MaxOfflineDuration gp;
          WarningInterval :=
            if isZero (WarningInterval gp) then 4 * Hour
            else WarningInterval gp |};
     OTA :=
       {| Enabled := Enabled o;
          AutoUpdate := AutoUpdate o;
          CheckInterval :=
            if isZero (CheckInterval o) then 6 * Hour else CheckInterval o;
          OS := if detect then goos else OS o;
          Arch := if detect then goarch else Arch o;
          DownloadTimeout :=
            if isZero (DownloadTimeout o) then 10 * Minute
            else DownloadTimeout o;
          MaxArtifactBytes :=
            if isZero (MaxArtifactBytes o) then 500 * 1024 * 1024
            else MaxArtifactBytes o;
          OnUpdateProgress := OnUpdateProgress o;
          OnUpdateResult := OnUpdateResult o;
          OnUpdateFailure := OnUpdateFailure o |};
     ManagedComponents := ManagedComponents c |}.

End Cfg.

Export Cfg.

(** ** Library functions the package calls *)

Module Ext.

(** [cachedLicense] (license.go), the JSON document of the cache file. *)
Record cachedLicense : Type := {
  cl_LicenseKey : string;
  cl_PublicData : string;
  cl_Signature : string;
  cl_VerifiedAt : string
}.

(** A value returned together with an [error]: [Ok a] when the error is
    nil, [Err e] otherwise. *)
Inductive result (A : Type) : Type :=
| Ok (a : A)
| Err (e : error).
Arguments Ok {A} a.
Arguments Err {A} e.

(** Functions of the Go standard library (and the build constants of
    package [runtime]) that the sources use as black boxes.  Byte slices
    and strings are both [string].  [None] stands for a returned error
    ([json.Unmarshal]) or a nil block ([pem]).  [json.Marshal]
    of [cachedLicense], a struct of four strings, returns no error. *)
Class Primitives : Type := {
  sha256_Sum256 : string -> string;
  hex_EncodeToString : string -> string;
  base64_DecodeString : string -> result string;
  ed25519_Verify : string -> string -> string -> bool;
  pem_Decode : string -> option string;
  json_Marshal : cachedLicense -> string;
  json_Unmarshal : string -> option cachedLicense;
  GOOS : string;
  GOARCH : string
}.

(** [ed25519.PublicKeySize] *)
Definition PublicKeySize : Z := 32.

(** [len] of a byte slice or string, an [int]. *)
Definition len (s : string) : Z := Z.of_nat (String.length s).

(** [fmt.Sprintf("%d", n)] *)
Definition fmtInt (n : Z) : string := pretty n.

(** [strings.Join] *)
Fixpoint Join (elems : list string) (sep : string) : string :=
  match elems with
  | [] => ""
  | [e] => e
  | e :: rest => e +:+ sep +:+ Join rest sep
  end.

(** [strings.HasPrefix] *)
Definition HasPrefix (s pre : string) : bool := String.prefix pre s.

End Ext.

Export Ext.

(** ** Lexical path functions (package [path/filepath], separator [/]) *)

Module Filepath.

Definition isSep (c : ascii) : bool := Ascii.eqb c "/".

(** The elements between separators, [cur] being the element read so far. *)
Fixpoint splitSep (s cur : string) : list string :=
  match s with
  | EmptyString => [cur]
  | String c rest =>
      if isSep c then cur :: splitSep rest ""
      else splitSep rest (cur +:+ String c "")
  end.

(** One element of the path against the elements kept so far (innermost
    first): [..] removes the element before it, stays at the front of a
    relative path, and is dropped at the root. *)
Definition cleanStep (rooted : bool) (kept : list string) (elem : string)
  : list string :=
  if String.eqb elem ".." then
    match kept with
    | top :: below => if String.eqb top ".." then elem :: kept else below
    | [] => if rooted then [] else [elem]
    end
  else elem :: kept.

(** [filepath.Clean]: empty elements and [.] are dropped, [..] is resolved
    by [cleanStep], and the empty result is ["."]. *)
Definition Clean (path : string) : string :=
  if String.eqb path "" then "."
  else
    let rooted := HasPrefix path "/" in
    let elems :=
      List.filter (fun e => negb (String.eqb e "") && negb (String.eqb e "."))
                  (splitSep path "") in
    let kept := rev (fold_left (cleanStep rooted) elems []) in
    let out := (if rooted then "/" else "") +:+ Join kept "/" in
    if String.eqb out "" then "." else out.

(** [filepath.Join]: the elements from the first non-empty one on, joined
    by the separator and cleaned. *)
Fixpoint JoinPath (elem : list string) : string :=
  match elem with
  | [] => ""
  | e :: rest =>
      if String.eqb e "" then JoinPath rest else Clean (Join elem "/")
  end.

Fixpoint hasSep (s : string) : bool :=
  match s with
  | EmptyString => false
  | String c rest => isSep c || hasSep rest
  end.

(** The prefix of [s] up to and including its last separator. *)
Fixpoint dirPart (s : string) : string :=
  match s with
  | EmptyString => ""
  | String c rest => if hasSep s then String c (dirPart rest) else ""
  end.

(** [filepath.Dir] *)
Definition PathDir (path : string) : string := Clean (dirPart path).

(** [os.PathSeparator] as a string *)
Definition PathSeparator : string := "/".

End Filepath.

Export Filepath.

(** ** The guard (guard.go, fingerprint.go) *)

Module GuardM.

Record Fingerprint : Type := {
  machineID : string;
  auxSignals : gmap string string
}.

(** What the host reports to [collectFingerprint]: the result of
    [machineid.ProtectedID], model name and core count of the first CPU
    when [cpu.Info] succeeds with a non-empty list, total memory when
    [mem.VirtualMemory] succeeds, and the list of [getMACAddresses]. *)
Record HostInfo : Type := {
  protectedID : result string;
  cpuInfo : option (string * Z);
  totalRAM : option Z;
  macAddresses : list string
}.

Section Collect.
Context `{Primitives}.

(** [collectFingerprint] *)
Definition collectFingerprint (host : HostInfo) : result Fingerprint :=
  match protectedID host with
  | Err err => Err (Msg ("collect machine id: " +:+ Error_ err))
  | Ok mid =>
      let hashedID := "sha256:" +:+ hex_EncodeToString (sha256_Sum256 mid) in
      let aux0 : gmap string string :=
        <["arch" := GOARCH]> (<["os" := GOOS]> ∅) in
      let aux1 : gmap string string :=
        match cpuInfo host with
        | Some (model, cores) =>
            <["cpu_cores" := fmtInt cores]> (<["cpu_model" := model]> aux0)
        | None => aux0
        end in
      let aux2 : gmap string string :=
        match totalRAM host with
        | Some total =>
            <["total_ram_mb" := fmtInt (total / 1024 / 1024)]> aux1
        | None => aux1
        end in
      let aux3 : gmap string string :=
        if 0 <? Z.of_nat (length (macAddresses host))
        then <["mac_addresses" := Join (macAddresses host) ","]> aux2
        else aux2 in
      Ok {| machineID := hashedID; auxSignals := aux3 |}
  end.
End Collect.

(** [MachineID] and [AuxSignals] *)
Definition MachineID (f : Fingerprint) : string := machineID f.
Definition AuxSignals (f : Fingerprint) : gmap string string := auxSignals f.

(** [Guard]: the fields that carry data.  The HTTP client, the logger,
    the cancel function and the two mutexes appear in the model as the
    effects they produce. *)
Record Guard : Type := {
  cfg : Config;
  publicKey : string;
  fingerprint : Fingerprint;
  sm : State;
  version : string;
  managedVersions : gmap string string
}.

Definition initManagedVersions (mcs : list ManagedComponent)
  : gmap string string :=
  fold_left (fun m mc => <[Slug mc := "unknown"]> m) mcs ∅.

Section New.
Context `{Primitives}.

(** [New] *)
Definition New (host : HostInfo) (cfg0 : Config) : result Guard :=
  let cfg := setDefaults GOOS GOARCH cfg0 in
  if String.eqb (ServerURL cfg) "" then Err (Msg "server_url is required")
  else if String.eqb (LicenseKey cfg) "" then
    Err (Msg "license_key is required")
  else
    match PublicKeyPEM cfg with
    | None => Err (Msg "public_key_pem is required")
    | Some pemBytes =>
        if String.eqb (ProjectSlug cfg) "" then
          Err (Msg "project_slug is required")
        else if String.eqb (ComponentSlug cfg) "" then
          Err (Msg "component_slug is required")
        else
          match pem_Decode pemBytes with
          | None => Err (Msg "failed to decode public key PEM")
          | Some blockBytes =>
              if negb (len blockBytes =? PublicKeySize) then
                Err (Msg ("invalid ed25519 public key size: got "
                          +:+ fmtInt (len blockBytes) +:+ ", want "
                          +:+ fmtInt PublicKeySize))
              else
                match collectFingerprint host with
                | Err err =>
                    Err (Msg ("collect fingerprint: " +:+ Error_ err))
                | Ok fp =>
                    Ok {| cfg := cfg;
                          publicKey := blockBytes;
                          fingerprint := fp;
                          sm := newStateMachine;
                          version := "unknown";
                          managedVersions :=
                            initManagedVersions (ManagedComponents cfg) |}
                end
          end
    end.
End New.

(** [Check]: [None] is a nil error. *)
Definition Check (g : Guard) : option error :=
  match sm g with
  | StateActive | StateGrace => None
  | StateLocked => Some (Var ErrLocked)
  | StateBanned => Some (Var ErrBanned)
  | StateInit => Some (Var ErrNotActivated)
  end.

End GuardM.

Export GuardM.

(** ** Effects, store and the monad of the stateful methods *)

Module Fx.

(** [updateInfo] and [heartbeatResponse] (heartbeat.go) *)
Record updateInfo : Type := {
  Component : string;
  Current : string;
  Latest : string;
  UpdateAvailable : bool;
  Mandatory : bool;
  ReleaseNotes : string
}.

Record heartbeatResponse : Type := {
  hb_Status : string;
  hb_ServerTime : string;
  hb_NextInterval : Z;
  hb_UpdateFrozen : bool;
  hb_Updates : list updateInfo;
  hb_Reason : string;
  hb_Message : string
}.

Inductive LogLevel : Type := LInfo | LWarn | LError.

(** A request body, as the [map[string]any] literals of the code build it. *)
#[local] Unset Elimination Schemes.
Inductive JSON : Type :=
| JString (s : string)
| JNumber (n : Z)
| JObject (fields : list (string * JSON))
| JArray (items : list JSON).
#[local] Set Elimination Schemes.

Definition JStrings (m : gmap string string) : JSON :=
  JObject (map (fun kv => (kv.1, JString kv.2)) (map_to_list m)).

(** Calls into package [os] (and [update.Apply] of go-selfupdate), with
    the arguments the code passes. *)
Inductive FsOp : Type :=
| ReadFile (path : string)
| WriteFile (path data : string) (perm : Z)
| MkdirAll (path : string) (perm : Z)
| MkdirTemp (pattern : string)
| CreateTemp (pattern : string)
| OpenFile (path : string) (perm : Z)
| Copy (path data : string)
| Open (path : string)
| Remove (path : string)
| RemoveAll (path : string)
| Rename (oldpath newpath : string)
| Stat (path : string)
| Executable
| Apply (src oldSavePath : string).

(** A goroutine started with [go]. *)
Inductive Task : Type :=
| GoUpdateBackend (u : updateInfo)
| GoUpdateFrontend (mc : ManagedComponent) (u : updateInfo).

(** What a method does to the outside, in the order it does it: log lines,
    the three OTA callbacks (progress in tenths), the post-update hook,
    calls of [postJSON] and [http.Get], file operations, goroutines, and
    calls of the state machine. *)
Inductive Effect : Type :=
| ELog (level : LogLevel) (msg : string)
| EProgress (component stage : string) (tenths : Z)
| EFailure (component : string) (err : error)
| EResult (component oldVer newVer : string) (success : bool)
          (err : option error)
| EHook (component : string)
| EPostJSON (path : string) (body : JSON)
| EHttpGet (url : string)
| EFs (op : FsOp)
| EGo (t : Task)
| ESm (e : Machine.Event).

(** The mutable data: the guard and the files of the license cache. *)
Record Store : Type := {
  guard : Guard;
  disk : gmap string string
}.

Record Out (A : Type) : Type := {
  val : A;
  st : Store;
  fx : list Effect
}.
Arguments val {A} o.
Arguments st {A} o.
Arguments fx {A} o.

Definition M (A : Type) : Type := Store -> Out A.

#[global] Instance M_ret : MRet M :=
  fun A a s => {| val := a; st := s; fx := [] |}.

#[global] Instance M_bind : MBind M :=
  fun A B f m s =>
    let o := m s in
    let o' := f (val o) (st o) in
    {| val := val o'; st := st o'; fx := fx o ++ fx o' |}.

(** [wp m s Q]: the outcome of running [m] from the store [s] satisfies
    [Q]. *)
Definition wp {A : Type} (m : M A) (s : Store) (Q : Out A -> Prop) : Prop :=
  Q (m s).

Definition emit (e : Effect) : M unit :=
  fun s => {| val := tt; st := s; fx := [e] |}.

Definition getGuard : M Guard :=
  fun s => {| val := guard s; st := s; fx := [] |}.

Definition putGuard (g : Guard) : M unit :=
  fun s => {| val := tt; st := {| guard := g; disk := disk s |}; fx := [] |}.

Definition getDisk : M (gmap string string) :=
  fun s => {| val := disk s; st := s; fx := [] |}.

Definition putDisk (d : gmap string string) : M unit :=
  fun s => {| val := tt; st := {| guard := guard s; disk := d |}; fx := [] |}.

Definition when (b : bool) (m : M unit) : M unit :=
  if b then m else mret tt.

Definition setSm (x : State) (g : Guard) : Guard :=
  {| cfg := cfg g; publicKey := publicKey g; fingerprint := fingerprint g;
     sm := x; version := version g; managedVersions := managedVersions g |}.

Definition setVersion (v : string) (g : Guard) : Guard :=
  {| cfg := cfg g; publicKey := publicKey g; fingerprint := fingerprint g;
     sm := sm g; version := v; managedVersions := managedVersions g |}.

Definition setManagedVersions (m : gmap string string) (g : Guard) : Guard :=
  {| cfg := cfg g; publicKey := publicKey g; fingerprint := fingerprint g;
     sm := sm g; version := version g; managedVersions := m |}.

(** A call [g.sm.On...()] *)
Definition smCall (e : Machine.Event) : M unit :=
  g ← getGuard;
  putGuard (setSm (step (sm g) e) g);;
  emit (ESm e).

(** [SetVersion] and [SetManagedVersion] *)
Definition SetVersion (v : string) : M unit :=
  g ← getGuard; putGuard (setVersion v g).

Definition SetManagedVersion (slug v : string) : M unit :=
  g ← getGuard;
  putGuard (setManagedVersions (<[slug := v]> (managedVersions g)) g).

(** What happens to a request handed to [postJSON]: building the request
    fails, sending it fails, or a response arrives with a status code and
    a body that decodes into the expected struct or does not. *)
Inductive PostOutcome (R : Type) : Type :=
| RequestFails (err : error)
| SendFails (err : error)
| Response (status : Z) (decoded : result R).
Arguments RequestFails {R} err.
Arguments SendFails {R} err.
Arguments Response {R} status decoded.

Definition StatusOK : Z := 200.

Definition postResult {R : Type} (o : PostOutcome R) : result R :=
  match o with
  | RequestFails err => Err (Msg ("create request: " +:+ Error_ err))
  | SendFails err => Err (Msg ("send request: " +:+ Error_ err))
  | Response status decoded =>
      if negb (status =? StatusOK) then
        Err (Wrap ErrInvalidServerResponse ("status " +:+ fmtInt status))
      else
        match decoded with
        | Err err => Err (Wrap ErrInvalidServerResponse (Error_ err))
        | Ok r => Ok r
        end
  end.

(** [postJSON]: the call is recorded, its result follows the outcome. *)
Definition postJSON {R : Type} (path : string) (body : JSON)
    (o : PostOutcome R) : M (result R) :=
  emit (EPostJSON path body);; mret (postResult o).

(** The paths handed to [postJSON] by a run. *)
Definition posts (l : list Effect) : list string :=
  omap (fun e => match e with EPostJSON p _ => Some p | _ => None end) l.

End Fx.

Export Fx.

(** ** License verification and its cache (license.go) *)

Module License.

(** The response struct of [/api/v1/verify]. *)
Record verifyResponse : Type := {
  vr_Status : string;
  vr_Error : string;
  vr_Message : string;
  vr_UpdateFrozen : bool;
  vr_PublicData : string;
  vr_Signature : string
}.

(** What the surroundings answer during one [verifyLicense]: the home
    directory ([os.UserHomeDir], error dropped), whether [os.ReadFile]
    and [os.WriteFile] on the cache file fail for reasons other than the
    file's absence, the results of [hostname], [randomNonce], [nowUnix]
    and [nowRFC3339], and the outcome of the request. *)
Record Env : Type := {
  home : string;
  readFails : bool;
  writeFails : bool;
  hostname : string;
  randomNonce : string;
  nowUnix : Z;
  nowRFC3339 : string;
  verifyOutcome : PostOutcome verifyResponse
}.

Section WithPrimitives.
Context `{Primitives}.

(** [cacheDir] *)
Definition cacheDir (env : Env) (g : Guard) : string :=
  JoinPath [home env; ".deploy-guard"; ProjectSlug (cfg g);
            ComponentSlug (cfg g)].

Definition cachePath (env : Env) (g : Guard) : string :=
  JoinPath [cacheDir env g; "license.cache"].

(** [os.ReadFile] on the cache file *)
Definition readFile (env : Env) (path : string) : M (option string) :=
  d ← getDisk;
  emit (EFs (ReadFile path));;
  mret (if readFails env then None else d !! path).

(** [os.WriteFile] on the cache file; the caller drops the error. *)
Definition writeFile (env : Env) (path data : string) (perm : Z) : M unit :=
  d ← getDisk;
  emit (EFs (WriteFile path data perm));;
  if writeFails env then mret tt else putDisk (<[path := data]> d).

(** [loadCachedLicense]; [None] is the error return. *)
Definition loadCachedLicense (env : Env) : M (option cachedLicense) :=
  g ← getGuard;
  b ← readFile env (cachePath env g);
  match b with
  | None => mret None
  | Some b => mret (json_Unmarshal b)
  end.

(** [cacheLicense] *)
Definition cacheLicense (env : Env) (publicData signature : string)
  : M unit :=
  g ← getGuard;
  let dir := cacheDir env g in
  emit (EFs (MkdirAll dir 448));;
  let data := {| cl_LicenseKey := LicenseKey (cfg g);
                 cl_PublicData := publicData;
                 cl_Signature := signature;
                 cl_VerifiedAt := nowRFC3339 env |} in
  writeFile env (JoinPath [dir; "license.cache"]) (json_Marshal data) 384.

(** The [switch resp.Error] of [verifyLicense]. *)
Definition verifyError (code : string) : error :=
  if String.eqb code "license_not_found" || String.eqb code "license_inactive"
  then Var ErrLicenseInvalid
  else if String.eqb code "license_expired" then Var ErrLicenseExpired
  else if String.eqb code "project_not_authorized" then
    Var ErrProjectNotAuthorized
  else if String.eqb code "max_machines_exceeded" then
    Var ErrMaxMachinesExceeded
  else if String.eqb code "machine_banned" then Var ErrMachineBanned
  else Wrap ErrLicenseInvalid code.

(** Step 2 and 3 of [verifyLicense]: the request and the cache write. *)
Definition verifyBody (env : Env) (g : Guard) : JSON :=
  let fp := fingerprint g in
  JObject [("license_key", JString (LicenseKey (cfg g)));
           ("machine_id", JString (MachineID fp));
           ("aux_signals", JStrings (AuxSignals fp));
           ("project_slug", JString (ProjectSlug (cfg g)));
           ("hostname", JString (hostname env));
           ("os", JString (default "" (auxSignals fp !! "os")));
           ("arch", JString (default "" (auxSignals fp !! "arch")));
           ("nonce", JString (randomNonce env));
           ("timestamp", JNumber (nowUnix env))].

Definition cloudVerification (env : Env) : M (option error) :=
  g ← getGuard;
  r ← postJSON "/api/v1/verify" (verifyBody env g) (verifyOutcome env);
  match r with
  | Err err => mret (Some (Wrap ErrNetworkError (Error_ err)))
  | Ok resp =>
      if negb (String.eqb (vr_Error resp) "") then
        mret (Some (verifyError (vr_Error resp)))
      else
        cacheLicense env (vr_PublicData resp) (vr_Signature resp);;
        mret None
  end.

(** [verifyLicense]; [None] is the nil error. *)
Definition verifyLicense (env : Env) : M (option error) :=
  cached ← loadCachedLicense env;
  g ← getGuard;
  match cached with
  | Some cached =>
      match base64_DecodeString (cl_Signature cached) with
      | Ok sig =>
          let digest := sha256_Sum256 (cl_PublicData cached) in
          if ed25519_Verify (publicKey g) digest sig then mret None
          else cloudVerification env
      | Err _ => cloudVerification env
      end
  | None => cloudVerification env
  end.

(** The cache entry is trusted: the file can be read, decodes into a
    [cachedLicense], its signature field is base64 and verifies over
    the digest of the payload under the configured public key. *)
Definition cacheTrusted (env : Env) (s : Store) : bool :=
  match (if readFails env then None
         else disk s !! cachePath env (guard s)) with
  | Some b =>
      match json_Unmarshal b with
      | Some cached =>
          match base64_DecodeString (cl_Signature cached) with
          | Ok sig =>
              ed25519_Verify (publicKey (guard s))
                             (sha256_Sum256 (cl_PublicData cached)) sig
          | Err _ => false
          end
      | None => false
      end
  | None => false
  end.

(** What the remote exchange alone decides: the result of the request
    and the error code of the response. *)
Definition remoteVerdict (env : Env) : option error :=
  match postResult (verifyOutcome env) with
  | Err err => Some (Wrap ErrNetworkError (Error_ err))
  | Ok resp =>
      if negb (String.eqb (vr_Error resp) "") then
        Some (verifyError (vr_Error resp))
      else None
  end.

(** The cache document written after the response [resp]. *)
Definition freshEntry (env : Env) (g : Guard) (resp : verifyResponse)
  : cachedLicense :=
  {| cl_LicenseKey := LicenseKey (cfg g);
     cl_PublicData := vr_PublicData resp;
     cl_Signature := vr_Signature resp;
     cl_VerifiedAt := nowRFC3339 env |}.

End WithPrimitives.

End License.

(** ** Update notifications (updater.go) and the heartbeat (heartbeat.go) *)

Module Heartbeat.

(** The [for] loop of [handleUpdateNotification] over the managed
    components, with its [switch] on the strategy. *)
Fixpoint routeManaged (autoUpdate : bool) (mcs : list ManagedComponent)
    (u : updateInfo) : M unit :=
  match mcs with
  | [] => mret tt
  | mc :: rest =>
      if String.eqb (Slug mc) (Component u) then
        when autoUpdate
          (if Strategy mc =? UpdateBackend then emit (EGo (GoUpdateBackend u))
           else if Strategy mc =? UpdateFrontend then
             emit (EGo (GoUpdateFrontend mc u))
           else emit (EGo (GoUpdateFrontend mc u)))
      else routeManaged autoUpdate rest u
  end.

(** [handleUpdateNotification] *)
Definition handleUpdateNotification (u : updateInfo) : M unit :=
  g ← getGuard;
  if String.eqb (Component u) (ComponentSlug (cfg g)) then
    when (AutoUpdate (OTA (cfg g))) (emit (EGo (GoUpdateBackend u)))
  else
    routeManaged (AutoUpdate (OTA (cfg g))) (ManagedComponents (cfg g)) u.

(** The [for _, u := range resp.Updates] loop of [sendHeartbeat]. *)
Fixpoint notifyUpdates (us : list updateInfo) : M unit :=
  match us with
  | [] => mret tt
  | u :: rest =>
      when (UpdateAvailable u) (handleUpdateNotification u);;
      notifyUpdates rest
  end.

Definition componentEntry (slug ver : string) : JSON :=
  JObject [("slug", JString slug); ("version", JString ver)].

(** The request body of the heartbeat: the versions are read from the
    snapshot taken under the read lock; a slug without an entry reads as
    the empty string. *)
Definition heartbeatBody (g : Guard) : JSON :=
  let currentVersion := version g in
  let managedVersionsSnapshot := managedVersions g in
  let components :=
    componentEntry (ComponentSlug (cfg g)) currentVersion ::
    map (fun mc => componentEntry (Slug mc)
                     (default "" (managedVersionsSnapshot !! Slug mc)))
        (ManagedComponents (cfg g)) in
  JObject [("license_key", JString (LicenseKey (cfg g)));
           ("machine_id", JString (MachineID (fingerprint g)));
           ("project_slug", JString (ProjectSlug (cfg g)));
           ("components", JArray components)].

(** [sendHeartbeat]; [None] is the nil error. *)
Definition sendHeartbeat (outcome : PostOutcome heartbeatResponse)
  : M (option error) :=
  g ← getGuard;
  r ← postJSON "/api/v1/heartbeat" (heartbeatBody g) outcome;
  match r with
  | Err err => mret (Some (Wrap ErrNetworkError (Error_ err)))
  | Ok resp =>
      if String.eqb (hb_Status resp) "kill" then
        smCall EvKill;;
        mret (Some (Var ErrBanned))
      else
        when (Enabled (OTA (cfg g)) && negb (hb_UpdateFrozen resp))
             (notifyUpdates (hb_Updates resp));;
        mret None
  end.

(** One wake-up of the loop of [startHeartbeat]: either the context is
    done, or the jittered timer fires; then the heartbeat has an outcome,
    [now] is what [time.Now()] returns if the grace start is recorded, and
    [later] the clock read by [time.Since].  The length of the sleep,
    [interval * (0.9 + rand.Float64()*0.2)], does not enter the model. *)
Inductive Tick : Type :=
| Done
| Fired (outcome : PostOutcome heartbeatResponse) (now later : Z).

Inductive Control : Type := Continue | Return.

(** The loop variable [graceStart]: [None] is the zero [time.Time]. *)
Definition GraceStart := option Z.

(** The body of the loop after [err := g.sendHeartbeat()]. *)
Definition afterHeartbeat (err : option error) (now later : Z)
    (graceStart : GraceStart) : M (Control * GraceStart) :=
  match err with
  | None =>
      smCall EvHeartbeatOK;;
      mret (Continue, None)
  | Some _ =>
      if isFatalError err then
        smCall EvKill;;
        mret (Return, graceStart)
      else
        g ← getGuard;
        smCall EvHeartbeatFail;;
        let graceStart :=
          match graceStart with
          | None => now
          | Some t => t
          end in
        if later - graceStart >? MaxOfflineDuration (GracePolicy_ (cfg g)) then
          smCall EvGracePeriodExpired;;
          mret (Return, Some graceStart)
        else mret (Continue, Some graceStart)
  end.

(** One iteration of the loop. *)
Definition iteration (t : Tick) (graceStart : GraceStart)
  : M (Control * GraceStart) :=
  match t with
  | Done => mret (Return, graceStart)
  | Fired outcome now later =>
      err ← sendHeartbeat outcome;
      afterHeartbeat err now later graceStart
  end.

(** The goroutine of [startHeartbeat] run against the wake-ups [ticks]:
    [Return] when it has returned, [Continue] when it is still waiting after
    the last of them. *)
Fixpoint heartbeatLoop (ticks : list Tick) (graceStart : GraceStart)
  : M (Control * GraceStart) :=
  match ticks with
  | [] => mret (Continue, graceStart)
  | t :: rest =>
      r ← iteration t graceStart;
      match r.1 with
      | Return => mret r
      | Continue => heartbeatLoop rest r.2
      end
  end.

(** [startHeartbeat] *)
Definition startHeartbeat (ticks : list Tick) : M (Control * GraceStart) :=
  heartbeatLoop ticks None.

(** Handing each entry of a list to [handleUpdateNotification], in order. *)
Definition dispatchAll (us : list updateInfo) : M unit :=
  foldr (fun u k => handleUpdateNotification u;; k) (mret tt) us.

(** The goroutines a run started. *)
Definition started (l : list Effect) : list Task :=
  omap (fun e => match e with EGo t => Some t | _ => None end) l.

(** The calls of the state machine a run made. *)
Definition smCalls (l : list Effect) : list Machine.Event :=
  omap (fun e => match e with ESm ev => Some ev | _ => None end) l.

End Heartbeat.

(** ** The update engine (updater.go) *)

Module Updater.

(** The response struct of [requestDownloadMeta]. *)
Record downloadMeta : Type := {
  dm_DownloadURL : string;
  dm_SHA256 : string;
  dm_Signature : string;
  dm_Error : string
}.

(** The response struct of [updateFrontend]. *)
Record frontendMeta : Type := {
  fm_DownloadURL : string;
  fm_SHA256 : string;
  fm_Error : string
}.

(** What happens to a GET: the request cannot be built, the transport
    fails, or a response arrives with a status code and a body. *)
Inductive GetOutcome : Type :=
| GetRequestFails (err : error)
| GetFails (err : error)
| GetResponse (status : Z) (body : string).

(** [update.Apply] of go-selfupdate: it succeeds, or fails with [err], in
    which case [update.RollbackError(err)] is [rollback]. *)
Inductive ApplyOutcome : Type :=
| Applied
| ApplyFails (err : error) (rollback : option error).

(** What the surroundings answer during one [updateBackend]. *)
Record BackendEnv : Type := {
  metaOutcome : PostOutcome downloadMeta;
  getOutcome : GetOutcome;
  createTemp : result string;
  copyErr : option error;
  executable : result string;
  openTmp : option error;
  applyOutcome : ApplyOutcome
}.

(** [archive/tar]: a header and the bytes of its entry. *)
Record tarEntry : Type := {
  Name : string;
  Typeflag : ascii;
  Mode : Z;
  content : string
}.

Definition TypeReg : ascii := "0"%char.
Definition TypeDir : ascii := "5"%char.

(** How the stream of entries ends: [io.EOF] or another error of
    [tr.Next]. *)
Inductive TarEnd : Type :=
| TarEOF
| TarError (err : error).

(** What the surroundings answer during one [updateFrontend]: the request,
    the download, [os.MkdirTemp], [gzip.NewReader], the entries the tar
    reader yields and how they end, [os.OpenFile] and [io.Copy] per target
    path, how many bytes of the size-limited body had passed the tee reader
    when the digest is taken, whether [os.Stat] finds the live directory,
    and the two renames of the swap. *)
Record FrontendEnv : Type := {
  f_metaOutcome : PostOutcome frontendMeta;
  f_getOutcome : GetOutcome;
  f_mkdirTemp : result string;
  f_gzip : option error;
  f_entries : list tarEntry;
  f_end : TarEnd;
  f_openFile : string -> option error;
  f_copy : string -> option error;
  f_consumed : nat;
  f_statErr : option error;
  f_renameBackup : option error;
  f_renameNew : option error
}.

Definition log (level : LogLevel) (msg : string) : M unit :=
  emit (ELog level msg).

(** The guarded calls of the three callbacks. *)
Definition progress (component stage : string) (tenths : Z) : M unit :=
  g ← getGuard;
  when (OnUpdateProgress (OTA (cfg g))) (emit (EProgress component stage tenths)).

Definition notifyFailure (component : string) (err : error) : M unit :=
  g ← getGuard;
  when (OnUpdateFailure (OTA (cfg g))) (emit (EFailure component err)).

Definition notifyResult (component oldVer newVer : string) (success : bool)
    (err : option error) : M unit :=
  g ← getGuard;
  when (OnUpdateResult (OTA (cfg g)))
       (emit (EResult component oldVer newVer success err)).

(** [io.LimitReader(body, maxBytes)] read to its end. *)
Definition limited (body : string) (maxBytes : Z) : string :=
  String.substring 0 (Z.to_nat maxBytes) body.

(** [os.FileMode(hdr.Mode)], a conversion to [uint32]. *)
Definition FileMode (mode : Z) : Z := mode mod 2 ^ 32.

Section WithPrimitives.
Context `{Primitives}.

(** [requestDownloadMeta] *)
Definition requestDownloadMeta (env : BackendEnv)
    (component ver os arch : string) : M (result (string * string * string)) :=
  g ← getGuard;
  let reqBody :=
    JObject [("license_key", JString (LicenseKey (cfg g)));
             ("machine_id", JString (MachineID (fingerprint g)));
             ("project_slug", JString (ProjectSlug (cfg g)));
             ("component_slug", JString component);
             ("version", JString ver);
             ("os", JString os);
             ("arch", JString arch)] in
  r ← postJSON "/api/v1/update/download" reqBody (metaOutcome env);
  match r with
  | Err err => mret (Err err)
  | Ok resp =>
      if negb (String.eqb (dm_Error resp) "") then
        mret (Err (Msg ("server error: " +:+ dm_Error resp)))
      else mret (Ok (dm_DownloadURL resp, dm_SHA256 resp, dm_Signature resp))
  end.

(** [downloadArtifactWithProgress] *)
Definition downloadArtifactWithProgress (env : BackendEnv)
    (downloadURL : string) (maxBytes : Z) : M (result (string * string)) :=
  g ← getGuard;
  let fullURL := ServerURL (cfg g) +:+ downloadURL in
  match getOutcome env with
  | GetRequestFails err =>
      mret (Err (Msg ("create request: " +:+ Error_ err)))
  | GetFails err =>
      emit (EHttpGet fullURL);;
      mret (Err (Msg ("download failed: " +:+ Error_ err)))
  | GetResponse status body =>
      emit (EHttpGet fullURL);;
      if negb (status =? StatusOK) then
        mret (Err (Msg ("download failed with status " +:+ fmtInt status)))
      else
        emit (EFs (CreateTemp "deploy-guard-update-*"));;
        match createTemp env with
        | Err err => mret (Err (Msg ("create temp file: " +:+ Error_ err)))
        | Ok tmpName =>
            let data := limited body maxBytes in
            match copyErr env with
            | Some err =>
                emit (EFs (Remove tmpName));;
                mret (Err (Msg ("copy failed: " +:+ Error_ err)))
            | None =>
                emit (EFs (Copy tmpName data));;
                let actualHash := hex_EncodeToString (sha256_Sum256 data) in
                mret (Ok (tmpName, actualHash))
            end
        end
  end.

(** [verifySignature]; [None] is the nil error. *)
Definition verifySignature (g : Guard) (data signatureB64 : string)
  : option error :=
  match base64_DecodeString signatureB64 with
  | Err err => Some (Msg ("decode signature: " +:+ Error_ err))
  | Ok sig =>
      let digest := sha256_Sum256 data in
      if negb (ed25519_Verify (publicKey g) digest sig) then
        Some (Msg "signature verification failed")
      else None
  end.

(** [applyBackendBinaryWithSelfupdate] *)
Definition applyBackendBinaryWithSelfupdate (env : BackendEnv)
    (tmpPath targetPath : string) : M (option error) :=
  emit (EFs (Open tmpPath));;
  match openTmp env with
  | Some err => mret (Some (Msg ("open temp file: " +:+ Error_ err)))
  | None =>
      emit (EFs (Apply tmpPath (targetPath +:+ ".bak")));;
      match applyOutcome env with
      | ApplyFails err rollback =>
          match rollback with
          | Some rerr =>
              mret (Some (WrapUpdate ErrUpdateRollback
                            ("rollback also failed: " +:+ Error_ rerr)))
          | None => mret (Some err)
          end
      | Applied => mret None
      end
  end.

(** The two guarded calls every failure branch of [updateBackend] makes:
    [OnUpdateFailure] with the error wrapped in [v], then [OnUpdateResult]
    with [false] and the error itself. *)
Definition backendFailure (component oldVersion newVersion : string)
    (v : updateErrVar) (err : error) : M unit :=
  notifyFailure component (WrapUpdate v (Error_ err));;
  notifyResult component oldVersion newVersion false (Some err).

(** [updateBackend].  The update mutex is held throughout; the deferred
    [os.Remove(tmpPath)] runs when the function returns. *)
Definition updateBackend (env : BackendEnv) (u : updateInfo) : M unit :=
  g ← getGuard;
  let slug := ComponentSlug (cfg g) in
  let oldVersion := version g in
  log LInfo "starting backend update";;
  progress slug "requesting" 0;;
  meta ← requestDownloadMeta env slug (Latest u) (OS (OTA (cfg g)))
                             (Arch (OTA (cfg g)));
  match meta with
  | Err err =>
      log LError "failed to request download metadata";;
      backendFailure slug oldVersion (Latest u) ErrUpdateDownload err
  | Ok (url, sha256Hash, signature) =>
      progress slug "downloading" 3;;
      dl ← downloadArtifactWithProgress env url
                                        (MaxArtifactBytes (OTA (cfg g)));
      match dl with
      | Err err =>
          log LError "failed to download artifact";;
          backendFailure slug oldVersion (Latest u) ErrUpdateDownload err
      | Ok (tmpPath, actualSHA256) =>
          (progress slug "verifying" 6;;
           if negb (String.eqb actualSHA256 sha256Hash) then
             let err := Msg ("hash mismatch: expected " +:+ sha256Hash
                             +:+ ", got " +:+ actualSHA256) in
             log LError "hash verification failed";;
             backendFailure slug oldVersion (Latest u) ErrUpdateVerify err
           else
             match verifySignature g sha256Hash signature with
             | Some err =>
                 log LError "signature verification failed";;
                 backendFailure slug oldVersion (Latest u) ErrUpdateVerify err
             | None =>
                 progress slug "applying" 8;;
                 emit (EFs Executable);;
                 match executable env with
                 | Err err =>
                     log LError "failed to get executable path";;
                     backendFailure slug oldVersion (Latest u)
                                    ErrUpdateApply err
                 | Ok exe =>
                     applied ← applyBackendBinaryWithSelfupdate env tmpPath exe;
                     match applied with
                     | Some err =>
                         log LError "failed to apply update";;
                         backendFailure slug oldVersion (Latest u)
                                        ErrUpdateApply err
                     | None =>
                         SetVersion (Latest u);;
                         log LInfo "backend update completed";;
                         notifyResult slug oldVersion (Latest u) true None;;
                         progress slug "completed" 10
                     end
                 end
             end);;
          emit (EFs (Remove tmpPath))
      end
  end.

(** An entry's path as [updateFrontend] resolves it, and the test that
    lets the entry through. *)
Definition resolve (tmpDir name : string) : string := JoinPath [tmpDir; name].

Definition insideRoot (tmpDir name : string) : bool :=
  let target := resolve tmpDir name in
  let cleanedTarget := Clean target in
  let cleanedTmpDir := Clean tmpDir +:+ PathSeparator in
  HasPrefix cleanedTarget cleanedTmpDir.

Inductive Flow : Type := Proceed | Abort.

(** The extraction loop of [updateFrontend] over the entries the tar reader
    yields: [Proceed] when it leaves the loop at [io.EOF], [Abort] when the
    function returns from inside it. *)
Fixpoint extractEntries (env : FrontendEnv) (slug tmpDir : string)
    (entries : list tarEntry) : M Flow :=
  match entries with
  | [] =>
      match f_end env with
      | TarEOF => mret Proceed
      | TarError err =>
          log LError "failed to read tar entry";;
          notifyFailure slug (WrapUpdate ErrUpdateVerify (Error_ err));;
          mret Abort
      end
  | hdr :: rest =>
      let target := resolve tmpDir (Name hdr) in
      if negb (insideRoot tmpDir (Name hdr)) then
        log LWarn "path traversal attempt detected";;
        extractEntries env slug tmpDir rest
      else if Ascii.eqb (Typeflag hdr) TypeDir then
        emit (EFs (MkdirAll target (FileMode (Mode hdr))));;
        extractEntries env slug tmpDir rest
      else if Ascii.eqb (Typeflag hdr) TypeReg then
        emit (EFs (MkdirAll (PathDir target) 493));;
        emit (EFs (OpenFile target (FileMode (Mode hdr))));;
        match f_openFile env target with
        | Some err =>
            log LError "failed to create file";;
            notifyFailure slug (WrapUpdate ErrUpdateApply (Error_ err));;
            mret Abort
        | None =>
            match f_copy env target with
            | Some err =>
                log LError "failed to write file";;
                notifyFailure slug (WrapUpdate ErrUpdateApply (Error_ err));;
                mret Abort
            | None =>
                emit (EFs (Copy target (content hdr)));;
                extractEntries env slug tmpDir rest
            end
        end
      else extractEntries env slug tmpDir rest
  end.

(** The digest [updateFrontend] compares: over the bytes of the
    size-limited body that the decoders had read. *)
Definition streamedDigest (env : FrontendEnv) (body : string) (maxBytes : Z)
  : string :=
  hex_EncodeToString
    (sha256_Sum256 (String.substring 0 (f_consumed env) (limited body maxBytes))).

(** The swap and what follows it in [updateFrontend]. *)
Definition swapAndCommit (env : FrontendEnv) (mc : ManagedComponent)
    (u : updateInfo) (tmpDir : string) : M unit :=
  let backupDir := Dir mc +:+ ".bak" in
  emit (EFs (RemoveAll backupDir));;
  emit (EFs (Stat (Dir mc)));;
  backedUp ←
    match f_statErr env with
    | None =>
        emit (EFs (Rename (Dir mc) backupDir));;
        match f_renameBackup env with
        | Some err =>
            log LError "failed to backup old dir";;
            notifyFailure (Slug mc) (WrapUpdate ErrUpdateApply (Error_ err));;
            mret Abort
        | None => mret Proceed
        end
    | Some _ => mret Proceed
    end;
  match backedUp with
  | Abort => mret tt
  | Proceed =>
      emit (EFs (Rename tmpDir (Dir mc)));;
      match f_renameNew env with
      | Some err =>
          emit (EFs (Rename backupDir (Dir mc)));;
          log LError "failed to move new dir";;
          notifyFailure (Slug mc) (WrapUpdate ErrUpdateApply (Error_ err))
      | None =>
          g ← getGuard;
          let oldVersion := default "" (managedVersions g !! Slug mc) in
          SetManagedVersion (Slug mc) (Latest u);;
          log LInfo "frontend update completed";;
          notifyResult (Slug mc) oldVersion (Latest u) true None;;
          progress (Slug mc) "completed" 10;;
          match PostUpdate mc with
          | Some _ => emit (EHook (Slug mc))
          | None => mret tt
          end
      end
  end.

(** [updateFrontend].  The update mutex is held throughout; the deferred
    [os.RemoveAll(tmpDir)] runs when the function returns after the
    temporary directory was made. *)
Definition updateFrontend (env : FrontendEnv) (mc : ManagedComponent)
    (u : updateInfo) : M unit :=
  g ← getGuard;
  let slug := Slug mc in
  log LInfo "starting frontend update";;
  progress slug "requesting" 0;;
  let reqBody :=
    JObject [("license_key", JString (LicenseKey (cfg g)));
             ("machine_id", JString (MachineID (fingerprint g)));
             ("project_slug", JString (ProjectSlug (cfg g)));
             ("component_slug", JString slug);
             ("version", JString (Latest u));
             ("os", JString "universal");
             ("arch", JString "universal")] in
  r ← postJSON "/api/v1/update/download" reqBody (f_metaOutcome env);
  match r with
  | Err err =>
      log LError "failed to request download";;
      notifyFailure slug (WrapUpdate ErrUpdateDownload (Error_ err))
  | Ok resp =>
      if negb (String.eqb (fm_Error resp) "") then
        log LError "server returned error";;
        notifyFailure slug (WrapUpdate ErrUpdateDownload (fm_Error resp))
      else
        progress slug "downloading" 3;;
        let fullURL := ServerURL (cfg g) +:+ fm_DownloadURL resp in
        emit (EHttpGet fullURL);;
        match f_getOutcome env with
        | GetRequestFails err | GetFails err =>
            log LError "failed to download";;
            notifyFailure slug (WrapUpdate ErrUpdateDownload (Error_ err))
        | GetResponse status body =>
            if negb (status =? StatusOK) then
              log LError "download failed with status";;
              notifyFailure slug
                (WrapUpdate ErrUpdateDownload ("status " +:+ fmtInt status))
            else
              emit (EFs (MkdirTemp "deploy-guard-frontend-*"));;
              match f_mkdirTemp env with
              | Err err =>
                  log LError "failed to create temp dir";;
                  notifyFailure slug (WrapUpdate ErrUpdateApply (Error_ err))
              | Ok tmpDir =>
                  (progress slug "extracting" 5;;
                   match f_gzip env with
                   | Some err =>
                       log LError "failed to create gzip reader";;
                       notifyFailure slug
                         (WrapUpdate ErrUpdateVerify (Error_ err))
                   | None =>
                       flow ← extractEntries env slug tmpDir (f_entries env);
                       match flow with
                       | Abort => mret tt
                       | Proceed =>
                           progress slug "verifying" 8;;
                           let actualHash :=
                             streamedDigest env body
                               (MaxArtifactBytes (OTA (cfg g))) in
                           if negb (String.eqb actualHash (fm_SHA256 resp))
                           then
                             log LError "hash mismatch";;
                             notifyFailure slug
                               (WrapUpdate ErrUpdateVerify "hash mismatch")
                           else
                             progress slug "applying" 9;;
                             swapAndCommit env mc u tmpDir
                       end
                   end);;
                  emit (EFs (RemoveAll tmpDir))
              end
        end
  end.

End WithPrimitives.

(** The calls of [OnUpdateFailure] and [OnUpdateResult] a run made. *)
Definition failures (l : list Effect) : list (string * error) :=
  omap (fun e => match e with EFailure c err => Some (c, err) | _ => None end) l.

Definition results (l : list Effect) : list Effect :=
  List.filter (fun e => match e with EResult _ _ _ _ _ => true | _ => false end) l.

(** Both kinds of call, in the order they were made. *)
Definition reports (l : list Effect) : list Effect :=
  List.filter (fun e => match e with
                        | EFailure _ _ | EResult _ _ _ _ _ => true
                        | _ => false
                        end) l.

(** The file operations of a run, and among them those that remove, rename
    or replace: the steps by which an artifact is applied or discarded. *)
Definition fsOps (l : list Effect) : list FsOp :=
  omap (fun e => match e with EFs op => Some op | _ => None end) l.

Definition isSwapOp (op : FsOp) : bool :=
  match op with
  | Rename _ _ | RemoveAll _ | Remove _ | Apply _ _ => true
  | _ => false
  end.

Definition swapOps (l : list Effect) : list FsOp :=
  List.filter isSwapOp (fsOps l).

(** The file operations the extraction performs for one entry that passed
    the path test. *)
Definition entryOps (tmpDir : string) (hdr : tarEntry) : list FsOp :=
  let target := resolve tmpDir (Name hdr) in
  if Ascii.eqb (Typeflag hdr) TypeDir then
    [MkdirAll target (FileMode (Mode hdr))]
  else if Ascii.eqb (Typeflag hdr) TypeReg then
    [MkdirAll (PathDir target) 493; OpenFile target (FileMode (Mode hdr));
     Copy target (content hdr)]
  else [].

(** Whether creating or writing the regular file of an entry fails, which
    makes [updateFrontend] return from inside the loop. *)
Definition entryFails (env : FrontendEnv) (tmpDir : string) (hdr : tarEntry)
  : bool :=
  let target := resolve tmpDir (Name hdr) in
  negb (Ascii.eqb (Typeflag hdr) TypeDir) && Ascii.eqb (Typeflag hdr) TypeReg &&
  (bool_decide (is_Some (f_openFile env target)) ||
   bool_decide (is_Some (f_copy env target))).

(** The operations of [entryOps] that are reached: all of them, or those
    before the copy when creating or writing the file fails. *)
Definition performedOps (env : FrontendEnv) (tmpDir : string) (hdr : tarEntry)
  : list FsOp :=
  let target := resolve tmpDir (Name hdr) in
  if entryFails env tmpDir hdr then
    [MkdirAll (PathDir target) 493; OpenFile target (FileMode (Mode hdr))]
  else entryOps tmpDir hdr.

End Updater.

(** ** Concrete inputs

    A stand-in for the library functions and a guard, with responses and
    archives like those of the package's tests, on which the definitions
    above evaluate. *)

Module Sample.
Import License Heartbeat Updater.

(** Stand-ins: the digest and the encodings are the identity, a signature
    is valid when it is the key followed by the message, the cache
    document is its payload, a bar and its signature, and the only document
    that decodes is "signed-entry". *)
Definition signedEntry : cachedLicense := {|
  cl_LicenseKey := "test-key";
  cl_PublicData := "payload";
  cl_Signature := "0123456789abcdef0123456789abcdefpayload";
  cl_VerifiedAt := "2023-11-14T22:13:20Z"
|}.

Definition primitives : Primitives := {|
  sha256_Sum256 := fun data => data;
  hex_EncodeToString := fun b => b;
  base64_DecodeString := fun s => Ok s;
  ed25519_Verify := fun pk msg sig => String.eqb sig (pk +:+ msg);
  pem_Decode := fun b => Some b;
  json_Marshal := fun c => cl_PublicData c +:+ "|" +:+ cl_Signature c;
  json_Unmarshal :=
    fun b => if String.eqb b "signed-entry" then Some signedEntry else None;
  GOOS := "linux";
  GOARCH := "amd64"
|}.

Definition web : ManagedComponent := {|
  Slug := "frontend";
  Dir := "/srv/app/web";
  Strategy := UpdateFrontend;
  PostUpdate := None
|}.

Definition ota : OTAConfig := {|
  Enabled := true;
  AutoUpdate := true;
  CheckInterval := 0;
  OS := "linux";
  Arch := "amd64";
  DownloadTimeout := 0;
  MaxArtifactBytes := 1024;
  OnUpdateProgress := true;
  OnUpdateResult := true;
  OnUpdateFailure := true
|}.

Definition config : Config := {|
  ServerURL := "https://hub.example";
  LicenseKey := "test-key";
  PublicKeyPEM := Some "0123456789abcdef0123456789abcdef";
  ProjectSlug := "test-project";
  ComponentSlug := "backend";
  HeartbeatInterval := 50 * 1000000;
  GracePolicy_ := {| MaxOfflineDuration := 200 * 1000000;
                     WarningInterval := 0 |};
  OTA := ota;
  ManagedComponents := [web]
|}.

(** The same configuration without a server URL. *)
Definition configNoURL : Config := {|
  ServerURL := "";
  LicenseKey := "test-key";
  PublicKeyPEM := Some "0123456789abcdef0123456789abcdef";
  ProjectSlug := "test-project";
  ComponentSlug := "backend";
  HeartbeatInterval := 0;
  GracePolicy_ := {| MaxOfflineDuration := 0; WarningInterval := 0 |};
  OTA := ota;
  ManagedComponents := [web]
|}.

Definition host : HostInfo := {|
  protectedID := Ok "machine-1";
  cpuInfo := None;
  totalRAM := None;
  macAddresses := []
|}.

Definition theGuard : Guard := {|
  cfg := config;
  publicKey := "0123456789abcdef0123456789abcdef";
  fingerprint := {| machineID := "test-machine"; auxSignals := ∅ |};
  sm := StateActive;
  version := "1.0.0";
  managedVersions := {["frontend" := "1.0.0"]}
|}.

Definition store : Store := {| guard := theGuard; disk := ∅ |}.

(** A heartbeat answer that orders the kill and also announces an update of
    the primary component. *)
Definition backendUpdate : updateInfo := {|
  Component := "backend";
  Current := "1.0.0";
  Latest := "2.0.0";
  UpdateAvailable := true;
  Mandatory := false;
  ReleaseNotes := ""
|}.

Definition killWithUpdate : heartbeatResponse := {|
  hb_Status := "kill";
  hb_ServerTime := "";
  hb_NextInterval := 0;
  hb_UpdateFrozen := false;
  hb_Updates := [backendUpdate];
  hb_Reason := "";
  hb_Message := ""
|}.

(** Five wake-ups, 50 ms apart from 1 s on, at each of which the request
    cannot be sent (interval 50 ms, at most 200 ms offline). *)
Definition unreachable : PostOutcome heartbeatResponse :=
  SendFails (Msg "connection refused").

Definition fiveFailures : list Tick :=
  [Fired unreachable 1000000000 1000000000;
   Fired unreachable 1050000000 1050000000;
   Fired unreachable 1100000000 1100000000;
   Fired unreachable 1150000000 1150000000;
   Fired unreachable 1250000000 1250000000].

Definition okWithUpdate : heartbeatResponse := {|
  hb_Status := "ok";
  hb_ServerTime := "";
  hb_NextInterval := 0;
  hb_UpdateFrozen := false;
  hb_Updates := [backendUpdate];
  hb_Reason := "";
  hb_Message := ""
|}.

(** License verification with no cache file and an accepting server. *)
Definition licenseEnv : License.Env := {|
  home := "/home/app";
  readFails := false;
  writeFails := false;
  hostname := "host-1";
  randomNonce := "00112233445566778899aabbccddeeff";
  nowUnix := 1700000000;
  nowRFC3339 := "2023-11-14T22:13:20Z";
  verifyOutcome :=
    Response StatusOK
      (Ok {| vr_Status := "ok"; vr_Error := ""; vr_Message := "";
             vr_UpdateFrozen := false; vr_PublicData := "payload";
             vr_Signature := "sig" |})
|}.

(** A store whose cache file holds a trusted entry. *)
Definition storeWithSignedCache : Store := {|
  guard := theGuard;
  disk := {["/home/app/.deploy-guard/test-project/backend/license.cache" :=
            "signed-entry"]}
|}.

(** A store whose cache file holds a document that does not decode. *)
Definition storeWithStaleCache : Store := {|
  guard := theGuard;
  disk := {["/home/app/.deploy-guard/test-project/backend/license.cache" :=
            "stale"]}
|}.

(** A frontend update whose server declares the digest "badhash" for an
    archive with one regular file, as in the hash-mismatch test. *)
Definition frontendUpdate : updateInfo := {|
  Component := "frontend";
  Current := "1.0.0";
  Latest := "2.0.0";
  UpdateAvailable := true;
  Mandatory := false;
  ReleaseNotes := ""
|}.

Definition testTxt : tarEntry := {|
  Name := "test.txt";
  Typeflag := TypeReg;
  Mode := 420;
  content := "test"
|}.

Definition passwd : tarEntry := {|
  Name := "../etc/passwd";
  Typeflag := TypeReg;
  Mode := 420;
  content := "root:"
|}.

Definition frontendMismatch : FrontendEnv := {|
  f_metaOutcome :=
    Response StatusOK
      (Ok {| fm_DownloadURL := "/download/frontend.tar.gz";
             fm_SHA256 := "badhash"; fm_Error := "" |});
  f_getOutcome := GetResponse StatusOK "archive-bytes";
  f_mkdirTemp := Ok "/tmp/deploy-guard-frontend-1";
  f_gzip := None;
  f_entries := [testTxt];
  f_end := TarEOF;
  f_openFile := fun _ => None;
  f_copy := fun _ => None;
  f_consumed := 13;
  f_statErr := None;
  f_renameBackup := None;
  f_renameNew := None
|}.

(** A backend update whose download does not have the declared digest. *)
Definition backendMismatch : BackendEnv := {|
  metaOutcome :=
    Response StatusOK
      (Ok {| dm_DownloadURL := "/download/backend";
             dm_SHA256 := "expected-digest"; dm_Signature := "sig";
             dm_Error := "" |});
  getOutcome := GetResponse StatusOK "binary-bytes";
  createTemp := Ok "/tmp/deploy-guard-update-1";
  copyErr := None;
  executable := Ok "/srv/app/backend";
  openTmp := None;
  applyOutcome := Applied
|}.

End Sample.

(** ** Start, the binary hash and version resolution
       (guard.go, binaryhash.go, plugins.go) *)

Module Lifecycle.
Import License Heartbeat.

(** An error built by [fmt.Errorf("<prefix>: %w", cause)] around any
    error: the chain keeps its cause. *)
Inductive chain : Type :=
| Plain (e : error)
| Prefixed (prefix : string) (cause : chain).

(** The innermost error of a chain, which [errors.Is] compares last. *)
Fixpoint rootCause (c : chain) : error :=
  match c with
  | Plain e => e
  | Prefixed _ cause => rootCause cause
  end.

(** The package variables of binaryhash.go: whether [binaryHashOnce] has
    run, [binaryHashValue] and [binaryHashError]. *)
Record HashCache : Type := {
  onceDone : bool;
  hashValue : string;
  hashError : option chain
}.

(** [ResetBinaryHashCache] *)
Definition ResetBinaryHashCache : HashCache :=
  {| onceDone := false; hashValue := ""; hashError := None |}.

(** What the host answers when the executable is hashed: [os.Executable],
    [os.Open], the bytes of the file and [io.Copy] into the hasher. *)
Record ExeEnv : Type := {
  exePath : result string;
  exeOpen : option error;
  exeBytes : string;
  exeCopy : option error
}.

(** The response struct of [AutoResolveVersion]. *)
Record resolveResponse : Type := {
  rr_Version : string;
  rr_GitCommit : string;
  rr_BuildTime : string;
  rr_Error : string
}.

(** [findManagedComponent] (plugins.go): [None] is the [false] return. *)
Fixpoint findManaged (mcs : list ManagedComponent) (slug : string)
  : option ManagedComponent :=
  match mcs with
  | [] => None
  | mc :: rest =>
      if String.eqb (Slug mc) slug then Some mc else findManaged rest slug
  end.

Definition findManagedComponent (g : Guard) (slug : string)
  : option ManagedComponent :=
  findManaged (ManagedComponents (cfg g)) slug.

Section WithPrimitives.
Context `{Primitives}.

(** [GetBinaryHash]: the returned pair, the package variables afterwards
    and the file operations made.  The body of [binaryHashOnce.Do] runs
    only while [onceDone] is unset. *)
Definition GetBinaryHash (env : ExeEnv) (c : HashCache)
  : (string * option chain) * HashCache * list FsOp :=
  if onceDone c then ((hashValue c, hashError c), c, [])
  else
    match exePath env with
    | Err err =>
        let e := Prefixed "get executable path" (Plain err) in
        ((hashValue c, Some e),
         {| onceDone := true; hashValue := hashValue c; hashError := Some e |},
         [Executable])
    | Ok exe =>
        match exeOpen env with
        | Some err =>
            let e := Prefixed "open executable" (Plain err) in
            ((hashValue c, Some e),
             {| onceDone := true; hashValue := hashValue c;
                hashError := Some e |},
             [Executable; Open exe])
        | None =>
            match exeCopy env with
            | Some err =>
                let e := Prefixed "calculate hash" (Plain err) in
                ((hashValue c, Some e),
                 {| onceDone := true; hashValue := hashValue c;
                    hashError := Some e |},
                 [Executable; Open exe])
            | None =>
                let v := hex_EncodeToString (sha256_Sum256 (exeBytes env)) in
                ((v, hashError c),
                 {| onceDone := true; hashValue := v;
                    hashError := hashError c |},
                 [Executable; Open exe])
            end
        end
    end.

(** [AutoResolveVersion]: the returned error and the package variables of
    the hash afterwards. *)
Definition AutoResolveVersion (env : ExeEnv)
    (outcome : PostOutcome resolveResponse) (c : HashCache)
  : M (option chain * HashCache) :=
  let r := GetBinaryHash env c in
  let binaryHash := r.1.1.1 in
  let c' := r.1.2 in
  foldr (fun op k => emit (EFs op);; k) (mret tt) r.2;;
  match r.1.1.2 with
  | Some err => mret (Some (Prefixed "calculate binary hash" err), c')
  | None =>
      g ← getGuard;
      let reqBody :=
        JObject [("license_key", JString (LicenseKey (cfg g)));
                 ("machine_id", JString (MachineID (fingerprint g)));
                 ("project_slug", JString (ProjectSlug (cfg g)));
                 ("component", JString (ComponentSlug (cfg g)));
                 ("binary_hash", JString binaryHash)] in
      resp ← postJSON "/api/v1/version/resolve" reqBody outcome;
      match resp with
      | Err err =>
          mret (Some (Prefixed "request version resolution" (Plain err)), c')
      | Ok resp =>
          if negb (String.eqb (rr_Error resp) "") then
            mret (Some (Plain (Msg ("server error: " +:+ rr_Error resp))), c')
          else
            SetVersion (rr_Version resp);;
            emit (ELog LInfo "version resolved automatically");;
            mret (None, c')
      end
  end.

(** [Start]: the goroutine of [startHeartbeat] is run against the wake-ups
    [ticks]; its effects follow those of [Start] itself, which returns nil
    once the goroutine is started.  [cancel] before a started loop has no
    effect of its own. *)
Definition Start (env : License.Env) (ticks : list Tick) : M (option chain) :=
  err ← verifyLicense env;
  match err with
  | Some e => mret (Some (Prefixed "license verification failed" (Plain e)))
  | None =>
      smCall EvVerifySuccess;;
      startHeartbeat ticks;;
      mret None
  end.

End WithPrimitives.

(** [State] *)
Definition State_ (g : Guard) : State := sm g.

(** The tenths reported to [OnUpdateProgress] by a run, in order. *)
Definition progressOf (l : list Effect) : list Z :=
  omap (fun e => match e with EProgress _ _ t => Some t | _ => None end) l.

(** The components whose [PostUpdate] hook a run called, in order. *)
Definition hooks (l : list Effect) : list string :=
  omap (fun e => match e with EHook c => Some c | _ => None end) l.

(** A list of numbers that never decreases and stays within [lo, hi]. *)
Fixpoint risingWithin (lo hi : Z) (l : list Z) : bool :=
  match l with
  | [] => true
  | t :: rest => (lo <=? t) && (t <=? hi) && risingWithin t hi rest
  end.

(** A wake-up whose heartbeat is answered with status 200 and a status
    field other than "kill", and one whose heartbeat gets no usable
    response. *)
Definition answered (t : Tick) : Prop :=
  match t with
  | Fired outcome _ _ =>
      exists resp, postResult outcome = Ok resp /\
                   String.eqb (hb_Status resp) "kill" = false
  | Done => False
  end.

Definition unanswered (t : Tick) : Prop :=
  match t with
  | Fired outcome _ _ => exists err, postResult outcome = Err err
  | Done => False
  end.

(** The two clock readings of a wake-up. *)
Definition nowOf (t : Tick) : Z :=
  match t with
  | Fired _ now _ => now
  | Done => 0
  end.

Definition laterOf (t : Tick) : Z :=
  match t with
  | Fired _ _ later => later
  | Done => 0
  end.

End Lifecycle.

(** Further concrete inputs. *)
Module Sample2.
Import License Heartbeat Updater Lifecycle.

(** As [Sample.primitives], with a cache document that decodes back: the
    payload before the first bar, the signature after it. *)
Fixpoint splitBar (s acc : string) : string * string :=
  match s with
  | EmptyString => (acc, "")
  | String c rest =>
      if Ascii.eqb c "|" then (acc, rest)
      else splitBar rest (acc +:+ String c "")
  end.

Definition primitives : Primitives := {|
  sha256_Sum256 := fun data => data;
  hex_EncodeToString := fun b => b;
  base64_DecodeString := fun s => Ok s;
  ed25519_Verify := fun pk msg sig => String.eqb sig (pk +:+ msg);
  pem_Decode := fun b => Some b;
  json_Marshal := fun c => cl_PublicData c +:+ "|" +:+ cl_Signature c;
  json_Unmarshal :=
    fun b => Some {| cl_LicenseKey := ""; cl_PublicData := (splitBar b "").1;
                     cl_Signature := (splitBar b "").2;
                     cl_VerifiedAt := "" |};
  GOOS := "linux";
  GOARCH := "amd64"
|}.

(** A server answer whose signature is valid for the key of
    [Sample.theGuard]. *)
Definition signedAnswer : License.Env := {|
  home := "/home/app";
  readFails := false;
  writeFails := false;
  hostname := "host-1";
  randomNonce := "00112233445566778899aabbccddeeff";
  nowUnix := 1700000000;
  nowRFC3339 := "2023-11-14T22:13:20Z";
  verifyOutcome :=
    Response StatusOK
      (Ok {| vr_Status := "ok"; vr_Error := ""; vr_Message := "";
             vr_UpdateFrozen := false; vr_PublicData := "payload";
             vr_Signature := "0123456789abcdef0123456789abcdefpayload" |})
|}.

(** A server that rejects the license as expired. *)
Definition expiredAnswer : License.Env := {|
  home := "/home/app";
  readFails := false;
  writeFails := false;
  hostname := "host-1";
  randomNonce := "00112233445566778899aabbccddeeff";
  nowUnix := 1700000000;
  nowRFC3339 := "2023-11-14T22:13:20Z";
  verifyOutcome :=
    Response StatusOK
      (Ok {| vr_Status := "error"; vr_Error := "license_expired";
             vr_Message := ""; vr_UpdateFrozen := false;
             vr_PublicData := ""; vr_Signature := "" |})
|}.

(** A guard as [New] leaves it, in state INIT. *)
Definition freshGuard : Guard := {|
  cfg := Sample.config;
  publicKey := "0123456789abcdef0123456789abcdef";
  fingerprint := {| machineID := "test-machine"; auxSignals := ∅ |};
  sm := StateInit;
  version := "unknown";
  managedVersions := {["frontend" := "unknown"]}
|}.

Definition freshStore : Store := {| guard := freshGuard; disk := ∅ |}.

(** A backend download with the declared digest and a signature made with
    another key. *)
Definition backendForged : BackendEnv := {|
  metaOutcome :=
    Response StatusOK
      (Ok {| dm_DownloadURL := "/download/backend";
             dm_SHA256 := "binary-bytes"; dm_Signature := "other-key-sig";
             dm_Error := "" |});
  getOutcome := GetResponse StatusOK "binary-bytes";
  createTemp := Ok "/tmp/deploy-guard-update-1";
  copyErr := None;
  executable := Ok "/srv/app/backend";
  openTmp := None;
  applyOutcome := Applied
|}.

(** The same download with a signature of the guard's key. *)
Definition backendGood : BackendEnv := {|
  metaOutcome :=
    Response StatusOK
      (Ok {| dm_DownloadURL := "/download/backend";
             dm_SHA256 := "binary-bytes";
             dm_Signature := "0123456789abcdef0123456789abcdefbinary-bytes";
             dm_Error := "" |});
  getOutcome := GetResponse StatusOK "binary-bytes";
  createTemp := Ok "/tmp/deploy-guard-update-1";
  copyErr := None;
  executable := Ok "/srv/app/backend";
  openTmp := None;
  applyOutcome := Applied
|}.

Definition indexHtml : tarEntry := {|
  Name := "index.html";
  Typeflag := TypeReg;
  Mode := 420;
  content := "<html></html>"
|}.

(** A frontend download with the declared digest, as in the success test;
    [renameNew] is the outcome of the second rename. *)
Definition frontendWith (renameNew : option error) : FrontendEnv := {|
  f_metaOutcome :=
    Response StatusOK
      (Ok {| fm_DownloadURL := "/download/frontend.tar.gz";
             fm_SHA256 := "archive-bytes"; fm_Error := "" |});
  f_getOutcome := GetResponse StatusOK "archive-bytes";
  f_mkdirTemp := Ok "/tmp/deploy-guard-frontend-1";
  f_gzip := None;
  f_entries := [indexHtml];
  f_end := TarEOF;
  f_openFile := fun _ => None;
  f_copy := fun _ => None;
  f_consumed := 13;
  f_statErr := None;
  f_renameBackup := None;
  f_renameNew := renameNew
|}.

(** A managed component updated as a backend binary. *)
Definition agent : ManagedComponent := {|
  Slug := "agent";
  Dir := "/srv/app/agent";
  Strategy := UpdateBackend;
  PostUpdate := None
|}.

Definition agentUpdate : updateInfo := {|
  Component := "agent";
  Current := "1.0.0";
  Latest := "3.1.0";
  UpdateAvailable := true;
  Mandatory := false;
  ReleaseNotes := ""
|}.

Definition guardWithAgent : Guard := {|
  cfg := {| ServerURL := "https://hub.example";
            LicenseKey := "test-key";
            PublicKeyPEM := Some "0123456789abcdef0123456789abcdef";
            ProjectSlug := "test-project";
            ComponentSlug := "backend";
            HeartbeatInterval := 50 * 1000000;
            GracePolicy_ := {| MaxOfflineDuration := 200 * 1000000;
                               WarningInterval := 0 |};
            OTA := Sample.ota;
            ManagedComponents := [Sample.web; agent] |};
  publicKey := "0123456789abcdef0123456789abcdef";
  fingerprint := {| machineID := "test-machine"; auxSignals := ∅ |};
  sm := StateActive;
  version := "1.0.0";
  managedVersions := {["frontend" := "1.0.0"]}
|}.

Definition exeOk : ExeEnv := {|
  exePath := Ok "/srv/app/backend";
  exeOpen := None;
  exeBytes := "binary-bytes";
  exeCopy := None
|}.

Definition exeUnreadable : ExeEnv := {|
  exePath := Ok "/srv/app/backend";
  exeOpen := Some (Msg "permission denied");
  exeBytes := "";
  exeCopy := None
|}.

End Sample2.

(** ** Properties of the state machine *)

Lemma step_banned (e : Event) : step StateBanned e = StateBanned.
Proof. by destruct e. Qed.

Lemma run_banned (es : list Event) : run StateBanned es = StateBanned.
Proof.
  induction es as [|e es IH]; [done|].
  unfold run in *. simpl. by rewrite step_banned.
Qed.

(** C1: from every state [OnKill] moves the machine to BANNED, and BANNED is
    absorbing: each of the five events, and hence every sequence of later
    events, leaves the machine in BANNED. *)
Theorem OnKill_banned_absorbing :
  forall s : State,
    OnKill s = StateBanned /\
    OnVerifySuccess (OnKill s) = StateBanned /\
    OnHeartbeatOK (OnKill s) = StateBanned /\
    OnHeartbeatFail (OnKill s) = StateBanned /\
    OnGracePeriodExpired (OnKill s) = StateBanned /\
    OnKill (OnKill s) = StateBanned /\
    forall es : list Event, run (OnKill s) es = StateBanned.
Proof.
  intros s. repeat split; try reflexivity.
  intros es. apply run_banned.
Qed.

(** C8: [OnVerifySuccess] yields ACTIVE from INIT and from GRACE, and is a
    no-op on ACTIVE, LOCKED and BANNED. *)
Theorem OnVerifySuccess_spec :
  OnVerifySuccess StateInit = StateActive /\
  OnVerifySuccess StateGrace = StateActive /\
  OnVerifySuccess StateActive = StateActive /\
  OnVerifySuccess StateLocked = StateLocked /\
  OnVerifySuccess StateBanned = StateBanned /\
  forall s : State,
    OnVerifySuccess s =
    match s with
    | StateInit | StateGrace => StateActive
    | _ => s
    end.
Proof.
  repeat split. intros s. by destruct s.
Qed.

(** ** Properties of the constructor *)

Section NewProps.
Context `{Primitives}.

Lemma fold_unknown_lookup (mcs : list ManagedComponent)
    (m : gmap string string) (k : string) :
  fold_left (fun m mc => <[Slug mc := "unknown"]> m) mcs m !! k =
  if bool_decide (k ∈ map Slug mcs) then Some "unknown" else m !! k.
Proof.
  revert m. induction mcs as [|mc mcs IH]; intros m; cbn [fold_left List.map].
  - rewrite bool_decide_eq_false_2; [done | by apply not_elem_of_nil].
  - rewrite IH. destruct (decide (k ∈ map Slug mcs)) as [Hin|Hnin].
    + rewrite !bool_decide_eq_true_2; [done | by apply elem_of_cons; right | done].
    + rewrite (bool_decide_eq_false_2 _ Hnin).
      destruct (decide (k = Slug mc)) as [->|Hne].
      * rewrite lookup_insert_eq.
        rewrite bool_decide_eq_true_2; [done | by apply elem_of_cons; left].
      * rewrite lookup_insert_ne by done.
        rewrite bool_decide_eq_false_2; [done|].
        intros [?|?]%elem_of_cons; done.
Qed.

Lemma initManagedVersions_lookup (mcs : list ManagedComponent) (k : string) :
  initManagedVersions mcs !! k =
  if bool_decide (k ∈ map Slug mcs) then Some "unknown" else None.
Proof. unfold initManagedVersions. by rewrite fold_unknown_lookup, lookup_empty. Qed.

Lemma setDefaults_required (c : Config) :
  ServerURL (setDefaults GOOS GOARCH c) = ServerURL c /\
  LicenseKey (setDefaults GOOS GOARCH c) = LicenseKey c /\
  PublicKeyPEM (setDefaults GOOS GOARCH c) = PublicKeyPEM c /\
  ProjectSlug (setDefaults GOOS GOARCH c) = ProjectSlug c /\
  ComponentSlug (setDefaults GOOS GOARCH c) = ComponentSlug c /\
  ManagedComponents (setDefaults GOOS GOARCH c) = ManagedComponents c.
Proof. by repeat split. Qed.

(** C10: [New] returns an error, and so no guard, when the server URL, the
    license key, the PEM bytes, the project slug or the component slug is
    missing, and when the bytes decoded from the PEM block are not exactly
    [PublicKeySize] long; when it returns a guard, the primary version is
    "unknown", and so is the version of every configured managed
    component (and the version map holds nothing else). *)
Theorem New_validates_and_initialises (host : HostInfo) (c : Config) :
  (ServerURL c = "" \/ LicenseKey c = "" \/ PublicKeyPEM c = None \/
   ProjectSlug c = "" \/ ComponentSlug c = "" \/
   (exists pemBytes blockBytes,
      PublicKeyPEM c = Some pemBytes /\
      pem_Decode pemBytes = Some blockBytes /\
      len blockBytes <> PublicKeySize) ->
   exists e, New host c = Err e) /\
  (forall g, New host c = Ok g ->
     version g = "unknown" /\
     (forall mc, mc ∈ ManagedComponents c ->
        managedVersions g !! Slug mc = Some "unknown") /\
     (forall k v, managedVersions g !! k = Some v -> v = "unknown")).
Proof.
  unfold New.
  destruct (setDefaults_required c) as (-> & -> & -> & -> & -> & ->).
  split.
  - intros Hbad.
    destruct (String.eqb_spec (ServerURL c) ""); [eauto|].
    destruct (String.eqb_spec (LicenseKey c) ""); [eauto|].
    destruct (PublicKeyPEM c) as [pemBytes|] eqn:Hpem; [|eauto].
    destruct (String.eqb_spec (ProjectSlug c) ""); [eauto|].
    destruct (String.eqb_spec (ComponentSlug c) ""); [eauto|].
    destruct Hbad as [?|[?|[?|[?|[?|(p & b & Hp & Hd & Hlen)]]]]]; try done.
    injection Hp as <-. rewrite Hd.
    destruct (Z.eqb_spec (len b) PublicKeySize); [done|]. simpl. eauto.
  - intros g Hg.
    destruct (String.eqb (ServerURL c) ""); [done|].
    destruct (String.eqb (LicenseKey c) ""); [done|].
    destruct (PublicKeyPEM c) as [pemBytes|]; [|done].
    destruct (String.eqb (ProjectSlug c) ""); [done|].
    destruct (String.eqb (ComponentSlug c) ""); [done|].
    destruct (pem_Decode pemBytes) as [blockBytes|]; [|done].
    destruct (negb (len blockBytes =? PublicKeySize)); [done|].
    destruct (collectFingerprint host) as [fp|err]; [|done].
    injection Hg as <-. simpl. split; [done|]. split.
    + intros mc Hmc. rewrite initManagedVersions_lookup.
      rewrite bool_decide_eq_true_2; [done|]. by apply list_elem_of_fmap_2.
    + intros k v. rewrite initManagedVersions_lookup.
      case_bool_decide; congruence.
Qed.

End NewProps.

(** Unfolding of the monad's operations, leaving the path functions and the
    library functions folded. *)
Ltac run_m :=
  repeat (unfold mbind, mret, M_bind, M_ret, emit, getGuard, putGuard,
            getDisk, putDisk, when in *;
          cbn beta iota zeta delta [val st fx guard disk app negb andb orb] in *).

(** ** Stepping through a method

    The rules below take a method apart at its head, so that a proof
    follows the code one call at a time. *)

Section WpRules.

Lemma wp_bind {A B : Type} (m : M A) (f : A -> M B) (s : Store)
    (Q : Out B -> Prop) :
  wp m s (fun o =>
    wp (f (val o)) (st o) (fun o' =>
      Q {| val := val o'; st := st o'; fx := fx o ++ fx o' |})) ->
  wp (m ≫= f) s Q.
Proof. intros Hw. exact Hw. Qed.

Lemma wp_ret {A : Type} (a : A) (s : Store) (Q : Out A -> Prop) :
  Q {| val := a; st := s; fx := [] |} -> wp (mret a) s Q.
Proof. intros Hq. exact Hq. Qed.

Lemma wp_emit (e : Effect) (s : Store) (Q : Out unit -> Prop) :
  Q {| val := tt; st := s; fx := [e] |} -> wp (emit e) s Q.
Proof. intros Hq. exact Hq. Qed.

Lemma wp_getGuard (s : Store) (Q : Out Guard -> Prop) :
  Q {| val := guard s; st := s; fx := [] |} -> wp getGuard s Q.
Proof. intros Hq. exact Hq. Qed.

Lemma wp_postJSON {R : Type} (path : string) (body : JSON)
    (o : PostOutcome R) (s : Store) (Q : Out (result R) -> Prop) :
  Q {| val := postResult o; st := s; fx := [EPostJSON path body] |} ->
  wp (postJSON path body o) s Q.
Proof. intros Hq. exact Hq. Qed.

Lemma wp_SetVersion (v : string) (s : Store) (Q : Out unit -> Prop) :
  Q {| val := tt;
       st := {| guard := setVersion v (guard s); disk := disk s |};
       fx := [] |} ->
  wp (SetVersion v) s Q.
Proof. intros Hq. exact Hq. Qed.

Lemma wp_SetManagedVersion (slug v : string) (s : Store)
    (Q : Out unit -> Prop) :
  Q {| val := tt;
       st := {| guard :=
                  setManagedVersions
                    (<[slug := v]> (managedVersions (guard s))) (guard s);
                disk := disk s |};
       fx := [] |} ->
  wp (SetManagedVersion slug v) s Q.
Proof. intros Hq. exact Hq. Qed.

Lemma wp_log (level : LogLevel) (msg : string) (s : Store)
    (Q : Out unit -> Prop) :
  Q {| val := tt; st := s; fx := [ELog level msg] |} ->
  wp (Updater.log level msg) s Q.
Proof. intros Hq. exact Hq. Qed.

Lemma wp_progress (c stage : string) (t : Z) (s : Store)
    (Q : Out unit -> Prop) :
  Q {| val := tt; st := s;
       fx := if OnUpdateProgress (OTA (cfg (guard s)))
             then [EProgress c stage t] else [] |} ->
  wp (Updater.progress c stage t) s Q.
Proof.
  unfold wp, Updater.progress. run_m. by destruct (OnUpdateProgress _).
Qed.

Lemma wp_notifyFailure (c : string) (e : error) (s : Store)
    (Q : Out unit -> Prop) :
  Q {| val := tt; st := s;
       fx := if OnUpdateFailure (OTA (cfg (guard s)))
             then [EFailure c e] else [] |} ->
  wp (Updater.notifyFailure c e) s Q.
Proof.
  unfold wp, Updater.notifyFailure. run_m. by destruct (OnUpdateFailure _).
Qed.

Lemma wp_notifyResult (c o n : string) (b : bool) (e : option error)
    (s : Store) (Q : Out unit -> Prop) :
  Q {| val := tt; st := s;
       fx := if OnUpdateResult (OTA (cfg (guard s)))
             then [EResult c o n b e] else [] |} ->
  wp (Updater.notifyResult c o n b e) s Q.
Proof.
  unfold wp, Updater.notifyResult. run_m. by destruct (OnUpdateResult _).
Qed.

Lemma wp_smCall (ev : Machine.Event) (s : Store) (Q : Out unit -> Prop) :
  Q {| val := tt;
       st := {| guard := setSm (step (sm (guard s)) ev) (guard s);
                disk := disk s |};
       fx := [ESm ev] |} ->
  wp (smCall ev) s Q.
Proof. intros Hq. exact Hq. Qed.

Lemma wp_getDisk (s : Store) (Q : Out (gmap string string) -> Prop) :
  Q {| val := disk s; st := s; fx := [] |} -> wp getDisk s Q.
Proof. intros Hq. exact Hq. Qed.

Lemma wp_putDisk (d : gmap string string) (s : Store)
    (Q : Out unit -> Prop) :
  Q {| val := tt; st := {| guard := guard s; disk := d |}; fx := [] |} ->
  wp (putDisk d) s Q.
Proof. intros Hq. exact Hq. Qed.

Lemma wp_run {A : Type} (m : M A) (s : Store) (Q : Out A -> Prop) :
  Q (m s) -> wp m s Q.
Proof. intros Hq. exact Hq. Qed.

End WpRules.

(** One step at the head of the method, and as many as apply. *)
Ltac wp_step :=
  lazymatch goal with
  | |- wp (mbind _ _) _ _ => apply wp_bind
  | |- wp (mret _) _ _ => apply wp_ret
  | |- wp (emit _) _ _ => apply wp_emit
  | |- wp getGuard _ _ => apply wp_getGuard
  | |- wp (postJSON _ _ _) _ _ => apply wp_postJSON
  | |- wp (smCall _) _ _ => apply wp_smCall
  | |- wp getDisk _ _ => apply wp_getDisk
  | |- wp (putDisk _) _ _ => apply wp_putDisk
  | |- wp (SetVersion _) _ _ => apply wp_SetVersion
  | |- wp (SetManagedVersion _ _) _ _ => apply wp_SetManagedVersion
  | |- wp (Updater.log _ _) _ _ => apply wp_log
  | |- wp (Updater.progress _ _ _) _ _ => apply wp_progress
  | |- wp (Updater.notifyFailure _ _) _ _ => apply wp_notifyFailure
  | |- wp (Updater.notifyResult _ _ _ _ _) _ _ => apply wp_notifyResult
  end;
  cbn beta iota zeta delta [val st fx guard disk].

Ltac wp_walk := repeat wp_step.

Ltac wp_steps := wp_walk; cbn beta iota zeta delta [val st fx guard disk app].

(** Stating a goal about [m s] as a [wp]. *)
Ltac wp_start m s :=
  pattern (m s);
  lazymatch goal with
  | |- ?Q (m s) => change (wp m s Q)
  end.

(** ** Properties of license verification *)

Section LicenseProps.
Context `{Primitives}.
Import License.

Lemma posts_cons_fs (op : FsOp) (l : list Effect) :
  posts (EFs op :: l) = posts l.
Proof. reflexivity. Qed.

Lemma cloudVerification_spec (env : Env) (s : Store) :
  let o := cloudVerification env s in
  posts (fx o) = ["/api/v1/verify"] /\
  val o = remoteVerdict env /\
  guard (st o) = guard s /\
  match postResult (verifyOutcome env) with
  | Ok resp =>
      val o = None ->
      EFs (WriteFile (cachePath env (guard s))
                     (json_Marshal (freshEntry env (guard s) resp)) 384)
        ∈ fx o /\
      (writeFails env = false ->
       disk (st o) !! cachePath env (guard s) =
       Some (json_Marshal (freshEntry env (guard s) resp)))
  | Err _ => val o <> None /\ st o = s
  end.
Proof.
  cbv zeta. wp_start (cloudVerification env) s.
  unfold cloudVerification, remoteVerdict, cacheLicense, writeFile, cachePath,
    freshEntry.
  wp_steps.
  destruct (postResult (verifyOutcome env)) as [resp|err]; wp_steps.
  - destruct (String.eqb (vr_Error resp) ""); cbn [negb]; wp_steps.
    + destruct (writeFails env); wp_steps.
      * do 3 (split; [done|]). intros _. split; [repeat constructor | done].
      * do 3 (split; [done|]). intros _. split; [repeat constructor|].
        intros _. apply lookup_insert_eq.
    + by repeat split.
  - by repeat split.
Qed.

(** C6: [verifyLicense] reads the cache of (project, component) first.
    With a trusted entry it returns nil, calls [postJSON] not at all and
    changes nothing.  With an entry that is missing, unreadable or fails
    the signature check it calls [postJSON] exactly once, on
    [/api/v1/verify]; the result is what the remote exchange alone decides
    and equals the result of the same run on a store whose cache file is
    missing; and when the exchange succeeds the write of the returned
    payload and signature to the cache file is issued whatever the file
    held, replacing its content when the write goes through. *)
Theorem verifyLicense_cache_then_remote (env : Env) (s : Store) :
  let o := verifyLicense env s in
  (cacheTrusted env s = true ->
     val o = None /\ posts (fx o) = [] /\ st o = s) /\
  (cacheTrusted env s = false ->
     posts (fx o) = ["/api/v1/verify"] /\
     val o = remoteVerdict env /\
     guard (st o) = guard s /\
     (forall s0,
        guard s0 = guard s -> disk s0 !! cachePath env (guard s) = None ->
        val (verifyLicense env s0) = val o /\
        posts (fx (verifyLicense env s0)) = posts (fx o)) /\
     (val o = None ->
      exists resp,
        postResult (verifyOutcome env) = Ok resp /\
        EFs (WriteFile (cachePath env (guard s))
                       (json_Marshal (freshEntry env (guard s) resp)) 384)
          ∈ fx o /\
        (writeFails env = false ->
         disk (st o) !! cachePath env (guard s) =
         Some (json_Marshal (freshEntry env (guard s) resp))))).
Proof.
  assert (Hcloud : forall s1 : Store,
    cacheTrusted env s1 = false ->
    val (verifyLicense env s1) = val (cloudVerification env s1) /\
    st (verifyLicense env s1) = st (cloudVerification env s1) /\
    fx (verifyLicense env s1) =
      EFs (ReadFile (cachePath env (guard s1))) :: fx (cloudVerification env s1)).
  { intros s1. unfold cacheTrusted.
    wp_start (verifyLicense env) s1.
    unfold verifyLicense, loadCachedLicense, readFile. wp_steps.
    destruct (if readFails env then None
              else disk s1 !! cachePath env (guard s1)) as [b|]; wp_steps;
      [|by apply wp_run].
    destruct (json_Unmarshal b) as [c|]; wp_steps; [|by apply wp_run].
    destruct (base64_DecodeString (cl_Signature c)) as [sig|?]; wp_steps;
      [|by apply wp_run].
    destruct (ed25519_Verify _ _ _); [done|]. by apply wp_run. }
  cbv zeta. split.
  - unfold cacheTrusted. wp_start (verifyLicense env) s.
    unfold verifyLicense, loadCachedLicense, readFile. wp_steps.
    destruct (if readFails env then None
              else disk s !! cachePath env (guard s)) as [b|]; wp_steps;
      [|done].
    destruct (json_Unmarshal b) as [c|]; wp_steps; [|done].
    destruct (base64_DecodeString (cl_Signature c)) as [sig|?]; wp_steps;
      [|done].
    intros ->. wp_steps. done.
  - intros Hs. destruct (Hcloud s Hs) as (Hv & Hst & Hfx).
    pose proof (cloudVerification_spec env s) as (Hp & Hr & Hg & Hw).
    rewrite Hv, Hst, Hfx, posts_cons_fs.
    split; [done|]. split; [done|]. split; [done|]. split.
    + intros s0 Hg0 Hnone.
      assert (Hs0 : cacheTrusted env s0 = false).
      { unfold cacheTrusted. rewrite Hg0, Hnone. by destruct (readFails env). }
      destruct (Hcloud s0 Hs0) as (Hv0 & _ & Hfx0).
      rewrite Hv0, Hfx0, posts_cons_fs.
      pose proof (cloudVerification_spec env s0) as (Hp0 & Hr0 & _).
      split; congruence.
    + intros Hnone.
      destruct (postResult (verifyOutcome env)) as [resp|err].
      * exists resp. destruct (Hw Hnone) as [Hin Hdisk].
        split; [done|]. split; [by apply elem_of_cons; right | done].
      * by destruct Hw.
Qed.

End LicenseProps.

(** ** Properties of the heartbeat *)

Section HeartbeatProps.
Import Heartbeat.

Lemma isFatalError_set (e : error) :
  isFatalError (Some e) =
  bool_decide (e ∈ [Var ErrBanned; Var ErrLicenseSuspended; Var ErrMachineBanned]).
Proof.
  unfold isFatalError, eqVar.
  destruct (decide (e = Var ErrBanned)) as [->|H1]; [done|].
  destruct (decide (e = Var ErrLicenseSuspended)) as [->|H2]; [done|].
  destruct (decide (e = Var ErrMachineBanned)) as [->|H3]; [done|].
  rewrite !bool_decide_eq_false_2 by done.
  symmetry. apply bool_decide_eq_false_2. intros Hin.
  repeat (apply elem_of_cons in Hin as [?|Hin]; [done|]).
  by apply elem_of_nil in Hin.
Qed.

Lemma smCall_out (ev : Machine.Event) (s : Store) :
  smCall ev s =
  {| val := tt;
     st := {| guard := setSm (step (sm (guard s)) ev) (guard s);
              disk := disk s |};
     fx := [ESm ev] |}.
Proof. reflexivity. Qed.

Lemma handleUpdateNotification_st (u : updateInfo) (s : Store) :
  st (handleUpdateNotification u s) = s.
Proof.
  unfold handleUpdateNotification. run_m.
  destruct (String.eqb (Component u) (ComponentSlug (cfg (guard s)))).
  - destruct (AutoUpdate (OTA (cfg (guard s)))); reflexivity.
  - generalize (AutoUpdate (OTA (cfg (guard s)))). intros b.
    induction (ManagedComponents (cfg (guard s))) as [|mc mcs IH]; [done|].
    cbn [routeManaged].
    destruct (String.eqb (Slug mc) (Component u)); [|exact IH].
    destruct b; [|done]. run_m.
    destruct (Strategy mc =? UpdateBackend); [done|].
    destruct (Strategy mc =? UpdateFrontend); done.
Qed.

Lemma dispatchAll_cons (u : updateInfo) (us : list updateInfo) (s : Store) :
  dispatchAll (u :: us) s =
  {| val := val (dispatchAll us (st (handleUpdateNotification u s)));
     st := st (dispatchAll us (st (handleUpdateNotification u s)));
     fx := fx (handleUpdateNotification u s) ++
           fx (dispatchAll us (st (handleUpdateNotification u s))) |}.
Proof. reflexivity. Qed.

Lemma notifyUpdates_cons (u : updateInfo) (us : list updateInfo) (s : Store) :
  notifyUpdates (u :: us) s =
  let o1 := when (UpdateAvailable u) (handleUpdateNotification u) s in
  {| val := val (notifyUpdates us (st o1));
     st := st (notifyUpdates us (st o1));
     fx := fx o1 ++ fx (notifyUpdates us (st o1)) |}.
Proof. reflexivity. Qed.

Lemma notifyUpdates_dispatchAll (us : list updateInfo) (s : Store) :
  st (notifyUpdates us s) = s /\
  st (dispatchAll (List.filter UpdateAvailable us) s) = s /\
  fx (notifyUpdates us s) = fx (dispatchAll (List.filter UpdateAvailable us) s).
Proof.
  induction us as [|u us (IH1 & IH2 & IH3)]; [done|].
  rewrite notifyUpdates_cons. cbn [List.filter]. cbv zeta.
  destruct (UpdateAvailable u); cbn [when val st fx].
  - rewrite dispatchAll_cons, !handleUpdateNotification_st. cbn [st fx].
    by rewrite IH1, IH2, IH3.
  - run_m. by rewrite IH1, IH2, IH3.
Qed.

(** C4: a heartbeat response with status "kill" makes [sendHeartbeat] call
    [OnKill], so that the machine is BANNED when it returns [ErrBanned]; the
    loop, whatever its grace start and whatever wake-ups would follow,
    calls [OnKill] again and returns, with the machine BANNED, although the
    request itself succeeded with status 200. *)
Theorem kill_response_bans_and_stops
    (resp : heartbeatResponse) (now later : Z) (graceStart : GraceStart)
    (rest : list Tick) (s : Store) :
  hb_Status resp = "kill" ->
  let o1 := sendHeartbeat (Response StatusOK (Ok resp)) s in
  let o :=
    heartbeatLoop (Fired (Response StatusOK (Ok resp)) now later :: rest)
                  graceStart s in
  val o1 = Some (Var ErrBanned) /\
  sm (guard (st o1)) = StateBanned /\
  smCalls (fx o1) = [EvKill] /\
  (val o).1 = Return /\
  sm (guard (st o)) = StateBanned /\
  smCalls (fx o) = [EvKill; EvKill] /\
  started (fx o) = [].
Proof.
  intros Hkill.
  assert (Hk : String.eqb (hb_Status resp) "kill" = true)
    by (by rewrite Hkill).
  cbv zeta. split; [|split; [|split]].
  1-3: wp_start (sendHeartbeat (Response StatusOK (Ok resp))) s;
       unfold sendHeartbeat; wp_steps;
       change (postResult (Response StatusOK (Ok resp))) with (Ok resp);
       cbn iota; rewrite Hk; by wp_steps.
  wp_start (heartbeatLoop (Fired (Response StatusOK (Ok resp)) now later :: rest)
                          graceStart) s.
  cbn [heartbeatLoop]. unfold iteration, sendHeartbeat. wp_steps.
  change (postResult (Response StatusOK (Ok resp))) with (Ok resp).
  cbn iota. rewrite Hk. wp_steps.
  unfold afterHeartbeat.
  change (isFatalError (Some (Var ErrBanned))) with true.
  wp_steps. cbn [fst snd]. wp_steps. by repeat split.
Qed.

(** C5: after a failed heartbeat with error [e], the loop body does the
    following.  [e] is fatal exactly when it is one of [ErrBanned],
    [ErrLicenseSuspended], [ErrMachineBanned]; then the only call is
    [OnKill] and the loop returns.  Otherwise [OnHeartbeatFail] is called,
    the grace start becomes the current time if none was recorded and is
    kept if one was; when the time elapsed since that start exceeds
    [MaxOfflineDuration], [OnGracePeriodExpired] is called and the loop
    returns; when it does not, nothing else is called and the loop goes on.
    A successful heartbeat clears the grace start.  An iteration that
    returns ends the loop whatever wake-ups follow, and one that goes on is
    followed by the run of the loop on the remaining wake-ups. *)
Theorem heartbeat_failure_policy
    (e : error) (now later : Z) (graceStart : GraceStart) (s : Store) :
  let o := afterHeartbeat (Some e) now later graceStart s in
  let start := default now graceStart in
  let maxOffline := MaxOfflineDuration (GracePolicy_ (cfg (guard s))) in
  isFatalError (Some e) =
    bool_decide (e ∈ [Var ErrBanned; Var ErrLicenseSuspended;
                      Var ErrMachineBanned]) /\
  (if isFatalError (Some e) then
     fx o = [ESm EvKill] /\ val o = (Return, graceStart) /\
     sm (guard (st o)) = StateBanned
   else if later - start >? maxOffline then
     fx o = [ESm EvHeartbeatFail; ESm EvGracePeriodExpired] /\
     val o = (Return, Some start) /\
     sm (guard (st o)) = OnGracePeriodExpired (OnHeartbeatFail (sm (guard s)))
   else
     fx o = [ESm EvHeartbeatFail] /\
     val o = (Continue, Some start) /\
     sm (guard (st o)) = OnHeartbeatFail (sm (guard s))) /\
  val (afterHeartbeat None now later graceStart s) = (Continue, None) /\
  (forall t rest gs s0,
     (val (iteration t gs s0)).1 = Return ->
     heartbeatLoop (t :: rest) gs s0 = iteration t gs s0) /\
  (forall t rest gs s0,
     (val (iteration t gs s0)).1 = Continue ->
     let o1 := iteration t gs s0 in
     let o2 := heartbeatLoop rest (val o1).2 (st o1) in
     heartbeatLoop (t :: rest) gs s0 =
     {| val := val o2; st := st o2; fx := fx o1 ++ fx o2 |}).
Proof.
  cbv zeta. split; [apply isFatalError_set|]. split; [|split; [done|split]].
  - unfold afterHeartbeat. destruct (isFatalError (Some e)).
    + run_m. rewrite smCall_out. run_m. done.
    + run_m. rewrite !smCall_out. run_m.
      assert (Hs : match graceStart with Some t => t | None => now end
                   = default now graceStart) by (by destruct graceStart).
      rewrite Hs.
      destruct (later - default now graceStart >?
                MaxOfflineDuration (GracePolicy_ (cfg (guard s)))); run_m.
      * rewrite smCall_out. run_m. done.
      * done.
  - intros t rest gs s0 Hret. cbn [heartbeatLoop]. run_m.
    rewrite Hret. run_m. destruct (iteration t gs s0) as [v s1 l].
    cbn. by rewrite app_nil_r.
  - intros t rest gs s0 Hcont. cbn [heartbeatLoop]. run_m.
    rewrite Hcont. done.
Qed.

(** C9 as amended: on a response that arrived with status 200 and whose
    status field is not "kill", [sendHeartbeat] returns nil and leaves the
    store as it is; when OTA is enabled and the response does not freeze
    updates, its effects after the request are those of handing every entry
    with [UpdateAvailable] set, in order, to [handleUpdateNotification];
    when OTA is disabled or updates are frozen, the request is its only
    effect. *)
Theorem updates_dispatched_unless_kill (resp : heartbeatResponse) (s : Store) :
  String.eqb (hb_Status resp) "kill" = false ->
  let o := sendHeartbeat (Response StatusOK (Ok resp)) s in
  val o = None /\ st o = s /\
  if Enabled (OTA (cfg (guard s))) && negb (hb_UpdateFrozen resp) then
    fx o =
    EPostJSON "/api/v1/heartbeat" (heartbeatBody (guard s)) ::
    fx (dispatchAll (List.filter UpdateAvailable (hb_Updates resp)) s)
  else
    fx o = [EPostJSON "/api/v1/heartbeat" (heartbeatBody (guard s))].
Proof.
  intros Hkill. cbv zeta. unfold sendHeartbeat, postJSON.
  cbn [postResult]. change (negb (StatusOK =? StatusOK)) with false.
  run_m. rewrite Hkill. run_m.
  destruct (notifyUpdates_dispatchAll (hb_Updates resp) s) as (H1 & H2 & H3).
  destruct (Enabled (OTA (cfg (guard s))) && negb (hb_UpdateFrozen resp)); run_m.
  - rewrite H1, H3, app_nil_r. done.
  - done.
Qed.

End HeartbeatProps.

(** ** Properties of the update engine *)

Section UpdaterProps.
Context `{Primitives}.
Import Updater.

Lemma fsOps_app (l1 l2 : list Effect) : fsOps (l1 ++ l2) = (fsOps l1 ++ fsOps l2)%list.
Proof. apply omap_app. Qed.

Lemma failures_app (l1 l2 : list Effect) :
  failures (l1 ++ l2) = (failures l1 ++ failures l2)%list.
Proof. apply omap_app. Qed.

Lemma results_app (l1 l2 : list Effect) :
  results (l1 ++ l2) = (results l1 ++ results l2)%list.
Proof. apply List.filter_app. Qed.

Lemma reports_app (l1 l2 : list Effect) :
  reports (l1 ++ l2) = (reports l1 ++ reports l2)%list.
Proof. apply List.filter_app. Qed.

Lemma swapOps_app (l1 l2 : list Effect) :
  swapOps (l1 ++ l2) = (swapOps l1 ++ swapOps l2)%list.
Proof. unfold swapOps. by rewrite fsOps_app, List.filter_app. Qed.

Lemma notifyFailure_out (c : string) (e : error) (s : Store) :
  notifyFailure c e s =
  {| val := tt; st := s;
     fx := if OnUpdateFailure (OTA (cfg (guard s))) then [EFailure c e] else [] |}.
Proof. unfold notifyFailure. run_m. by destruct (OnUpdateFailure _). Qed.

Lemma notifyResult_out (c o n : string) (b : bool) (e : option error)
    (s : Store) :
  notifyResult c o n b e s =
  {| val := tt; st := s;
     fx := if OnUpdateResult (OTA (cfg (guard s)))
           then [EResult c o n b e] else [] |}.
Proof. unfold notifyResult. run_m. by destruct (OnUpdateResult _). Qed.

Lemma progress_out (c stage : string) (t : Z) (s : Store) :
  progress c stage t s =
  {| val := tt; st := s;
     fx := if OnUpdateProgress (OTA (cfg (guard s)))
           then [EProgress c stage t] else [] |}.
Proof. unfold progress. run_m. by destruct (OnUpdateProgress _). Qed.

End UpdaterProps.

(** Unfolding of the update engine's helpers and of the projections of a
    run's effects. *)
Ltac run_u :=
  repeat (run_m;
          rewrite ?notifyFailure_out, ?notifyResult_out, ?progress_out in *;
          unfold Updater.log in *;
          rewrite ?fsOps_app, ?failures_app, ?results_app, ?swapOps_app,
            ?reports_app in *;
          cbn beta iota zeta delta
            [val st fx guard disk app negb andb orb Updater.failures
             Updater.results Updater.reports Updater.swapOps Updater.fsOps
             omap list_omap List.filter Updater.isSwapOp length] in *).

(** Splitting the projections of a run's effects along its appends. *)
Ltac fx_split :=
  rewrite ?swapOps_app, ?results_app, ?failures_app, ?reports_app.

Ltac fx_eval :=
  cbn beta iota delta
    [Updater.failures Updater.results Updater.reports Updater.swapOps
     Updater.fsOps omap list_omap List.filter Updater.isSwapOp app] in *.

(** A witness for the error of a reported failure: the one in the goal,
    or any when no failure was reported. *)
Ltac ex_fail :=
  first [ exists (Msg ""); reflexivity | eexists; reflexivity ].

(** A failure branch of [updateBackend]: the store is as it was and the two
    reports are the wrapped error and the failed result. *)
Ltac backend_failed :=
  left; split; [done|]; fx_split;
  destruct (OnUpdateFailure _), (OnUpdateResult _), (OnUpdateProgress _);
  fx_eval;
  first [ exists ErrUpdateApply, (Msg ""); reflexivity
        | exists ErrUpdateApply; eexists; reflexivity
        | eexists _, _; reflexivity ].

(** A failure branch of [updateFrontend]: the store is as it was, no
    result is reported and at most one failure. *)
Ltac frontend_failed :=
  left; split; [done|]; fx_split;
  repeat match goal with
         | Hr : Updater.results _ = _ |- _ => rewrite Hr; clear Hr
         | Hf : Updater.failures _ = _ |- _ => rewrite Hf; clear Hf
         end;
  destruct (OnUpdateFailure _), (OnUpdateProgress _);
  fx_eval; (split; [reflexivity | ex_fail]).

Section ExtractionProps.
Context `{Primitives}.
Import Updater.

Lemma extractEntries_cons (env : FrontendEnv) (slug tmpDir : string)
    (hdr : tarEntry) (rest : list tarEntry) :
  extractEntries env slug tmpDir (hdr :: rest) =
  let target := resolve tmpDir (Name hdr) in
  if negb (insideRoot tmpDir (Name hdr)) then
    log LWarn "path traversal attempt detected";;
    extractEntries env slug tmpDir rest
  else if Ascii.eqb (Typeflag hdr) TypeDir then
    emit (EFs (MkdirAll target (FileMode (Mode hdr))));;
    extractEntries env slug tmpDir rest
  else if Ascii.eqb (Typeflag hdr) TypeReg then
    emit (EFs (MkdirAll (PathDir target) 493));;
    emit (EFs (OpenFile target (FileMode (Mode hdr))));;
    match f_openFile env target with
    | Some err =>
        log LError "failed to create file";;
        notifyFailure slug (WrapUpdate ErrUpdateApply (Error_ err));;
        mret Abort
    | None =>
        match f_copy env target with
        | Some err =>
            log LError "failed to write file";;
            notifyFailure slug (WrapUpdate ErrUpdateApply (Error_ err));;
            mret Abort
        | None =>
            emit (EFs (Copy target (content hdr)));;
            extractEntries env slug tmpDir rest
        end
    end
  else extractEntries env slug tmpDir rest.
Proof. reflexivity. Qed.

Lemma extractEntries_st (env : FrontendEnv) (slug tmpDir : string)
    (entries : list tarEntry) (s : Store) :
  st (extractEntries env slug tmpDir entries s) = s.
Proof.
  induction entries as [|hdr rest IH].
  - cbn [extractEntries]. destruct (f_end env); by run_u.
  - rewrite extractEntries_cons. cbv zeta.
    destruct (insideRoot tmpDir (Name hdr)); run_u; [|done].
    destruct (Ascii.eqb (Typeflag hdr) TypeDir); run_u; [done|].
    destruct (Ascii.eqb (Typeflag hdr) TypeReg); run_u; [|done].
    destruct (f_openFile env _) as [err|]; run_u; [done|].
    destruct (f_copy env _) as [err|]; by run_u.
Qed.

(** What one entry contributes: nothing when it resolves outside the root;
    otherwise its reached operations, after which the loop goes on unless
    the file could not be created or written. *)
Lemma extractEntries_step (env : FrontendEnv) (slug tmpDir : string)
    (hdr : tarEntry) (rest : list tarEntry) (s : Store) :
  let o := extractEntries env slug tmpDir (hdr :: rest) s in
  let o' := extractEntries env slug tmpDir rest s in
  val o =
    (if insideRoot tmpDir (Name hdr) && entryFails env tmpDir hdr
     then Abort else val o') /\
  fsOps (fx o) =
    (if insideRoot tmpDir (Name hdr) then
       performedOps env tmpDir hdr ++
       (if entryFails env tmpDir hdr then [] else fsOps (fx o'))
     else fsOps (fx o'))%list.
Proof.
  cbv zeta. rewrite extractEntries_cons. cbv zeta.
  unfold performedOps, entryFails, entryOps.
  destruct (insideRoot tmpDir (Name hdr)); run_u; [|done].
  destruct (Ascii.eqb (Typeflag hdr) TypeDir); run_u; [done|].
  destruct (Ascii.eqb (Typeflag hdr) TypeReg); run_u; [|done].
  destruct (f_openFile env _) as [err|]; run_u.
  { rewrite bool_decide_eq_true_2 by eauto. run_u.
    by destruct (OnUpdateFailure _). }
  rewrite (bool_decide_eq_false_2 (is_Some None)) by (by intros [? ?]).
  destruct (f_copy env _) as [err|]; run_u.
  { rewrite bool_decide_eq_true_2 by eauto. run_u.
    by destruct (OnUpdateFailure _). }
  rewrite (bool_decide_eq_false_2 (is_Some None)) by (by intros [? ?]).
  done.
Qed.

Lemma performedOps_entryOps (env : FrontendEnv) (tmpDir : string)
    (hdr : tarEntry) (op : FsOp) :
  op ∈ performedOps env tmpDir hdr -> op ∈ entryOps tmpDir hdr.
Proof.
  unfold performedOps, entryFails, entryOps.
  destruct (Ascii.eqb (Typeflag hdr) TypeDir); cbn [negb andb]; [done|].
  destruct (Ascii.eqb (Typeflag hdr) TypeReg); cbn [negb andb]; [|done].
  destruct (_ || _); [|done].
  intros Hop.
  repeat (apply elem_of_cons in Hop as [->|Hop]; [repeat constructor|]).
  by apply elem_of_nil in Hop.
Qed.

(** C3: in the extraction loop of [updateFrontend], an entry whose resolved
    path does not lie under the extraction root contributes no file
    operation: the run performs the same file operations, with the same
    outcome, as on the archive without those entries; and every file
    operation of the run is one of the operations of an entry that
    resolves inside the root. *)
Theorem extraction_confined_to_root (env : FrontendEnv) (slug tmpDir : string)
    (entries : list tarEntry) (s : Store) :
  let o := extractEntries env slug tmpDir entries s in
  let kept := List.filter (fun hdr => insideRoot tmpDir (Name hdr)) entries in
  let o' := extractEntries env slug tmpDir kept s in
  val o = val o' /\
  fsOps (fx o) = fsOps (fx o') /\
  forall op, op ∈ fsOps (fx o) ->
    exists hdr, hdr ∈ entries /\ insideRoot tmpDir (Name hdr) = true /\
                op ∈ entryOps tmpDir hdr.
Proof.
  cbv zeta. induction entries as [|hdr rest (IHv & IHf & IHin)].
  - cbn [List.filter]. split; [done|]. split; [done|].
    cbn [extractEntries]. destruct (f_end env); run_u.
    + intros op Hop. by apply elem_of_nil in Hop.
    + destruct (OnUpdateFailure _); intros op Hop; by apply elem_of_nil in Hop.
  - destruct (extractEntries_step env slug tmpDir hdr rest s) as [Hv Hf].
    cbv zeta in Hv, Hf. cbn [List.filter].
    destruct (insideRoot tmpDir (Name hdr)) eqn:Hin.
    + destruct (extractEntries_step env slug tmpDir hdr
        (List.filter (fun hdr => insideRoot tmpDir (Name hdr)) rest) s)
        as [Hv' Hf'].
      cbv zeta in Hv', Hf'. rewrite Hin in Hv', Hf'.
      rewrite Hv, Hv', Hf, Hf'. cbn [andb].
      destruct (entryFails env tmpDir hdr).
      * split; [done|]. split; [done|]. intros op Hop.
        rewrite app_nil_r in Hop. exists hdr.
        split; [by left|]. split; [done|]. by eapply performedOps_entryOps.
      * split; [done|]. split; [by rewrite IHf|]. intros op Hop.
        apply elem_of_app in Hop as [Hop|Hop].
        -- exists hdr. split; [by left|]. split; [done|].
           by eapply performedOps_entryOps.
        -- destruct (IHin op Hop) as (h & Hh & Hi & Ho).
           exists h. split; [by right | done].
    + rewrite Hv, Hf. cbn [andb]. split; [done|]. split; [done|].
      intros op Hop. destruct (IHin op Hop) as (h & Hh & Hi & Ho).
      exists h. split; [by right | done].
Qed.

End ExtractionProps.

Section PipelineProps.
Context `{Primitives}.
Import Updater.

(** The extraction loop reports at most one failure, exactly when it makes
    the function return, and neither reports a result nor removes or
    renames anything. *)
Lemma extractEntries_reports (env : FrontendEnv) (slug tmpDir : string)
    (entries : list tarEntry) (s : Store) :
  let o := extractEntries env slug tmpDir entries s in
  results (fx o) = [] /\ swapOps (fx o) = [] /\
  exists v d,
    failures (fx o) =
    match val o with
    | Proceed => []
    | Abort =>
        if OnUpdateFailure (OTA (cfg (guard s)))
        then [(slug, WrapUpdate v d)] else []
    end.
Proof.
  cbv zeta. induction entries as [|hdr rest (IHr & IHs & v & d & IHf)].
  - cbn [extractEntries]. destruct (f_end env) as [|err]; run_u.
    + do 2 (split; [done|]). by exists ErrUpdateVerify, "".
    + destruct (OnUpdateFailure _); do 2 (split; [reflexivity|]);
        by exists ErrUpdateVerify, (Error_ err).
  - rewrite extractEntries_cons. cbv zeta.
    destruct (insideRoot tmpDir (Name hdr)); run_u; [|by eauto].
    destruct (Ascii.eqb (Typeflag hdr) TypeDir); run_u.
    { by eauto. }
    destruct (Ascii.eqb (Typeflag hdr) TypeReg); run_u; [|by eauto].
    destruct (f_openFile env _) as [err|]; run_u.
    { destruct (OnUpdateFailure _); do 2 (split; [reflexivity|]);
        by exists ErrUpdateApply, (Error_ err). }
    destruct (f_copy env _) as [err|]; run_u.
    { destruct (OnUpdateFailure _); do 2 (split; [reflexivity|]);
        by exists ErrUpdateApply, (Error_ err). }
    by eauto.
Qed.

(** C2: an artifact whose computed digest differs from the declared one is
    not applied.  Backend: when the metadata request and the download
    succeed and the digest of the downloaded bytes differs from the
    declared one, the store (versions included) is unchanged, the only
    removing or replacing file operation is the removal of the temporary
    file, [OnUpdateFailure], if set, is called once with
    [ErrUpdateVerify], and [OnUpdateResult], if set, with [false].
    Frontend: whenever the digest of the streamed bytes differs from the
    declared one, the store is unchanged, nothing is renamed and only the
    temporary directory is removed, no result is reported, and
    [OnUpdateFailure], if set, is called exactly once; when the attempt got
    through download and extraction, so that the digests are compared, that
    call carries [ErrUpdateVerify] with "hash mismatch". *)
Theorem hash_mismatch_never_applied :
  (forall (env : BackendEnv) (u : updateInfo) (s : Store)
          (meta : downloadMeta) (body tmpPath : string),
     postResult (metaOutcome env) = Ok meta ->
     dm_Error meta = "" ->
     getOutcome env = GetResponse StatusOK body ->
     createTemp env = Ok tmpPath ->
     copyErr env = None ->
     let g := guard s in
     let actual :=
       hex_EncodeToString
         (sha256_Sum256 (limited body (MaxArtifactBytes (OTA (cfg g))))) in
     actual <> dm_SHA256 meta ->
     let o := updateBackend env u s in
     let err := Msg ("hash mismatch: expected " +:+ dm_SHA256 meta
                     +:+ ", got " +:+ actual) in
     st o = s /\
     swapOps (fx o) = [Remove tmpPath] /\
     failures (fx o) =
       (if OnUpdateFailure (OTA (cfg g))
        then [(ComponentSlug (cfg g), WrapUpdate ErrUpdateVerify (Error_ err))]
        else []) /\
     results (fx o) =
       (if OnUpdateResult (OTA (cfg g))
        then [EResult (ComponentSlug (cfg g)) (version g) (Latest u) false
                      (Some err)]
        else [])) /\
  (forall (env : FrontendEnv) (mc : ManagedComponent) (u : updateInfo)
          (s : Store) (resp : frontendMeta) (status : Z) (body : string),
     postResult (f_metaOutcome env) = Ok resp ->
     f_getOutcome env = GetResponse status body ->
     let g := guard s in
     streamedDigest env body (MaxArtifactBytes (OTA (cfg g))) <> fm_SHA256 resp ->
     let o := updateFrontend env mc u s in
     st o = s /\
     (forall op, op ∈ swapOps (fx o) ->
        exists tmpDir, f_mkdirTemp env = Ok tmpDir /\ op = RemoveAll tmpDir) /\
     results (fx o) = [] /\
     (exists e,
        failures (fx o) =
        if OnUpdateFailure (OTA (cfg g)) then [(Slug mc, e)] else []) /\
     (forall tmpDir,
        fm_Error resp = "" -> status = StatusOK ->
        f_mkdirTemp env = Ok tmpDir -> f_gzip env = None ->
        val (extractEntries env (Slug mc) tmpDir (f_entries env) s) = Proceed ->
        swapOps (fx o) = [RemoveAll tmpDir] /\
        failures (fx o) =
        if OnUpdateFailure (OTA (cfg g))
        then [(Slug mc, WrapUpdate ErrUpdateVerify "hash mismatch")] else [])).
Proof.
  split.
  - intros env u s meta body tmpPath Hmeta Herr Hget Htmp Hcopy g actual Hne o err.
    subst o. apply String.eqb_neq in Hne.
    wp_start (updateBackend env u) s.
    unfold updateBackend, requestDownloadMeta, downloadArtifactWithProgress,
      backendFailure.
    wp_walk. rewrite Hmeta. cbn iota. rewrite Herr.
    change (String.eqb "" "") with true. cbn [negb]. wp_walk.
    rewrite Hget. wp_walk. change (StatusOK =? StatusOK) with true.
    cbn [negb]. wp_walk. rewrite Htmp. wp_walk. rewrite Hcopy. wp_walk.
    fold g. fold actual. rewrite Hne. cbn [negb]. wp_walk.
    fold g. fold actual. fold err. fx_split.
    destruct (OnUpdateFailure (OTA (cfg g))), (OnUpdateResult (OTA (cfg g))),
      (OnUpdateProgress (OTA (cfg g))); done.
  - intros env mc u s resp status body Hmeta Hget g Hne o. subst o.
    apply String.eqb_neq in Hne.
    wp_start (updateFrontend env mc u) s.
    unfold updateFrontend. wp_walk. rewrite Hmeta. cbn iota. fold g.
    destruct (String.eqb (fm_Error resp) "") eqn:Herr; cbn [negb]; wp_walk.
    2: { fold g. fx_split.
         destruct (OnUpdateProgress _), (OnUpdateFailure _); fx_eval;
           (split; [done|]); (split; [intros op Hop; by apply elem_of_nil in Hop|]);
           (split; [done|]); (split; [ex_fail|]);
           intros tmpDir Hf; by rewrite Hf in Herr. }
    rewrite Hget. cbn iota.
    destruct (status =? StatusOK) eqn:Hstatus; cbn [negb]; wp_walk.
    2: { fold g. fx_split.
         destruct (OnUpdateProgress _), (OnUpdateFailure _); fx_eval;
           (split; [done|]); (split; [intros op Hop; by apply elem_of_nil in Hop|]);
           (split; [done|]); (split; [ex_fail|]);
           intros tmpDir _ ->; done. }
    destruct (f_mkdirTemp env) as [tmpDir|err]; wp_walk.
    2: { fold g. fx_split.
         destruct (OnUpdateProgress _), (OnUpdateFailure _); fx_eval;
           (split; [done|]); (split; [intros op Hop; by apply elem_of_nil in Hop|]);
           (split; [done|]); (split; [ex_fail|]);
           intros tmpDir _ _ [=]. }
    destruct (f_gzip env) as [err|]; wp_walk.
    { fold g. fx_split.
      destruct (OnUpdateProgress _), (OnUpdateFailure _); fx_eval;
        (split; [done|]);
        (split; [intros op Hop; apply list_elem_of_singleton in Hop; by eauto|]);
        (split; [done|]); (split; [ex_fail|]);
        intros t _ _ _ [=]. }
    apply wp_run.
    pose proof (extractEntries_st env (Slug mc) tmpDir (f_entries env) s) as Hst.
    pose proof (extractEntries_reports env (Slug mc) tmpDir (f_entries env) s)
      as (Hres & Hswap & v & d & Hfail).
    cbv zeta in Hres, Hswap, Hfail.
    destruct (extractEntries env (Slug mc) tmpDir (f_entries env) s)
      as [flow s1 l] eqn:Hex.
    cbn [val st fx] in *. subst s1.
    destruct flow; wp_walk.
    + fold g in Hfail |- *. rewrite Hne. cbn [negb]. wp_walk. fold g.
      fx_split. rewrite Hres, Hswap, Hfail.
      destruct (OnUpdateProgress _), (OnUpdateFailure _); fx_eval;
        (split; [done|]);
        (split; [intros op Hop; apply list_elem_of_singleton in Hop; by eauto|]);
        (split; [done|]); (split; [ex_fail|]);
        by intros t _ _ [= <-] _ _.
    + fold g in Hfail |- *. fx_split. rewrite Hres, Hswap, Hfail.
      destruct (OnUpdateProgress _), (OnUpdateFailure _); fx_eval;
        (split; [done|]);
        (split; [intros op Hop; apply list_elem_of_singleton in Hop; by eauto|]);
        (split; [done|]); (split; [ex_fail|]);
        intros t _ _ [= <-] _ Hp; rewrite Hex in Hp; discriminate.
Qed.

(** Every run of [updateBackend] either fails, leaving the store as it
    was and calling [OnUpdateFailure] with the wrapped error and then
    [OnUpdateResult] with [false] and the error (each when it is set), or
    succeeds, setting the version and calling [OnUpdateResult] with
    [true]. *)
Lemma updateBackend_reports (env : BackendEnv) (u : updateInfo) (s : Store) :
  let o := updateBackend env u s in
  let g := guard s in
  let slug := ComponentSlug (cfg g) in
  (st o = s /\
   exists v err,
     reports (fx o) =
     ((if OnUpdateFailure (OTA (cfg g))
       then [EFailure slug (WrapUpdate v (Error_ err))] else []) ++
      (if OnUpdateResult (OTA (cfg g))
       then [EResult slug (version g) (Latest u) false (Some err)]
       else []))%list) \/
  (st o = {| guard := setVersion (Latest u) g; disk := disk s |} /\
   reports (fx o) =
   if OnUpdateResult (OTA (cfg g))
   then [EResult slug (version g) (Latest u) true None] else []).
Proof.
  cbv zeta. wp_start (updateBackend env u) s.
  unfold updateBackend, requestDownloadMeta, downloadArtifactWithProgress,
    backendFailure, applyBackendBinaryWithSelfupdate.
  wp_walk.
  destruct (postResult (metaOutcome env)) as [meta|err]; wp_walk;
    [|backend_failed].
  destruct (String.eqb (dm_Error meta) ""); cbn [negb]; wp_walk;
    [|backend_failed].
  destruct (getOutcome env) as [err|err|status body]; wp_walk;
    [backend_failed|backend_failed|].
  destruct (status =? StatusOK); cbn [negb]; wp_walk; [|backend_failed].
  destruct (createTemp env) as [tmpPath|err]; wp_walk; [|backend_failed].
  destruct (copyErr env) as [err|]; wp_walk; [backend_failed|].
  destruct (String.eqb _ (dm_SHA256 meta)); cbn [negb]; wp_walk;
    [|backend_failed].
  destruct (verifySignature _ _ _) as [err|]; wp_walk; [backend_failed|].
  destruct (executable env) as [exe|err]; wp_walk; [|backend_failed].
  destruct (openTmp env) as [err|]; wp_walk; [backend_failed|].
  destruct (applyOutcome env) as [|err [rerr|]]; wp_walk;
    [|backend_failed|backend_failed].
  right. split; [done|]. cbn [cfg setVersion]. fx_split.
  by destruct (OnUpdateResult _), (OnUpdateProgress _).
Qed.

(** Every run of [updateFrontend] either fails, leaving the store as it
    was, calling [OnUpdateFailure] once when it is set and [OnUpdateResult]
    not at all, or succeeds, setting the managed version and calling
    [OnUpdateResult] with [true]. *)
Lemma updateFrontend_reports (env : FrontendEnv) (mc : ManagedComponent)
    (u : updateInfo) (s : Store) :
  let o := updateFrontend env mc u s in
  let g := guard s in
  (st o = s /\ results (fx o) = [] /\
   exists e,
     failures (fx o) =
     if OnUpdateFailure (OTA (cfg g)) then [(Slug mc, e)] else []) \/
  (st o = {| guard :=
               setManagedVersions
                 (<[Slug mc := Latest u]> (managedVersions g)) g;
             disk := disk s |} /\
   failures (fx o) = [] /\
   results (fx o) =
   if OnUpdateResult (OTA (cfg g))
   then [EResult (Slug mc) (default "" (managedVersions g !! Slug mc))
                 (Latest u) true None]
   else []).
Proof.
  cbv zeta. wp_start (updateFrontend env mc u) s.
  unfold updateFrontend, swapAndCommit. wp_walk.
  destruct (postResult (f_metaOutcome env)) as [resp|err]; wp_walk;
    [|frontend_failed].
  destruct (String.eqb (fm_Error resp) ""); cbn [negb]; wp_walk;
    [|frontend_failed].
  destruct (f_getOutcome env) as [err|err|status body]; wp_walk;
    [frontend_failed|frontend_failed|].
  destruct (status =? StatusOK); cbn [negb]; wp_walk; [|frontend_failed].
  destruct (f_mkdirTemp env) as [tmpDir|err]; wp_walk; [|frontend_failed].
  destruct (f_gzip env) as [err|]; wp_walk; [frontend_failed|].
  apply wp_run.
  pose proof (extractEntries_st env (Slug mc) tmpDir (f_entries env) s) as Hst.
  pose proof (extractEntries_reports env (Slug mc) tmpDir (f_entries env) s)
    as (Hres & _ & v & d & Hfail).
  cbv zeta in Hres, Hfail.
  destruct (extractEntries env (Slug mc) tmpDir (f_entries env) s)
    as [flow s1 l] eqn:Hex.
  cbn [val st fx] in *. subst s1.
  destruct flow; wp_walk; [|frontend_failed].
  destruct (String.eqb _ (fm_SHA256 resp)); cbn [negb]; wp_walk;
    [|frontend_failed].
  destruct (f_statErr env) as [err|]; wp_walk.
  - destruct (f_renameNew env) as [err'|]; wp_walk; [frontend_failed|].
    destruct (PostUpdate mc); wp_walk;
      (right; split; [done|]; cbn [cfg setManagedVersions]; fx_split;
       rewrite Hres, Hfail;
       by destruct (OnUpdateResult _), (OnUpdateProgress _)).
  - destruct (f_renameBackup env) as [err|]; wp_walk; [frontend_failed|].
    destruct (f_renameNew env) as [err'|]; wp_walk; [frontend_failed|].
    destruct (PostUpdate mc); wp_walk;
      (right; split; [done|]; cbn [cfg setManagedVersions]; fx_split;
       rewrite Hres, Hfail;
       by destruct (OnUpdateResult _), (OnUpdateProgress _)).
Qed.

End PipelineProps.

(** ** The properties on concrete inputs *)

Section Concrete.
Import License Heartbeat Updater.

(** [New] on a configuration without a server URL and on a complete one. *)
Lemma New_validates_witness :
  (exists e, @New Sample.primitives Sample.host Sample.configNoURL = Err e) /\
  match @New Sample.primitives Sample.host Sample.config with
  | Ok g =>
      version g = "unknown" /\
      managedVersions g !! "frontend" = Some "unknown"
  | Err _ => False
  end.
Proof.
  split.
  - apply (@New_validates_and_initialises Sample.primitives Sample.host
             Sample.configNoURL).
    left. reflexivity.
  - destruct (@New Sample.primitives Sample.host Sample.config) as [g|e] eqn:Hnew.
    + destruct (@New_validates_and_initialises Sample.primitives Sample.host
                  Sample.config) as [_ Hok].
      destruct (Hok g Hnew) as (Hv & Hm & _).
      split; [exact Hv|].
      apply (Hm Sample.web). apply list_elem_of_here.
    + vm_compute in Hnew. discriminate Hnew.
Defined.

(** License verification with a trusted cache entry and with an entry that
    does not decode. *)
Lemma verifyLicense_witness :
  let hit := @verifyLicense Sample.primitives Sample.licenseEnv
                            Sample.storeWithSignedCache in
  let miss := @verifyLicense Sample.primitives Sample.licenseEnv
                             Sample.storeWithStaleCache in
  (val hit = None /\ posts (fx hit) = [] /\
   st hit = Sample.storeWithSignedCache) /\
  (posts (fx miss) = ["/api/v1/verify"] /\
   val miss = remoteVerdict Sample.licenseEnv).
Proof.
  cbv zeta. split.
  - apply (@verifyLicense_cache_then_remote Sample.primitives Sample.licenseEnv
             Sample.storeWithSignedCache).
    reflexivity.
  - destruct (@verifyLicense_cache_then_remote Sample.primitives
                Sample.licenseEnv Sample.storeWithStaleCache) as [_ Hmiss].
    destruct (Hmiss eq_refl) as (Hp & Hv & _).
    split; [exact Hp | exact Hv].
Defined.

(** The kill order of [Sample.killWithUpdate], received while a grace
    period is running. *)
Lemma kill_response_witness :
  hb_Status Sample.killWithUpdate = "kill" /\
  let o :=
    heartbeatLoop
      (Fired (Response StatusOK (Ok Sample.killWithUpdate)) 1050000000
             1050000000 :: Sample.fiveFailures)
      (Some 1000000000) Sample.store in
  (val o).1 = Return /\ sm (guard (st o)) = StateBanned.
Proof.
  split; [reflexivity|]. cbv zeta.
  destruct (kill_response_bans_and_stops Sample.killWithUpdate 1050000000
              1050000000 (Some 1000000000) Sample.fiveFailures Sample.store
              eq_refl)
    as (_ & _ & _ & Hret & Hsm & _).
  split; [exact Hret | exact Hsm].
Defined.

(** Scenario B: five failed heartbeats, the last more than 200 ms after the
    first, lock the guard and end the loop. *)
Lemma heartbeat_failure_witness :
  let o := heartbeatLoop Sample.fiveFailures None Sample.store in
  val o = (Return, Some 1000000000) /\
  sm (guard (st o)) = StateLocked /\
  smCalls (fx o) =
    [EvHeartbeatFail; EvHeartbeatFail; EvHeartbeatFail; EvHeartbeatFail;
     EvHeartbeatFail; EvGracePeriodExpired] /\
  isFatalError (Some (Wrap ErrNetworkError "send request: connection refused"))
    = false.
Proof.
  cbv zeta. split; [reflexivity|]. split; [reflexivity|].
  split; [reflexivity|].
  destruct (heartbeat_failure_policy
              (Wrap ErrNetworkError "send request: connection refused")
              0 0 None Sample.store) as [Hfatal _].
  rewrite Hfatal. reflexivity.
Defined.

(** The update announced by [Sample.okWithUpdate] is handed on. *)
Lemma updates_dispatched_witness :
  String.eqb (hb_Status Sample.okWithUpdate) "kill" = false /\
  let o := sendHeartbeat (Response StatusOK (Ok Sample.okWithUpdate))
                         Sample.store in
  val o = None /\ st o = Sample.store /\
  started (fx o) = [GoUpdateBackend Sample.backendUpdate].
Proof.
  split; [reflexivity|]. cbv zeta.
  destruct (updates_dispatched_unless_kill Sample.okWithUpdate Sample.store
              eq_refl) as (Hv & Hst & Hfx).
  split; [exact Hv|]. split; [exact Hst|].
  cbn in Hfx. rewrite Hfx. reflexivity.
Defined.

(** C9, as the claim states it, fails on a response that orders the kill:
    OTA is enabled, the response does not freeze updates and carries an
    entry with [UpdateAvailable] set, whose dispatch would start the backend
    update, yet [sendHeartbeat] starts nothing and returns [ErrBanned]. *)
Lemma kill_response_drops_updates :
  let o := sendHeartbeat (Response StatusOK (Ok Sample.killWithUpdate))
                         Sample.store in
  Enabled (OTA (cfg (guard Sample.store))) = true /\
  hb_UpdateFrozen Sample.killWithUpdate = false /\
  List.filter UpdateAvailable (hb_Updates Sample.killWithUpdate) =
    [Sample.backendUpdate] /\
  started (fx (dispatchAll [Sample.backendUpdate] Sample.store)) =
    [GoUpdateBackend Sample.backendUpdate] /\
  started (fx o) = [] /\
  val o = Some (Var ErrBanned).
Proof. by repeat split. Qed.

(** The two mismatching downloads of [Sample]. *)
Lemma hash_mismatch_witness :
  let b := @updateBackend Sample.primitives Sample.backendMismatch
                          Sample.backendUpdate Sample.store in
  let f := @updateFrontend Sample.primitives Sample.frontendMismatch
                           Sample.web Sample.frontendUpdate Sample.store in
  (st b = Sample.store /\
   swapOps (fx b) = [Remove "/tmp/deploy-guard-update-1"]) /\
  (st f = Sample.store /\
   swapOps (fx f) = [RemoveAll "/tmp/deploy-guard-frontend-1"] /\
   failures (fx f) =
     [("frontend", WrapUpdate ErrUpdateVerify "hash mismatch")]).
Proof.
  cbv zeta.
  destruct (@hash_mismatch_never_applied Sample.primitives) as [Hb Hf].
  split.
  - destruct (Hb Sample.backendMismatch Sample.backendUpdate Sample.store
                {| dm_DownloadURL := "/download/backend";
                   dm_SHA256 := "expected-digest"; dm_Signature := "sig";
                   dm_Error := "" |}
                "binary-bytes" "/tmp/deploy-guard-update-1"
                eq_refl eq_refl eq_refl eq_refl eq_refl)
      as (Hst & Hswap & _).
    + vm_compute. discriminate.
    + split; [exact Hst | exact Hswap].
  - destruct (Hf Sample.frontendMismatch Sample.web Sample.frontendUpdate
                Sample.store
                {| fm_DownloadURL := "/download/frontend.tar.gz";
                   fm_SHA256 := "badhash"; fm_Error := "" |}
                StatusOK "archive-bytes" eq_refl eq_refl)
      as (Hst & _ & _ & _ & Hreach).
    + vm_compute. discriminate.
    + destruct (Hreach "/tmp/deploy-guard-frontend-1" eq_refl eq_refl eq_refl
                       eq_refl eq_refl) as [Hswap Hfail].
      split; [exact Hst|]. split; [exact Hswap | exact Hfail].
Defined.

(** An archive with a traversal entry and a regular file: only the file is
    written. *)
Lemma extraction_witness :
  let o := extractEntries Sample.frontendMismatch "frontend" "/tmp/dg"
                          [Sample.passwd; Sample.testTxt] Sample.store in
  insideRoot "/tmp/dg" "../etc/passwd" = false /\
  resolve "/tmp/dg" "../etc/passwd" = "/tmp/etc/passwd" /\
  fsOps (fx o) =
    [MkdirAll "/tmp/dg" 493; OpenFile "/tmp/dg/test.txt" 420;
     Copy "/tmp/dg/test.txt" "test"] /\
  fsOps (fx o) =
    fsOps (fx (extractEntries Sample.frontendMismatch "frontend" "/tmp/dg"
                              [Sample.testTxt] Sample.store)).
Proof.
  cbv zeta. split; [reflexivity|]. split; [reflexivity|].
  split; [reflexivity|].
  destruct (extraction_confined_to_root Sample.frontendMismatch "frontend"
              "/tmp/dg" [Sample.passwd; Sample.testTxt] Sample.store)
    as (_ & Hops & _).
  exact Hops.
Defined.

End Concrete.

(** C7, where the code departs from the claim: every run of
    [updateFrontend] that reports a result reports a success, so a failed
    frontend update calls [OnUpdateFailure] only; on the mismatching
    download of [Sample], with [OnUpdateResult] set, the frontend reports
    the failure alone, where the backend reports the failure and then the
    failed result. *)
Theorem frontend_failure_skips_OnUpdateResult :
  (forall (P : Primitives) (env : Updater.FrontendEnv) (mc : ManagedComponent)
          (u : updateInfo) (s : Store) (e : Effect),
     e ∈ Updater.results (fx (@Updater.updateFrontend P env mc u s)) ->
     e = EResult (Slug mc) (default "" (managedVersions (guard s) !! Slug mc))
                 (Latest u) true None) /\
  let f := @Updater.updateFrontend Sample.primitives Sample.frontendMismatch
             Sample.web Sample.frontendUpdate Sample.store in
  let b := @Updater.updateBackend Sample.primitives Sample.backendMismatch
             Sample.backendUpdate Sample.store in
  OnUpdateResult (OTA (cfg (guard Sample.store))) = true /\
  st f = Sample.store /\
  Updater.reports (fx f) =
    [EFailure "frontend" (WrapUpdate ErrUpdateVerify "hash mismatch")] /\
  Updater.reports (fx b) =
    [EFailure "backend"
       (WrapUpdate ErrUpdateVerify
          "hash mismatch: expected expected-digest, got binary-bytes");
     EResult "backend" "1.0.0" "2.0.0" false
       (Some (Msg "hash mismatch: expected expected-digest, got binary-bytes"))].
Proof.
  split.
  - intros P env mc u s e He.
    destruct (@updateFrontend_reports P env mc u s) as [(_ & Hr & _)|(_ & _ & Hr)];
      cbv zeta in Hr; rewrite Hr in He.
    + by apply elem_of_nil in He.
    + destruct (OnUpdateResult _).
      * by apply list_elem_of_singleton in He.
      * by apply elem_of_nil in He.
  - by repeat split.
Qed.

(** ** Further properties of the state machine and of [Check] *)

(** X1: LOCKED is entered only from GRACE by [OnGracePeriodExpired], and is
    kept by every event but [OnKill]. *)
Theorem LOCKED_entry_and_exit (s : State) (e : Machine.Event) :
  (step s e = StateLocked <->
   (s = StateGrace /\ e = EvGracePeriodExpired) \/
   (s = StateLocked /\ e <> EvKill)) /\
  (step StateLocked e = StateLocked \/ e = EvKill).
Proof.
  split; [split|].
  - destruct s, e; cbn; intros Hs; try discriminate Hs;
      first [left; by split | right; by split].
  - intros [[-> ->]|[-> He]]; [done|]. by destruct e.
  - destruct e; cbn; auto.
Qed.

(** X2: an event sequence that contains [OnKill] ends in BANNED from every
    state, and [Check] then returns [ErrBanned]; a sequence without
    [OnKill] never reaches BANNED from another state. *)
Theorem kill_anywhere_bans (g : Guard) (es : list Machine.Event) :
  (EvKill ∈ es ->
   run (sm g) es = StateBanned /\
   Check (setSm (run (sm g) es) g) = Some (Var ErrBanned)) /\
  (EvKill ∉ es -> sm g <> StateBanned -> run (sm g) es <> StateBanned).
Proof.
  split.
  - intros Hin.
    assert (Hrun : run (sm g) es = StateBanned).
    { generalize (sm g). induction es as [|e es IH]; intros s.
      - by apply elem_of_nil in Hin.
      - apply elem_of_cons in Hin as [<-|Hin].
        + cbn. apply run_banned.
        + cbn. by apply IH. }
    split; [done|]. unfold Check. cbn. by rewrite Hrun.
  - generalize (sm g). induction es as [|e es IH]; intros s Hnin Hs; [done|].
    cbn. apply IH.
    + intros Hin. apply Hnin. by right.
    + assert (He : e <> EvKill) by (intros ->; apply Hnin; by left).
      by destruct s, e.
Qed.

Lemma kill_anywhere_witness :
  run (sm Sample.theGuard)
      [EvHeartbeatFail; EvKill; EvHeartbeatOK; EvVerifySuccess] = StateBanned /\
  run (sm Sample.theGuard) [EvHeartbeatFail; EvGracePeriodExpired]
    = StateLocked.
Proof.
  split.
  - apply (kill_anywhere_bans Sample.theGuard
             [EvHeartbeatFail; EvKill; EvHeartbeatOK; EvVerifySuccess]).
    apply list_elem_of_further, list_elem_of_here.
  - reflexivity.
Defined.

(** X3: ACTIVE is entered only by a success signal, from INIT by
    [OnVerifySuccess] and from GRACE by [OnVerifySuccess] or
    [OnHeartbeatOK]; INIT is never entered again once left. *)
Theorem ACTIVE_and_INIT_entry (s : State) (e : Machine.Event) :
  (step s e = StateActive <->
   (s = StateInit /\ e = EvVerifySuccess) \/
   (s = StateGrace /\ (e = EvVerifySuccess \/ e = EvHeartbeatOK)) \/
   (s = StateActive /\ e <> EvHeartbeatFail /\ e <> EvKill)) /\
  (step s e = StateInit <-> s = StateInit /\ e <> EvVerifySuccess /\ e <> EvKill).
Proof.
  split; split.
  - destruct s, e; cbn; intros Hs; try discriminate Hs;
      first [ left; by split
            | right; left; split; [done|]; by (left + right)
            | right; right; by repeat split ].
  - intros [[-> ->]|[[-> [->| ->]]|[-> [H1 H2]]]]; try done. by destruct e.
  - destruct s, e; cbn; intros Hs; try discriminate Hs; by repeat split.
  - intros (-> & H1 & H2). by destruct e.
Qed.

(** X4: every method of the state machine is idempotent: a signal delivered
    twice in a row acts as once. *)
Theorem step_idempotent (s : State) (e : Machine.Event) :
  step (step s e) e = step s e.
Proof. by destruct s, e. Qed.

(** ** Further properties of the configuration *)


(** X6: [setDefaults] fills in the platform only when neither the OS nor
    the architecture is configured; when one of them is, both are left as
    they are, so the other stays empty. *)
Theorem setDefaults_platform (goos goarch : string) (c : Config) :
  let d := setDefaults goos goarch c in
  (OS (OTA c) = "" /\ Arch (OTA c) = "" ->
   OS (OTA d) = goos /\ Arch (OTA d) = goarch) /\
  (OS (OTA c) <> "" \/ Arch (OTA c) <> "" ->
   OS (OTA d) = OS (OTA c) /\ Arch (OTA d) = Arch (OTA c)).
Proof.
  cbv zeta. unfold setDefaults. cbn [OTA OS Arch]. split.
  - intros [-> ->]. done.
  - intros Hne.
    destruct (String.eqb_spec (OS (OTA c)) ""), (String.eqb_spec (Arch (OTA c)) "");
      cbn [andb]; try done. by destruct Hne.
Qed.

Lemma setDefaults_platform_witness :
  let c := {| ServerURL := ""; LicenseKey := ""; PublicKeyPEM := None;
              ProjectSlug := ""; ComponentSlug := ""; HeartbeatInterval := 0;
              GracePolicy_ := {| MaxOfflineDuration := 0; WarningInterval := 0 |};
              OTA := {| Enabled := false; AutoUpdate := false;
                        CheckInterval := 0; OS := "windows"; Arch := "";
                        DownloadTimeout := 0; MaxArtifactBytes := 0;
                        OnUpdateProgress := false; OnUpdateResult := false;
                        OnUpdateFailure := false |};
              ManagedComponents := [] |} in
  OS (OTA (setDefaults "linux" "amd64" c)) = "windows" /\
  Arch (OTA (setDefaults "linux" "amd64" c)) = "" /\
  OS (OTA (setDefaults "linux" "amd64" Sample.configNoURL)) = "linux".
Proof.
  cbv zeta. split; [|split].
  - eapply (setDefaults_platform "linux" "amd64"). left. cbn. discriminate.
  - eapply (setDefaults_platform "linux" "amd64"). left. cbn. discriminate.
  - reflexivity.
Defined.
(** ** Further properties of the heartbeat *)

Section MoreHeartbeat.
Import Heartbeat Lifecycle.

Lemma sendHeartbeat_cases (outcome : PostOutcome heartbeatResponse) (s : Store) :
  let o := sendHeartbeat outcome s in
  match postResult outcome with
  | Err err =>
      val o = Some (Wrap ErrNetworkError (Error_ err)) /\ st o = s /\
      fx o = [EPostJSON "/api/v1/heartbeat" (heartbeatBody (guard s))]
  | Ok resp =>
      if String.eqb (hb_Status resp) "kill" then
        val o = Some (Var ErrBanned) /\
        st o = {| guard := setSm StateBanned (guard s); disk := disk s |} /\
        fx o = [EPostJSON "/api/v1/heartbeat" (heartbeatBody (guard s));
                ESm EvKill]
      else
        val o = None /\ st o = s /\
        smCalls (fx o) = [] /\ posts (fx o) = ["/api/v1/heartbeat"]
  end.
Proof.
  cbv zeta. wp_start (sendHeartbeat outcome) s. unfold sendHeartbeat.
  wp_walk. destruct (postResult outcome) as [resp|err]; wp_steps; [|done].
  destruct (String.eqb (hb_Status resp) "kill"); wp_steps; [done|].
  unfold when.
  destruct (Enabled (OTA (cfg (guard s))) && negb (hb_UpdateFrozen resp));
    wp_steps; [|done].
  apply wp_run.
  destruct (notifyUpdates_dispatchAll (hb_Updates resp) s) as (Hst & _ & _).
  assert (Hfx : smCalls (fx (notifyUpdates (hb_Updates resp) s)) = [] /\
                posts (fx (notifyUpdates (hb_Updates resp) s)) = []).
  { clear Hst. induction (hb_Updates resp) as [|u us [IH1 IH2]]; [done|].
    rewrite notifyUpdates_cons. cbv zeta. cbn [val st fx].
    assert (Hh : st (when (UpdateAvailable u) (handleUpdateNotification u) s) = s
                 /\ smCalls (fx (when (UpdateAvailable u)
                                      (handleUpdateNotification u) s)) = []
                 /\ posts (fx (when (UpdateAvailable u)
                                    (handleUpdateNotification u) s)) = []).
    { destruct (UpdateAvailable u); [|done]. cbn [when].
      split; [apply handleUpdateNotification_st|].
      unfold handleUpdateNotification. run_m.
      destruct (String.eqb (Component u) (ComponentSlug (cfg (guard s)))).
      - by destruct (AutoUpdate (OTA (cfg (guard s)))).
      - generalize (AutoUpdate (OTA (cfg (guard s)))). intros b.
        induction (ManagedComponents (cfg (guard s))) as [|mc mcs IHm]; [done|].
        cbn [routeManaged].
        destruct (String.eqb (Slug mc) (Component u)); [|exact IHm].
        destruct b; [|done]. run_m.
        destruct (Strategy mc =? UpdateBackend); [done|].
        by destruct (Strategy mc =? UpdateFrontend). }
    destruct Hh as (Hs & Hc & Hp). rewrite Hs.
    unfold smCalls, posts in *. rewrite !omap_app.
    by rewrite Hc, Hp, IH1, IH2. }
  destruct Hfx as [Hc Hp].
  destruct (notifyUpdates (hb_Updates resp) s) as [v s1 l]. cbn [val st fx] in *.
  subst s1. wp_steps. unfold smCalls, posts in *. cbn [omap list_omap].
  rewrite !omap_app. cbn [omap list_omap]. rewrite Hc, Hp. done.
Qed.

(** X7: the error [sendHeartbeat] returns is fatal for the loop exactly
    when a response arrived with status 200 and the status field "kill";
    every other failure, whatever its text, is a wrapped [ErrNetworkError]
    and not fatal.  A heartbeat never changes the versions, the
    configuration or the cache files, and a failed one starts no update. *)
Theorem sendHeartbeat_fatal_only_on_kill
    (outcome : PostOutcome heartbeatResponse) (s : Store) :
  let o := sendHeartbeat outcome s in
  (isFatalError (val o) = true <->
   exists resp, postResult outcome = Ok resp /\ hb_Status resp = "kill") /\
  (val o = None \/ val o = Some (Var ErrBanned) \/
   exists d, val o = Some (Wrap ErrNetworkError d)) /\
  version (guard (st o)) = version (guard s) /\
  managedVersions (guard (st o)) = managedVersions (guard s) /\
  cfg (guard (st o)) = cfg (guard s) /\
  disk (st o) = disk s /\
  (val o <> None -> started (fx o) = []).
Proof.
  cbv zeta. pose proof (sendHeartbeat_cases outcome s) as Hc. cbv zeta in Hc.
  destruct (postResult outcome) as [resp|err].
  - destruct (String.eqb_spec (hb_Status resp) "kill") as [Hk|Hk].
    + destruct Hc as (-> & -> & ->). split; [|by repeat split; eauto].
      split; [intros _; by exists resp | done].
    + destruct Hc as (-> & -> & _ & _). split; [|by repeat split; eauto].
      split; [done|]. intros (r & [= <-] & Hr). done.
    - destruct Hc as (-> & -> & ->). split; [|by repeat split; eauto].
      split; [done|]. intros (r & Hr & _). done.
Qed.

(** X8: the heartbeat request lists the primary component with the version
    last set by [SetVersion] and every configured managed component with
    the version last set for its slug by [SetManagedVersion]; a version set
    for a slug that is not configured is not reported. *)
Theorem heartbeatBody_after_setters (v slug w : string) (s : Store) :
  let g := guard s in
  let s' := st (SetManagedVersion slug w (st (SetVersion v s))) in
  heartbeatBody (guard s') =
  JObject [("license_key", JString (LicenseKey (cfg g)));
           ("machine_id", JString (MachineID (fingerprint g)));
           ("project_slug", JString (ProjectSlug (cfg g)));
           ("components",
            JArray (componentEntry (ComponentSlug (cfg g)) v ::
                    map (fun mc =>
                           componentEntry (Slug mc)
                             (if String.eqb (Slug mc) slug then w
                              else default "" (managedVersions g !! Slug mc)))
                        (ManagedComponents (cfg g))))] /\
  (slug ∉ map Slug (ManagedComponents (cfg g)) ->
   heartbeatBody (guard s') = heartbeatBody (setVersion v g)).
Proof.
  cbv zeta.
  change (guard (st (SetManagedVersion slug w (st (SetVersion v s)))))
    with (setManagedVersions (<[slug:=w]> (managedVersions (guard s)))
            (setVersion v (guard s))).
  unfold heartbeatBody. cbn [setManagedVersions setVersion cfg fingerprint
                             version managedVersions].
  assert (Hmap : forall mcs : list ManagedComponent,
    map (fun mc => componentEntry (Slug mc)
           (default "" (<[slug:=w]> (managedVersions (guard s)) !! Slug mc))) mcs =
    map (fun mc => componentEntry (Slug mc)
           (if String.eqb (Slug mc) slug then w
            else default "" (managedVersions (guard s) !! Slug mc))) mcs).
  { intros mcs. apply map_ext. intros mc.
    destruct (String.eqb_spec (Slug mc) slug) as [->|Hne].
    - by rewrite lookup_insert_eq.
    - by rewrite lookup_insert_ne. }
  split.
  - by rewrite Hmap.
  - intros Hnin.
    rewrite (map_ext_in _
               (fun mc => componentEntry (Slug mc)
                            (default "" (managedVersions (guard s) !! Slug mc))));
      [done|].
    intros mc Hin. rewrite lookup_insert_ne; [done|]. intros ->. apply Hnin.
    apply list_elem_of_In, in_map, Hin.
Qed.

Lemma heartbeatBody_witness :
  let s' := st (SetManagedVersion "ghost" "9.9.9"
                  (st (SetVersion "1.0.0" Sample.store))) in
  heartbeatBody (guard s') = heartbeatBody (guard Sample.store).
Proof.
  cbv zeta.
  destruct (heartbeatBody_after_setters "1.0.0" "ghost" "9.9.9" Sample.store)
    as [_ Hghost].
  rewrite Hghost; [reflexivity|].
  cbn. intros Hin. apply list_elem_of_singleton in Hin. discriminate Hin.
Defined.

(** X9: as long as every heartbeat is answered without a kill order, the
    loop never returns, holds no grace start, and leaves the versions
    alone; the machine is where one [OnHeartbeatOK] puts it, so an ACTIVE
    guard stays ACTIVE and a guard in GRACE recovers to ACTIVE. *)
Theorem answered_heartbeats_keep_running
    (ticks : list Tick) (graceStart : GraceStart) (s : Store) :
  Forall answered ticks -> ticks <> [] ->
  let o := heartbeatLoop ticks graceStart s in
  val o = (Continue, None) /\
  sm (guard (st o)) = OnHeartbeatOK (sm (guard s)) /\
  version (guard (st o)) = version (guard s) /\
  managedVersions (guard (st o)) = managedVersions (guard s) /\
  (sm (guard s) = StateActive \/ sm (guard s) = StateGrace ->
   sm (guard (st o)) = StateActive).
Proof.
  intros Hall Hne. cbv zeta.
  assert (Hgen : forall gs s0,
    ticks <> [] ->
    val (heartbeatLoop ticks gs s0) = (Continue, None) /\
    sm (guard (st (heartbeatLoop ticks gs s0))) = OnHeartbeatOK (sm (guard s0)) /\
    version (guard (st (heartbeatLoop ticks gs s0))) = version (guard s0) /\
    managedVersions (guard (st (heartbeatLoop ticks gs s0)))
      = managedVersions (guard s0)).
  { induction Hall as [|t ticks Ht Hall IH]; intros gs s0 Hn; [done|].
    destruct t as [|outcome now later]; [done|].
    destruct Ht as (resp & Hres & Hk).
    pose proof (sendHeartbeat_cases outcome s0) as Hc. cbv zeta in Hc.
    rewrite Hres, Hk in Hc. destruct Hc as (Hv & Hst & _).
    wp_start (heartbeatLoop (Fired outcome now later :: ticks) gs) s0.
    cbn [heartbeatLoop]. unfold iteration. wp_walk. apply wp_run.
    destruct (sendHeartbeat outcome s0) as [v s1 l]. cbn [val st fx] in *.
    subst v s1. unfold afterHeartbeat. wp_walk. cbn [fst snd].
    destruct ticks as [|t' ticks'].
    - cbn [heartbeatLoop]. wp_walk. done.
    - apply wp_run.
      destruct (IH ltac:(done) None
                  {| guard := setSm (step (sm (guard s0)) EvHeartbeatOK) (guard s0);
                     disk := disk s0 |} ltac:(done)) as (H1 & H2 & H3 & H4).
      cbn [guard sm setSm version managedVersions step] in *.
      rewrite H1, H2, H3, H4. split; [done|].
      split; [by destruct (sm (guard s0))|done]. }
  destruct (Hgen graceStart s Hne) as (H1 & H2 & H3 & H4).
  rewrite H1, H2, H3, H4. repeat split; try done.
  intros [->| ->]; done.
Qed.

Lemma answered_heartbeats_witness :
  let ticks := [Fired (Response StatusOK (Ok Sample.okWithUpdate)) 0 0;
                Fired (Response StatusOK (Ok Sample.okWithUpdate)) 50 50;
                Fired (Response StatusOK (Ok Sample.okWithUpdate)) 100 100] in
  let o := heartbeatLoop ticks (Some 7) Sample.store in
  val o = (Continue, None) /\ sm (guard (st o)) = StateActive.
Proof.
  cbv zeta.
  destruct (answered_heartbeats_keep_running
              [Fired (Response StatusOK (Ok Sample.okWithUpdate)) 0 0;
               Fired (Response StatusOK (Ok Sample.okWithUpdate)) 50 50;
               Fired (Response StatusOK (Ok Sample.okWithUpdate)) 100 100]
              (Some 7) Sample.store) as (Hv & _ & _ & _ & Hact).
  - repeat constructor; exists Sample.okWithUpdate; split; reflexivity.
  - discriminate.
  - split; [exact Hv|]. apply Hact. left. reflexivity.
Defined.

(** X10: once the loop has returned (the context was done, a kill arrived
    or the grace period ran out), it consumes no further wake-up: any
    wake-ups after that point change neither its result nor its effects. *)
Theorem heartbeatLoop_return_is_final
    (ticks rest : list Tick) (graceStart : GraceStart) (s : Store) :
  (val (heartbeatLoop ticks graceStart s)).1 = Return ->
  heartbeatLoop (ticks ++ rest) graceStart s = heartbeatLoop ticks graceStart s.
Proof.
  revert graceStart s. induction ticks as [|t ticks IH]; intros gs s Hret.
  - cbn in Hret. discriminate Hret.
  - cbn [app heartbeatLoop] in *. unfold mbind, M_bind in *.
    cbn beta iota zeta delta [val st fx] in *.
    destruct (iteration t gs s) as [[c gs'] s1 l]. cbn [val st fx fst snd] in *.
    destruct c.
    + rewrite IH; [done|]. exact Hret.
    + reflexivity.
Qed.

Lemma heartbeatLoop_return_witness :
  heartbeatLoop (Sample.fiveFailures ++ Sample.fiveFailures) None Sample.store =
  heartbeatLoop Sample.fiveFailures None Sample.store /\
  heartbeatLoop (Done :: Sample.fiveFailures) None Sample.store =
  {| val := (Return, None); st := Sample.store; fx := [] |}.
Proof.
  split.
  - apply heartbeatLoop_return_is_final. reflexivity.
  - apply (heartbeatLoop_return_is_final [Done] Sample.fiveFailures None
             Sample.store). reflexivity.
Defined.

End MoreHeartbeat.
(** ** Further properties of license verification and of the lifecycle *)

Section MoreLicense.
Context `{Primitives}.
Import License Heartbeat Lifecycle.

(** The whole outcome of [cloudVerification]. *)
Lemma cloudVerification_out (env : Env) (s : Store) :
  let o := cloudVerification env s in
  let post := EPostJSON "/api/v1/verify" (verifyBody env (guard s)) in
  match postResult (verifyOutcome env) with
  | Err err =>
      o = {| val := Some (Wrap ErrNetworkError (Error_ err)); st := s;
             fx := [post] |}
  | Ok resp =>
      if String.eqb (vr_Error resp) "" then
        o = {| val := None;
               st := {| guard := guard s;
                        disk := if writeFails env then disk s
                                else <[cachePath env (guard s) :=
                                         json_Marshal
                                           (freshEntry env (guard s) resp)]>
                                       (disk s) |};
               fx := [post; EFs (MkdirAll (cacheDir env (guard s)) 448);
                      EFs (WriteFile (cachePath env (guard s))
                             (json_Marshal (freshEntry env (guard s) resp))
                             384)] |}
      else
        o = {| val := Some (verifyError (vr_Error resp)); st := s;
               fx := [post] |}
  end.
Proof.
  cbv zeta. wp_start (cloudVerification env) s.
  unfold cloudVerification, cacheLicense, writeFile, cachePath, freshEntry.
  wp_steps.
  destruct (postResult (verifyOutcome env)) as [resp|err]; wp_steps; [|done].
  destruct (String.eqb (vr_Error resp) ""); cbn [negb]; wp_steps; [|done].
  destruct (writeFails env); wp_steps; [|done]. by destruct s.
Qed.

(** [verifyLicense] is the cache read followed, unless the entry is
    trusted, by [cloudVerification]. *)
Lemma verifyLicense_out (env : Env) (s : Store) :
  let o := verifyLicense env s in
  let read := EFs (ReadFile (cachePath env (guard s))) in
  if cacheTrusted env s then
    o = {| val := None; st := s; fx := [read] |}
  else
    o = {| val := val (cloudVerification env s);
           st := st (cloudVerification env s);
           fx := read :: fx (cloudVerification env s) |}.
Proof.
  cbv zeta. unfold cacheTrusted. wp_start (verifyLicense env) s.
  unfold verifyLicense, loadCachedLicense, readFile. wp_steps.
  destruct (if readFails env then None
            else disk s !! cachePath env (guard s)) as [b|]; wp_steps;
    [|by apply wp_run].
  destruct (json_Unmarshal b) as [c|]; wp_steps; [|by apply wp_run].
  destruct (base64_DecodeString (cl_Signature c)) as [sig|?]; wp_steps;
    [|by apply wp_run].
  destruct (ed25519_Verify _ _ _); [done|]. by apply wp_run.
Qed.

(** X11: a failed [verifyLicense] leaves the guard and the cache files as
    they were and issues neither [MkdirAll] nor [WriteFile]; the cache was
    not trusted, one request was made, and the error is either a wrapped
    [ErrNetworkError] (the request gave no usable response) or the
    translation of the non-empty error code of the response. *)
Theorem verifyLicense_failure_changes_nothing (env : Env) (s : Store) :
  let o := verifyLicense env s in
  val o <> None ->
  st o = s /\
  fx o = [EFs (ReadFile (cachePath env (guard s)));
          EPostJSON "/api/v1/verify" (verifyBody env (guard s))] /\
  cacheTrusted env s = false /\
  ((exists err, postResult (verifyOutcome env) = Err err /\
                val o = Some (Wrap ErrNetworkError (Error_ err))) \/
   (exists resp, postResult (verifyOutcome env) = Ok resp /\
                 vr_Error resp <> "" /\
                 val o = Some (verifyError (vr_Error resp)))).
Proof.
  cbv zeta. pose proof (verifyLicense_out env s) as Hv.
  pose proof (cloudVerification_out env s) as Hc. cbv zeta in Hv, Hc.
  destruct (cacheTrusted env s); rewrite Hv; cbn [val st fx]; [done|].
  destruct (postResult (verifyOutcome env)) as [resp|err].
  - destruct (String.eqb_spec (vr_Error resp) "") as [He|He];
      rewrite Hc; cbn [val st fx]; [done|].
    intros _. do 3 (split; [done|]). right. by exists resp.
  - rewrite Hc. cbn [val st fx]. intros _. do 3 (split; [done|]).
    left. by exists err.
Qed.

(** X12: the two verifications of a license that was not cached before.
    When the first run reached the server, the answer carried no error
    code and the cache file was written, a second run on the resulting
    store (the cache file still readable, the document decoding back to
    the payload and signature written) trusts the cache exactly when the
    signature the server sent is base64 and verifies over the digest of
    the payload: then it returns nil without any request, otherwise it
    asks the server again. *)
Theorem verifyLicense_second_run (env env2 : Env) (s : Store)
    (resp : verifyResponse) (c : cachedLicense) :
  cacheTrusted env s = false ->
  postResult (verifyOutcome env) = Ok resp ->
  vr_Error resp = "" ->
  writeFails env = false ->
  home env2 = home env -> readFails env2 = false ->
  json_Unmarshal (json_Marshal (freshEntry env (guard s) resp)) = Some c ->
  cl_PublicData c = vr_PublicData resp ->
  cl_Signature c = vr_Signature resp ->
  let s1 := st (verifyLicense env s) in
  let genuine :=
    match base64_DecodeString (vr_Signature resp) with
    | Ok sig => ed25519_Verify (publicKey (guard s))
                  (sha256_Sum256 (vr_PublicData resp)) sig
    | Err _ => false
    end in
  val (verifyLicense env s) = None /\
  cacheTrusted env2 s1 = genuine /\
  posts (fx (verifyLicense env2 s1)) =
    (if genuine then [] else ["/api/v1/verify"]) /\
  (genuine = true ->
   val (verifyLicense env2 s1) = None /\ st (verifyLicense env2 s1) = s1).
Proof.
  intros Hun Hres Herr Hw Hhome Hread Hjson Hpd Hsig. cbv zeta.
  pose proof (verifyLicense_out env s) as Hv.
  pose proof (cloudVerification_out env s) as Hc. cbv zeta in Hv, Hc.
  rewrite Hun in Hv. rewrite Hres, Herr, Hw in Hc. cbn [String.eqb] in Hc.
  rewrite Hc in Hv. cbn [val st fx] in Hv. rewrite Hv. cbn [val st fx].
  set (s1 := {| guard := guard s; disk := _ |}).
  assert (Hpath : cachePath env2 (guard s1) = cachePath env (guard s)).
  { unfold cachePath, cacheDir. by rewrite Hhome. }
  assert (Htr : cacheTrusted env2 s1 =
                match base64_DecodeString (vr_Signature resp) with
                | Ok sig => ed25519_Verify (publicKey (guard s))
                              (sha256_Sum256 (vr_PublicData resp)) sig
                | Err _ => false
                end).
  { unfold cacheTrusted. rewrite Hread, Hpath. unfold s1. cbn [guard disk].
    rewrite lookup_insert_eq, Hjson, Hpd, Hsig. done. }
  split; [done|]. split; [exact Htr|].
  pose proof (verifyLicense_out env2 s1) as Hv2. cbv zeta in Hv2.
  rewrite Htr in Hv2.
  destruct (match base64_DecodeString (vr_Signature resp) with
            | Ok sig => _ | Err _ => false end).
  - rewrite Hv2. done.
  - rewrite Hv2. cbn [val st fx]. split; [|done].
    rewrite posts_cons_fs.
    pose proof (cloudVerification_out env2 s1) as Hc2. cbv zeta in Hc2.
    destruct (postResult (verifyOutcome env2)) as [r|e].
    + destruct (String.eqb (vr_Error r) ""); by rewrite Hc2.
    + by rewrite Hc2.
Qed.

(** X13: [Start].  When [verifyLicense] fails, [Start] returns that error
    under the prefix "license verification failed", the state machine is
    not touched, and no heartbeat is ever sent.  When it succeeds, [Start]
    returns nil, the first call on the state machine is [OnVerifySuccess],
    and with no wake-up yet the guard is where that call puts it: ACTIVE
    when it started from INIT. *)
Theorem Start_gates_heartbeat_on_license
    (env : Env) (ticks : list Tick) (s : Store) :
  let o := Start env ticks s in
  let v := verifyLicense env s in
  (forall e, val v = Some e ->
     val o = Some (Prefixed "license verification failed" (Plain e)) /\
     rootCause (Prefixed "license verification failed" (Plain e)) = e /\
     st o = s /\ fx o = fx v /\
     smCalls (fx o) = [] /\ ("/api/v1/heartbeat" ∉ posts (fx o))) /\
  (val v = None ->
     val o = None /\
     head (smCalls (fx o)) = Some EvVerifySuccess /\
     (ticks = [] ->
      sm (guard (st o)) = OnVerifySuccess (sm (guard s)) /\
      (sm (guard s) = StateInit -> Check (guard (st o)) = None))).
Proof.
  cbv zeta.
  pose proof (verifyLicense_out env s) as Hv.
  pose proof (cloudVerification_out env s) as Hc. cbv zeta in Hv, Hc.
  assert (Hshape :
    guard (st (verifyLicense env s)) = guard s /\
    smCalls (fx (verifyLicense env s)) = [] /\
    ("/api/v1/heartbeat" ∉ posts (fx (verifyLicense env s))) /\
    (val (verifyLicense env s) <> None -> st (verifyLicense env s) = s)).
  { destruct (cacheTrusted env s); rewrite Hv; cbn [val st fx].
    - repeat split; try done. cbn. apply not_elem_of_nil.
    - destruct (postResult (verifyOutcome env)) as [resp|err].
      + destruct (String.eqb (vr_Error resp) ""); rewrite Hc; cbn [val st fx].
        * repeat split; try done. cbn. intros Hin.
          apply list_elem_of_singleton in Hin; discriminate Hin.
        * repeat split; try done. cbn. intros Hin.
          apply list_elem_of_singleton in Hin; discriminate Hin.
      + rewrite Hc; cbn [val st fx]. repeat split; try done. cbn. intros Hin.
        apply list_elem_of_singleton in Hin; discriminate Hin. }
  destruct Hshape as (Hg & Hsm & Hp & Hst).
  wp_start (Start env ticks) s. unfold Start. wp_walk. apply wp_run.
  destruct (verifyLicense env s) as [v s1 l]. cbn [val st fx] in *.
  destruct v as [e|]; wp_walk.
  - split; [|done]. intros e0 [= <-]. rewrite app_nil_r.
    rewrite Hst by done. done.
  - split; [done|]. intros _. split; [done|].
    unfold startHeartbeat. 
    split.
    + unfold smCalls in *. rewrite omap_app, Hsm. done.
    + intros ->. cbn [heartbeatLoop]. wp_walk. cbn [st guard sm setSm].
      rewrite Hg. split; [done|]. intros ->. done.
Qed.

End MoreLicense.

Lemma verifyLicense_failure_witness :
  let o := @License.verifyLicense Sample2.primitives Sample2.expiredAnswer
             Sample2.freshStore in
  val o = Some (Var ErrLicenseExpired) /\ st o = Sample2.freshStore /\
  @License.cacheTrusted Sample2.primitives Sample2.expiredAnswer
    Sample2.freshStore = false.
Proof.
  cbv zeta.
  destruct (@verifyLicense_failure_changes_nothing Sample2.primitives
              Sample2.expiredAnswer Sample2.freshStore)
    as (Hst & _ & Htr & _).
  - discriminate.
  - split; [reflexivity|]. split; [exact Hst | exact Htr].
Defined.

Lemma verifyLicense_second_run_witness :
  let s1 := st (@License.verifyLicense Sample2.primitives Sample2.signedAnswer
                  Sample2.freshStore) in
  @License.cacheTrusted Sample2.primitives Sample2.signedAnswer s1 = true /\
  posts (fx (@License.verifyLicense Sample2.primitives Sample2.signedAnswer s1))
    = [].
Proof.
  cbv zeta.
  destruct (@verifyLicense_second_run Sample2.primitives
              Sample2.signedAnswer Sample2.signedAnswer Sample2.freshStore
              {| License.vr_Status := "ok"; License.vr_Error := "";
                 License.vr_Message := ""; License.vr_UpdateFrozen := false;
                 License.vr_PublicData := "payload";
                 License.vr_Signature :=
                   "0123456789abcdef0123456789abcdefpayload" |}
              {| cl_LicenseKey := ""; cl_PublicData := "payload";
                 cl_Signature := "0123456789abcdef0123456789abcdefpayload";
                 cl_VerifiedAt := "" |})
    as (_ & Htr & Hp & _); try reflexivity.
  split; [exact Htr | exact Hp].
Defined.
(** ** Further properties of [New], the fingerprint and version resolution *)

Section MoreGuard.
Context `{Primitives}.
Import Lifecycle.

(** X14: [New] succeeds exactly when the five required fields are present,
    the PEM block decodes to [PublicKeySize] bytes and the machine id can
    be read; the checks are made in the order of the source, so a missing
    server URL is reported whatever else is wrong.  The guard returned is
    in state INIT, [Check] answers [ErrNotActivated], the configuration is
    the given one with its defaults filled in and the key is the decoded
    block. *)
Theorem New_succeeds_exactly_when (host : HostInfo) (c : Config) :
  ((exists g, New host c = Ok g) <->
   ServerURL c <> "" /\ LicenseKey c <> "" /\
   ProjectSlug c <> "" /\ ComponentSlug c <> "" /\
   (exists pemBytes blockBytes,
      PublicKeyPEM c = Some pemBytes /\
      pem_Decode pemBytes = Some blockBytes /\
      len blockBytes = PublicKeySize) /\
   (exists mid, protectedID host = Ok mid)) /\
  (ServerURL c = "" -> New host c = Err (Msg "server_url is required")) /\
  (forall g, New host c = Ok g ->
     State_ g = StateInit /\
     Check g = Some (Var ErrNotActivated) /\
     cfg g = setDefaults GOOS GOARCH c /\
     (exists pemBytes, PublicKeyPEM c = Some pemBytes /\
                       pem_Decode pemBytes = Some (publicKey g)) /\
     collectFingerprint host = Ok (fingerprint g)).
Proof.
  unfold New.
  destruct (setDefaults_required c) as (-> & -> & -> & -> & -> & ->).
  assert (Hfp : (exists mid, protectedID host = Ok mid) <->
                exists fp, collectFingerprint host = Ok fp).
  { unfold collectFingerprint.
    destruct (protectedID host) as [mid|err].
    - split; eauto.
    - split; intros [? ?]; done. }
  split; [|split].
  - destruct (String.eqb_spec (ServerURL c) "") as [Hs|Hs].
    { split; [by intros [? ?] | by intros (? & _)]. }
    destruct (String.eqb_spec (LicenseKey c) "") as [Hl|Hl].
    { split; [by intros [? ?] | by intros (_ & ? & _)]. }
    destruct (PublicKeyPEM c) as [pemBytes|].
    2:{ split; [by intros [? ?] | by intros (_ & _ & _ & _ & (? & ? & ? & _) & _)]. }
    destruct (String.eqb_spec (ProjectSlug c) "") as [Hp|Hp].
    { split; [by intros [? ?] | by intros (_ & _ & ? & _)]. }
    destruct (String.eqb_spec (ComponentSlug c) "") as [Hc|Hc].
    { split; [by intros [? ?] | by intros (_ & _ & _ & ? & _)]. }
    destruct (pem_Decode pemBytes) as [blockBytes|] eqn:Hd.
    2:{ split; [by intros [? ?]|].
        intros (_ & _ & _ & _ & (p & b & [= <-] & Hd' & _) & _). congruence. }
    destruct (Z.eqb_spec (len blockBytes) PublicKeySize) as [Hlen|Hlen];
      cbn [negb].
    2:{ split; [by intros [? ?]|].
        intros (_ & _ & _ & _ & (p & b & [= <-] & Hd' & Hb) & _). congruence. }
    destruct (collectFingerprint host) as [fp|err].
    + split; [|eauto]. intros _. do 4 (split; [done|]).
      split; [by exists pemBytes, blockBytes|]. apply Hfp. eauto.
    + split; [by intros [? ?]|].
      intros (_ & _ & _ & _ & _ & Hm). apply Hfp in Hm as [? ?]. done.
  - intros ->. done.
  - intros g Hg.
    destruct (String.eqb (ServerURL c) ""); [done|].
    destruct (String.eqb (LicenseKey c) ""); [done|].
    destruct (PublicKeyPEM c) as [pemBytes|]; [|done].
    destruct (String.eqb (ProjectSlug c) ""); [done|].
    destruct (String.eqb (ComponentSlug c) ""); [done|].
    destruct (pem_Decode pemBytes) as [blockBytes|] eqn:Hd; [|done].
    destruct (negb (len blockBytes =? PublicKeySize)); [done|].
    destruct (collectFingerprint host) as [fp|err]; [|done].
    injection Hg as <-. cbn. repeat split; try done. by exists pemBytes.
Qed.

(** X15: [collectFingerprint] fails exactly when the machine id cannot be
    read.  Otherwise the machine id is the prefix "sha256:" before the hex
    digest of the host's id, the signals always hold the platform under
    "os" and "arch", each optional signal is present exactly when the host
    reported it (the MAC list only when not empty), and there is no other
    key. *)
Theorem collectFingerprint_signals (host : HostInfo) :
  match protectedID host with
  | Err err =>
      collectFingerprint host =
      Err (Msg ("collect machine id: " +:+ Error_ err))
  | Ok mid =>
      exists fp,
        collectFingerprint host = Ok fp /\
        MachineID fp = "sha256:" +:+ hex_EncodeToString (sha256_Sum256 mid) /\
        AuxSignals fp !! "os" = Some GOOS /\
        AuxSignals fp !! "arch" = Some GOARCH /\
        AuxSignals fp !! "cpu_model" = fst <$> cpuInfo host /\
        AuxSignals fp !! "cpu_cores" = (fun i => fmtInt i.2) <$> cpuInfo host /\
        AuxSignals fp !! "total_ram_mb" =
          (fun t => fmtInt (t / 1024 / 1024)) <$> totalRAM host /\
        AuxSignals fp !! "mac_addresses" =
          match macAddresses host with
          | [] => None
          | _ :: _ => Some (Join (macAddresses host) ",")
          end /\
        (forall k,
           k ∉ ["os"; "arch"; "cpu_model"; "cpu_cores"; "total_ram_mb";
                "mac_addresses"] ->
           AuxSignals fp !! k = None)
  end.
Proof.
  unfold collectFingerprint.
  destruct (protectedID host) as [mid|err]; [|done].
  eexists. split; [reflexivity|]. unfold MachineID, AuxSignals.
  cbn [machineID auxSignals].
  split; [done|].
  destruct (cpuInfo host) as [[model cores]|], (totalRAM host) as [total|],
    (macAddresses host) as [|m ms]; cbn [length Z.of_nat Z.ltb Z.compare fmap
      option_fmap option_map fst snd];
    (do 6 (split; [by simplify_map_eq|]));
    intros k Hk;
    repeat (apply not_elem_of_cons in Hk as [? Hk]);
    by simplify_map_eq.
Qed.

(** X16: the hash of the executable is computed once.  After any call the
    package variables are marked done; a later call, whatever the
    executable has become, makes no file operation, leaves the variables
    alone and returns what the first call returned, so that a failure of
    the first call is returned by every later one.  From the variables as
    [ResetBinaryHashCache] leaves them a call computes again: it returns
    the hex digest of the file without error, or the empty string with an
    error that names the step that failed. *)
Theorem GetBinaryHash_computed_once (env env2 : ExeEnv) (c : HashCache) :
  let r1 := GetBinaryHash env c in
  let r2 := GetBinaryHash env2 r1.1.2 in
  onceDone r1.1.2 = true /\
  r2.2 = [] /\ r2.1.2 = r1.1.2 /\ r2.1.1 = r1.1.1 /\
  (onceDone c = true -> r1 = ((hashValue c, hashError c), c, [])) /\
  let r := GetBinaryHash env ResetBinaryHashCache in
  (r.1.1 = (hex_EncodeToString (sha256_Sum256 (exeBytes env)), None) /\
   (exists exe, exePath env = Ok exe) /\ exeOpen env = None /\
   exeCopy env = None) \/
  (exists step err,
     r.1.1 = ("", Some (Prefixed step (Plain err))) /\
     (exePath env = Err err /\ step = "get executable path" \/
      exeOpen env = Some err /\ step = "open executable" \/
      exeCopy env = Some err /\ step = "calculate hash")).
Proof.
  cbv zeta. unfold GetBinaryHash, ResetBinaryHashCache.
  destruct c as [d v e]. cbn [onceDone hashValue hashError].
  destruct d, (exePath env) as [exe|e1], (exeOpen env) as [e2|],
    (exeCopy env) as [e3|];
    cbn [fst snd onceDone hashValue hashError];
    (do 5 (split; [done|]));
    first [ left; by eauto
          | right; eexists _, _; split; [reflexivity|]; by eauto ].
Qed.

(** X17: [AutoResolveVersion].  A failure of the hash is returned under
    the prefix "calculate binary hash" without any request; every failure
    leaves the guard as it was.  It returns nil exactly when the hash was
    available and the server answered without an error code, and then the
    primary version is the version of the answer (empty when the answer
    had none), after exactly one request on [/api/v1/version/resolve];
    the managed versions and the state machine are never touched. *)
Theorem AutoResolveVersion_sets_version_or_nothing
    (env : ExeEnv) (outcome : PostOutcome resolveResponse) (c : HashCache)
    (s : Store) :
  let o := AutoResolveVersion env outcome c s in
  let h := GetBinaryHash env c in
  (val o).2 = h.1.2 /\
  (forall e, h.1.1.2 = Some e ->
     (val o).1 = Some (Prefixed "calculate binary hash" e) /\
     posts (fx o) = []) /\
  ((val o).1 <> None -> st o = s) /\
  ((val o).1 = None <->
   h.1.1.2 = None /\
   exists resp, postResult outcome = Ok resp /\ rr_Error resp = "") /\
  (forall resp,
     h.1.1.2 = None -> postResult outcome = Ok resp -> rr_Error resp = "" ->
     st o = {| guard := setVersion (rr_Version resp) (guard s);
               disk := disk s |} /\
     posts (fx o) = ["/api/v1/version/resolve"]) /\
  managedVersions (guard (st o)) = managedVersions (guard s) /\
  sm (guard (st o)) = sm (guard s).
Proof.
  cbv zeta.
  assert (Hops : forall ops (s0 : Store),
    foldr (fun op k => emit (EFs op);; k) (mret tt) ops s0 =
    {| val := tt; st := s0; fx := map EFs ops |}).
  { induction ops as [|op ops IH]; intros s0; [done|].
    cbn [foldr map]. unfold mbind, M_bind. cbn [emit val st fx].
    by rewrite IH. }
  assert (Hposts : forall ops, posts (map EFs ops) = []).
  { by induction ops. }
  wp_start (AutoResolveVersion env outcome c) s. unfold AutoResolveVersion.
  cbv zeta. wp_walk. apply wp_run. rewrite Hops. cbn [val st fx].
  destruct (GetBinaryHash env c) as [[[v e] c'] ops]. cbn [fst snd].
  destruct e as [e|]; wp_walk.
  - split; [done|]. split.
    { intros e0 [= <-]. split; [done|]. unfold posts. rewrite omap_app.
      fold (posts (map EFs ops)). by rewrite Hposts. }
    split; [done|]. split; [|by destruct s].
    split; [done|]. by intros [? _].
  - destruct (postResult outcome) as [resp|err]; wp_walk.
    + destruct (String.eqb_spec (rr_Error resp) "") as [He|He]; cbn [negb];
        wp_walk.
      * split; [done|]. split; [done|]. split; [done|]. split.
        { split; [|done]. intros _. split; [done|]. by exists resp. }
        split; [|done]. intros r _ [= <-] _. split; [done|].
        unfold posts. rewrite !omap_app. fold (posts (map EFs ops)).
        by rewrite Hposts.
      * split; [done|]. split; [done|]. split; [done|]. split.
        { split; [done|]. intros (_ & r & [= <-] & Hr). done. }
        split; [|by destruct s]. intros r _ [= <-] Hr. done.
    + split; [done|]. split; [done|]. split; [done|]. split.
      { split; [done|]. intros (_ & r & Hr & _). done. }
      split; [|by destruct s]. intros r _ Hr. done.
Qed.

End MoreGuard.
(** ** Further properties of the update engine *)

(** Taking apart a membership in the effects of a run. *)
Ltac split_in :=
  repeat match goal with
         | H : _ ∈ (_ ++ _)%list |- _ => apply elem_of_app in H as [H|H]
         | H : _ ∈ (if ?b then _ else _) |- _ => destruct b
         | H : _ ∈ (_ :: _) |- _ => apply elem_of_cons in H as [H|H]
         | H : _ ∈ [] |- _ => by apply elem_of_nil in H
         | H : EFs _ = _ |- _ => first [discriminate H | injection H as ? ?; subst]
         end.

(** Finding an effect in the effects of a run. *)
Ltac find_in :=
  lazymatch goal with
  | |- _ ∈ (_ ++ _)%list =>
      apply elem_of_app; first [left; find_in | right; find_in]
  | |- _ ∈ (_ :: _) =>
      apply elem_of_cons; first [left; reflexivity | right; find_in]
  end.

(** The cases of which callbacks are set. *)
Ltac case_flags :=
  repeat match goal with
         | |- context [OnUpdateFailure ?c] => destruct (OnUpdateFailure c)
         | |- context [OnUpdateResult ?c] => destruct (OnUpdateResult c)
         | |- context [OnUpdateProgress ?c] => destruct (OnUpdateProgress c)
         end.

(** Taking apart a membership in the file operations of a run. *)
Ltac split_ops :=
  repeat match goal with
         | H : _ ∈ (_ ++ _)%list |- _ => apply elem_of_app in H as [H|H]
         | H : _ ∈ (_ :: _) |- _ => apply elem_of_cons in H as [H|H]
         | H : _ ∈ [] |- _ => by apply elem_of_nil in H
         | H : @eq FsOp _ _ |- _ =>
             first [discriminate H | injection H as ?; subst]
         end.

Section UpdaterFacts.
Context `{Primitives}.
Import Heartbeat Updater Lifecycle.

Lemma progressOf_app (l1 l2 : list Effect) :
  progressOf (l1 ++ l2) = (progressOf l1 ++ progressOf l2)%list.
Proof. apply omap_app. Qed.

Lemma posts_app (l1 l2 : list Effect) :
  posts (l1 ++ l2) = (posts l1 ++ posts l2)%list.
Proof. apply omap_app. Qed.

Lemma routeManaged_find (b : bool) (mcs : list ManagedComponent)
    (u : updateInfo) (s : Store) :
  routeManaged b mcs u s =
  {| val := tt; st := s;
     fx := match findManaged mcs (Component u) with
           | Some mc =>
               if b then
                 [EGo (if Strategy mc =? UpdateBackend then GoUpdateBackend u
                       else GoUpdateFrontend mc u)]
               else []
           | None => []
           end |}.
Proof.
  induction mcs as [|mc mcs IH]; [done|].
  cbn [routeManaged findManaged].
  destruct (String.eqb (Slug mc) (Component u)); [|exact IH].
  destruct b; [|done]. cbn [when].
  destruct (Strategy mc =? UpdateBackend); [done|].
  by destruct (Strategy mc =? UpdateFrontend).
Qed.

Lemma last_fsOps (l : list Effect) (op : FsOp) :
  last l = Some (EFs op) -> last (fsOps l) = Some op.
Proof.
  induction l as [|e l IH]; [done|].
  destruct l as [|e' l'].
  - intros [= ->]. done.
  - intros Hl. specialize (IH Hl). unfold fsOps in *.
    cbn [omap list_omap] in *.
    destruct e; try exact IH.
    destruct (match e' with EFs op0 => Some op0 | _ => None end);
      cbn [last] in *; try exact IH.
    destruct (omap _ l'); done.
Qed.

Lemma hooks_app (l1 l2 : list Effect) :
  hooks (l1 ++ l2) = (hooks l1 ++ hooks l2)%list.
Proof. apply omap_app. Qed.

Lemma extractEntries_quiet (env : FrontendEnv) (slug tmpDir : string)
    (entries : list tarEntry) (s : Store) :
  let o := extractEntries env slug tmpDir entries s in
  progressOf (fx o) = [] /\ posts (fx o) = [] /\ hooks (fx o) = [].
Proof.
  cbv zeta. unfold progressOf, posts, hooks.
  induction entries as [|hdr rest (IHp & IHq & IHf)].
  - cbn [extractEntries]. destruct (f_end env) as [|err]; run_u; [done|].
    by destruct (OnUpdateFailure _).
  - rewrite extractEntries_cons. cbv zeta.
    destruct (insideRoot tmpDir (Name hdr)); run_u; [|done].
    destruct (Ascii.eqb (Typeflag hdr) TypeDir); run_u; [done|].
    destruct (Ascii.eqb (Typeflag hdr) TypeReg); run_u; [|done].
    destruct (f_openFile env _) as [err|]; run_u.
    { by destruct (OnUpdateFailure _). }
    destruct (f_copy env _) as [err|]; run_u; [|done].
    by destruct (OnUpdateFailure _).
Qed.

End UpdaterFacts.

(** The steps of [updateBackend] up to the point where everything has
    succeeded; [failed] closes the branches that return early. *)
Ltac backend_walk failed :=
  unfold Updater.updateBackend, Updater.requestDownloadMeta,
    Updater.downloadArtifactWithProgress, Updater.backendFailure,
    Updater.applyBackendBinaryWithSelfupdate;
  wp_walk;
  destruct (postResult (Updater.metaOutcome _)) as [meta|err] eqn:Hmeta;
    wp_walk; [|failed];
  destruct (String.eqb (Updater.dm_Error meta) "") eqn:Herr; cbn [negb];
    wp_walk; [|failed];
  destruct (Updater.getOutcome _) as [err|err|status body] eqn:Hget; wp_walk;
    [failed|failed|];
  destruct (status =? StatusOK) eqn:Hstatus; cbn [negb]; wp_walk; [|failed];
  destruct (Updater.createTemp _) as [tmpPath|err] eqn:Htmp; wp_walk;
    [|failed];
  destruct (Updater.copyErr _) as [err|] eqn:Hcopy; wp_walk; [failed|];
  destruct (String.eqb _ (Updater.dm_SHA256 meta)) eqn:Hsha; cbn [negb];
    wp_walk; [|failed];
  destruct (Updater.verifySignature _ _ _) as [err|] eqn:Hsig; wp_walk;
    [failed|];
  destruct (Updater.executable _) as [exe|err] eqn:Hexe; wp_walk; [|failed];
  destruct (Updater.openTmp _) as [err|] eqn:Hopen; wp_walk; [failed|];
  destruct (Updater.applyOutcome _) as [|err [rerr|]] eqn:Happly; wp_walk.

(** The steps of [updateFrontend] up to the comparison of the digests;
    [failed] closes the branches that return early.  The run of the
    extraction loop is left as it is, with its effects [l]. *)
Ltac frontend_walk env mc s failed :=
  unfold Updater.updateFrontend, Updater.swapAndCommit; wp_walk;
  destruct (postResult (Updater.f_metaOutcome env)) as [resp|err] eqn:Hmeta;
    wp_walk; [|failed];
  destruct (String.eqb (Updater.fm_Error resp) "") eqn:Herr; cbn [negb];
    wp_walk; [|failed];
  destruct (Updater.f_getOutcome env) as [err|err|status body] eqn:Hget;
    wp_walk; [failed|failed|];
  destruct (status =? StatusOK) eqn:Hstatus; cbn [negb]; wp_walk; [|failed];
  destruct (Updater.f_mkdirTemp env) as [tmpDir|err] eqn:Hmk; wp_walk;
    [|failed];
  destruct (Updater.f_gzip env) as [err|] eqn:Hgz; wp_walk; [failed|];
  apply wp_run;
  pose proof (extractEntries_st env (Slug mc) tmpDir
                (Updater.f_entries env) s) as Hst;
  pose proof (extractEntries_quiet env (Slug mc) tmpDir
                (Updater.f_entries env) s) as (Hqp & Hqq & Hqf);
  cbv zeta in Hqp, Hqq, Hqf;
  destruct (Updater.extractEntries env (Slug mc) tmpDir
              (Updater.f_entries env) s) as [flow s1 l] eqn:Hex;
  cbn [val st fx] in Hst, Hqp, Hqq, Hqf |- *; subst s1;
  destruct flow; wp_walk; [|failed];
  destruct (String.eqb _ (Updater.fm_SHA256 resp)) eqn:Hsha; cbn [negb];
    wp_walk; [|failed].

Section MoreUpdater.
Context `{Primitives}.
Import Heartbeat Updater Lifecycle.


(** X18: [handleUpdateNotification] changes nothing and starts at most one
    update.  Without [AutoUpdate] it starts none.  An entry for the primary
    component starts [updateBackend], also when a managed component has the
    same slug; any other entry is routed by the first managed component
    with its slug, as [findManagedComponent] finds it: [updateBackend] for
    the strategy [UpdateBackend], [updateFrontend] for every other value of
    the strategy; an entry for no configured component starts nothing. *)
Theorem handleUpdateNotification_routing (u : updateInfo) (s : Store) :
  let o := handleUpdateNotification u s in
  let g := guard s in
  st o = s /\
  fx o = map EGo (started (fx o)) /\
  (length (started (fx o)) <= 1)%nat /\
  (AutoUpdate (OTA (cfg g)) = false -> started (fx o) = []) /\
  (AutoUpdate (OTA (cfg g)) = true ->
   started (fx o) =
   if String.eqb (Component u) (ComponentSlug (cfg g))
   then [GoUpdateBackend u]
   else match findManagedComponent g (Component u) with
        | Some mc =>
            [if Strategy mc =? UpdateBackend then GoUpdateBackend u
             else GoUpdateFrontend mc u]
        | None => []
        end).
Proof.
  cbv zeta. unfold handleUpdateNotification, findManagedComponent.
  unfold mbind, M_bind. cbn [getGuard val st fx app].
  destruct (String.eqb (Component u) (ComponentSlug (cfg (guard s)))).
  - destruct (AutoUpdate (OTA (cfg (guard s)))); cbn; repeat split; try done; lia.
  - rewrite routeManaged_find. cbn [val st fx].
    destruct (findManaged _ _) as [mc|];
      destruct (AutoUpdate (OTA (cfg (guard s)))); cbn;
      repeat split; try done; lia.
Qed.

(** X19: [updateBackend] addresses the primary component only: of the
    update entry it reads nothing but [Latest], the one request it makes
    asks for the configured component slug, every callback is called with
    that slug, and the versions of the managed components stay as they
    were.  So an entry routed here for a managed component updates the
    primary binary, not that component. *)
Theorem updateBackend_addresses_primary
    (env : BackendEnv) (u : updateInfo) (s : Store) :
  let o := updateBackend env u s in
  let g := guard s in
  (forall u', Latest u' = Latest u -> updateBackend env u' s = o) /\
  managedVersions (guard (st o)) = managedVersions g /\
  Forall (fun e =>
            match e with
            | EProgress c _ _ | EFailure c _ | EResult c _ _ _ _ =>
                c = ComponentSlug (cfg g)
            | EPostJSON path body =>
                path = "/api/v1/update/download" /\
                body =
                JObject [("license_key", JString (LicenseKey (cfg g)));
                         ("machine_id", JString (MachineID (fingerprint g)));
                         ("project_slug", JString (ProjectSlug (cfg g)));
                         ("component_slug", JString (ComponentSlug (cfg g)));
                         ("version", JString (Latest u));
                         ("os", JString (OS (OTA (cfg g))));
                         ("arch", JString (Arch (OTA (cfg g))))]
            | EGo _ | ESm _ | EHook _ => False
            | _ => True
            end) (fx o).
Proof.
  cbv zeta. split.
  { intros u' Hu. unfold updateBackend. by rewrite Hu. }
  wp_start (updateBackend env u) s.
  backend_walk ltac:(split; [done|]; case_flags; by repeat constructor).
  all: split; [done|]; case_flags; by repeat constructor.
Qed.

(** X20: the running binary is replaced only by verified bytes.  Whenever
    [updateBackend] reaches [update.Apply], the metadata request and the
    download succeeded, the file applied is the temporary file holding the
    size-limited body, the digest of those bytes equals the declared one,
    the signature over the declared digest verifies under the configured
    key, and the old binary is saved beside the executable as ".bak". *)
Theorem updateBackend_applies_only_verified
    (env : BackendEnv) (u : updateInfo) (s : Store) (src old : string) :
  let o := updateBackend env u s in
  let g := guard s in
  EFs (Apply src old) ∈ fx o ->
  exists meta body exe,
    postResult (metaOutcome env) = Ok meta /\ dm_Error meta = "" /\
    getOutcome env = GetResponse StatusOK body /\
    createTemp env = Ok src /\
    (let data := limited body (MaxArtifactBytes (OTA (cfg g))) in
     EFs (Copy src data) ∈ fx o /\
     hex_EncodeToString (sha256_Sum256 data) = dm_SHA256 meta) /\
    verifySignature g (dm_SHA256 meta) (dm_Signature meta) = None /\
    executable env = Ok exe /\ old = exe +:+ ".bak".
Proof.
  cbv zeta. wp_start (updateBackend env u) s.
  backend_walk ltac:(intros Hin; exfalso; split_in).
  all: intros Hin;
    assert (Hok : src = tmpPath /\ old = exe +:+ ".bak") by
      (clear -Hin; split_in; done);
    destruct Hok as [-> ->];
    exists meta, body, exe;
    apply String.eqb_eq in Herr, Hsha; apply Z.eqb_eq in Hstatus; subst status;
    (do 4 (split; [done|])); (split; [|done]);
    split; [find_in|done].
Qed.


(** X21: a backend update that gets through.  When the metadata request
    and the download succeed, the digest matches, the signature verifies
    and [update.Apply] succeeds, the primary version becomes [Latest] and
    nothing else of the guard changes; the file operations are, in order:
    create the temporary file, write the size-limited body, ask for the
    executable, open the temporary file, apply it with the ".bak" save
    path, remove the temporary file; one request is made;
    [OnUpdateFailure] is not called, [OnUpdateResult] (if set) once with
    [true] and no error, and [OnUpdateProgress] (if set) with 0, 3, 6, 8
    and 10 tenths. *)
Theorem updateBackend_success
    (env : BackendEnv) (u : updateInfo) (s : Store)
    (meta : downloadMeta) (body tmpPath exe : string) :
  postResult (metaOutcome env) = Ok meta ->
  dm_Error meta = "" ->
  getOutcome env = GetResponse StatusOK body ->
  createTemp env = Ok tmpPath ->
  copyErr env = None ->
  hex_EncodeToString
    (sha256_Sum256 (limited body (MaxArtifactBytes (OTA (cfg (guard s))))))
    = dm_SHA256 meta ->
  verifySignature (guard s) (dm_SHA256 meta) (dm_Signature meta) = None ->
  executable env = Ok exe ->
  openTmp env = None ->
  applyOutcome env = Applied ->
  let o := updateBackend env u s in
  let g := guard s in
  st o = {| guard := setVersion (Latest u) g; disk := disk s |} /\
  fsOps (fx o) =
    [CreateTemp "deploy-guard-update-*";
     Copy tmpPath (limited body (MaxArtifactBytes (OTA (cfg g))));
     Executable; Open tmpPath; Apply tmpPath (exe +:+ ".bak");
     Remove tmpPath] /\
  posts (fx o) = ["/api/v1/update/download"] /\
  failures (fx o) = [] /\
  results (fx o) =
    (if OnUpdateResult (OTA (cfg g))
     then [EResult (ComponentSlug (cfg g)) (version g) (Latest u) true None]
     else []) /\
  progressOf (fx o) =
    (if OnUpdateProgress (OTA (cfg g)) then [0; 3; 6; 8; 10] else []).
Proof.
  intros Hmeta Herr Hget Htmp Hcopy Hsha Hsig Hexe Hopen Happly. cbv zeta.
  apply String.eqb_eq in Hsha.
  wp_start (updateBackend env u) s.
  unfold updateBackend, requestDownloadMeta, downloadArtifactWithProgress,
    backendFailure, applyBackendBinaryWithSelfupdate.
  wp_walk. rewrite Hmeta. cbn iota. rewrite Herr.
  change (String.eqb "" "") with true. cbn [negb]. wp_walk.
  rewrite Hget. wp_walk. change (StatusOK =? StatusOK) with true.
  cbn [negb]. wp_walk. rewrite Htmp. wp_walk. rewrite Hcopy. wp_walk.
  rewrite Hsha. cbn [negb]. rewrite Hsig. wp_walk. rewrite Hexe. wp_walk.
  rewrite Hopen. wp_walk. rewrite Happly. wp_walk.
  cbn [cfg setVersion].
  by destruct (OnUpdateResult _), (OnUpdateProgress _).
Qed.

(** X22: a backend update whose signature does not verify.  When the
    download has the declared digest but [verifySignature] fails, the
    guard is unchanged, the executable is neither looked up nor opened nor
    replaced (the only file operations are the creation, the writing and
    the removal of the temporary file), [OnUpdateFailure] (if set) is
    called once with [ErrUpdateVerify], [OnUpdateResult] (if set) once with
    [false] and the error, and the progress stops at 6 tenths.  The error
    is "signature verification failed" or says that the signature did not
    decode. *)
Theorem updateBackend_signature_failure
    (env : BackendEnv) (u : updateInfo) (s : Store)
    (meta : downloadMeta) (body tmpPath : string) (err : error) :
  postResult (metaOutcome env) = Ok meta ->
  dm_Error meta = "" ->
  getOutcome env = GetResponse StatusOK body ->
  createTemp env = Ok tmpPath ->
  copyErr env = None ->
  hex_EncodeToString
    (sha256_Sum256 (limited body (MaxArtifactBytes (OTA (cfg (guard s))))))
    = dm_SHA256 meta ->
  verifySignature (guard s) (dm_SHA256 meta) (dm_Signature meta) = Some err ->
  let o := updateBackend env u s in
  let g := guard s in
  st o = s /\
  fsOps (fx o) =
    [CreateTemp "deploy-guard-update-*";
     Copy tmpPath (limited body (MaxArtifactBytes (OTA (cfg g))));
     Remove tmpPath] /\
  failures (fx o) =
    (if OnUpdateFailure (OTA (cfg g))
     then [(ComponentSlug (cfg g), WrapUpdate ErrUpdateVerify (Error_ err))]
     else []) /\
  results (fx o) =
    (if OnUpdateResult (OTA (cfg g))
     then [EResult (ComponentSlug (cfg g)) (version g) (Latest u) false
                   (Some err)]
     else []) /\
  progressOf (fx o) =
    (if OnUpdateProgress (OTA (cfg g)) then [0; 3; 6] else []) /\
  (err = Msg "signature verification failed" \/
   exists e, base64_DecodeString (dm_Signature meta) = Err e /\
             err = Msg ("decode signature: " +:+ Error_ e)).
Proof.
  intros Hmeta Herr Hget Htmp Hcopy Hsha Hsig. cbv zeta.
  apply String.eqb_eq in Hsha.
  assert (Hkind : err = Msg "signature verification failed" \/
                  exists e, base64_DecodeString (dm_Signature meta) = Err e /\
                            err = Msg ("decode signature: " +:+ Error_ e)).
  { unfold verifySignature in Hsig.
    destruct (base64_DecodeString (dm_Signature meta)) as [sig|e].
    - destruct (ed25519_Verify _ _ _); [done|]. injection Hsig as <-. by left.
    - injection Hsig as <-. right. by exists e. }
  wp_start (updateBackend env u) s.
  unfold updateBackend, requestDownloadMeta, downloadArtifactWithProgress,
    backendFailure, applyBackendBinaryWithSelfupdate.
  wp_walk. rewrite Hmeta. cbn iota. rewrite Herr.
  change (String.eqb "" "") with true. cbn [negb]. wp_walk.
  rewrite Hget. wp_walk. change (StatusOK =? StatusOK) with true.
  cbn [negb]. wp_walk. rewrite Htmp. wp_walk. rewrite Hcopy. wp_walk.
  rewrite Hsha. cbn [negb]. rewrite Hsig. wp_walk.
  by destruct (OnUpdateFailure _), (OnUpdateResult _), (OnUpdateProgress _).
Qed.


(** X23: the temporary artifacts are always cleaned up.  In every run of
    [updateBackend] in which the temporary file was created, its removal
    is the last file operation, and nothing but that file is ever removed.
    In every run of [updateFrontend] in which the temporary directory was
    made, its removal is the last file operation, whether the update was
    applied, rolled back or abandoned. *)
Theorem temporary_artifacts_removed :
  (forall (env : BackendEnv) (u : updateInfo) (s : Store),
     let ops := fsOps (fx (updateBackend env u s)) in
     (forall tmp,
        CreateTemp "deploy-guard-update-*" ∈ ops -> createTemp env = Ok tmp ->
        last ops = Some (Remove tmp)) /\
     (forall p, Remove p ∈ ops ->
        createTemp env = Ok p /\ CreateTemp "deploy-guard-update-*" ∈ ops)) /\
  (forall (env : FrontendEnv) (mc : ManagedComponent) (u : updateInfo)
          (s : Store) (tmpDir : string),
     let ops := fsOps (fx (updateFrontend env mc u s)) in
     MkdirTemp "deploy-guard-frontend-*" ∈ ops ->
     f_mkdirTemp env = Ok tmpDir ->
     last ops = Some (RemoveAll tmpDir)).
Proof.
  split.
  - intros env u s. cbv zeta. wp_start (updateBackend env u) s.
    backend_walk ltac:(
      case_flags; cbn [fsOps omap list_omap app];
      (split;
       [ intros tmp Hin Hc;
         first [ discriminate Hc
               | injection Hc as <-; reflexivity
               | exfalso; clear -Hin; split_ops ]
       | intros p Hin; split_ops; (split; [reflexivity | find_in]) ])).
    all: case_flags; cbn [fsOps omap list_omap app];
      (split;
       [ intros tmp Hin Hc; injection Hc as <-; reflexivity
       | intros p Hin; split_ops; (split; [reflexivity | find_in]) ]).
  - intros env mc u s tmp0. cbv zeta. wp_start (updateFrontend env mc u) s.
    frontend_walk env mc s ltac:(
      intros Hin Hc;
      first [ discriminate Hc
            | injection Hc as <-; apply last_fsOps; rewrite !last_app;
              reflexivity
            | exfalso; revert Hin; clear; case_flags;
              cbn [fsOps omap list_omap app]; intros Hin; split_ops ]).
    intros Hin Hc. injection Hc as <-. apply last_fsOps.
    destruct (f_statErr env) as [e1|]; wp_walk.
    + destruct (f_renameNew env) as [e2|]; wp_walk.
      * rewrite !last_app. reflexivity.
      * destruct (PostUpdate mc); wp_walk; rewrite !last_app; reflexivity.
    + destruct (f_renameBackup env) as [e3|]; wp_walk.
      { rewrite !last_app. reflexivity. }
      destruct (f_renameNew env) as [e2|]; wp_walk.
      * rewrite !last_app. reflexivity.
      * destruct (PostUpdate mc); wp_walk; rewrite !last_app; reflexivity.
Qed.

End MoreUpdater.
(** The steps of [updateFrontend] up to the swap, along given facts. *)
Ltac frontend_to_swap env mc s Hmeta Herr Hget Hmk Hgz Hsha :=
  unfold Updater.updateFrontend, Updater.swapAndCommit; wp_walk;
  rewrite Hmeta; cbn iota; rewrite Herr;
  change (String.eqb "" "") with true; cbn [negb]; wp_walk;
  rewrite Hget; cbn iota; change (StatusOK =? StatusOK) with true;
  cbn [negb]; wp_walk; rewrite Hmk; wp_walk; rewrite Hgz; wp_walk;
  apply wp_run;
  match goal with
  | |- context [Updater.extractEntries ?e ?c ?d ?es s] =>
      destruct (Updater.extractEntries e c d es s) as [flow s1 l]
  end;
  cbn [val st fx] in *; subst;
  wp_walk; rewrite Hsha; cbn [negb]; wp_walk.

Section FrontendSwap.
Context `{Primitives}.
Import Heartbeat Updater Lifecycle.

(** X24: a frontend update that gets through.  When the request, the
    download and the extraction succeed, the digest of the streamed bytes
    is the declared one and the renames succeed, the version of the
    component becomes [Latest] and nothing else of the guard changes; the
    old backup is removed, the live directory (when there is one) is moved
    to ".bak", the temporary directory is moved into place and then
    removed, in this order; [OnUpdateFailure] is not called,
    [OnUpdateResult] (if set) once with [true], [OnUpdateProgress] (if
    set) with 0, 3, 5, 8, 9 and 10 tenths, and the [PostUpdate] hook is
    called once, exactly when one is set. *)
Theorem updateFrontend_success
    (env : FrontendEnv) (mc : ManagedComponent) (u : updateInfo) (s : Store)
    (resp : frontendMeta) (body tmpDir : string) :
  postResult (f_metaOutcome env) = Ok resp ->
  fm_Error resp = "" ->
  f_getOutcome env = GetResponse StatusOK body ->
  f_mkdirTemp env = Ok tmpDir ->
  f_gzip env = None ->
  val (extractEntries env (Slug mc) tmpDir (f_entries env) s) = Proceed ->
  streamedDigest env body (MaxArtifactBytes (OTA (cfg (guard s))))
    = fm_SHA256 resp ->
  (f_statErr env = None -> f_renameBackup env = None) ->
  f_renameNew env = None ->
  let o := updateFrontend env mc u s in
  let g := guard s in
  st o = {| guard := setManagedVersions
                       (<[Slug mc := Latest u]> (managedVersions g)) g;
            disk := disk s |} /\
  swapOps (fx o) =
    (RemoveAll (Dir mc +:+ ".bak") ::
     match f_statErr env with
     | None => [Rename (Dir mc) (Dir mc +:+ ".bak")]
     | Some _ => []
     end ++
     [Rename tmpDir (Dir mc); RemoveAll tmpDir])%list /\
  failures (fx o) = [] /\
  results (fx o) =
    (if OnUpdateResult (OTA (cfg g))
     then [EResult (Slug mc) (default "" (managedVersions g !! Slug mc))
                   (Latest u) true None]
     else []) /\
  progressOf (fx o) =
    (if OnUpdateProgress (OTA (cfg g)) then [0; 3; 5; 8; 9; 10] else []) /\
  hooks (fx o) = match PostUpdate mc with
                 | Some _ => [Slug mc]
                 | None => []
                 end.
Proof.
  intros Hmeta Herr Hget Hmk Hgz Hflow Hsha Hbak Hnew. cbv zeta.
  apply String.eqb_eq in Hsha.
  pose proof (extractEntries_st env (Slug mc) tmpDir (f_entries env) s) as Hst.
  pose proof (extractEntries_reports env (Slug mc) tmpDir (f_entries env) s)
    as (Hres & Hswap & v & d & Hfail).
  pose proof (extractEntries_quiet env (Slug mc) tmpDir (f_entries env) s)
    as (Hqp & _ & Hqh).
  cbv zeta in Hres, Hswap, Hfail, Hqp, Hqh.
  wp_start (updateFrontend env mc u) s.
  frontend_to_swap env mc s Hmeta Herr Hget Hmk Hgz Hsha.
  destruct (f_statErr env) as [e1|]; wp_walk.
  - rewrite Hnew. wp_walk. cbn [cfg setManagedVersions].
    destruct (PostUpdate mc); wp_walk; fx_split;
      rewrite !progressOf_app, !hooks_app, Hres, Hswap, Hfail, Hqp, Hqh;
      by case_flags.
  - rewrite (Hbak eq_refl). wp_walk. rewrite Hnew. wp_walk.
    cbn [cfg setManagedVersions].
    destruct (PostUpdate mc); wp_walk; fx_split;
      rewrite !progressOf_app, !hooks_app, Hres, Hswap, Hfail, Hqp, Hqh;
      by case_flags.
Qed.

(** X25: a frontend update rolled back.  When everything up to the swap
    succeeds and moving the temporary directory into place fails, the
    rename of ".bak" back to the live directory is issued (also when no
    backup was made), the guard is unchanged, [OnUpdateFailure] (if set) is
    called once with [ErrUpdateApply] and the error of the rename,
    [OnUpdateResult] and the hook are not called, and the progress stops at
    9 tenths. *)
Theorem updateFrontend_rollback
    (env : FrontendEnv) (mc : ManagedComponent) (u : updateInfo) (s : Store)
    (resp : frontendMeta) (body tmpDir : string) (err : error) :
  postResult (f_metaOutcome env) = Ok resp ->
  fm_Error resp = "" ->
  f_getOutcome env = GetResponse StatusOK body ->
  f_mkdirTemp env = Ok tmpDir ->
  f_gzip env = None ->
  val (extractEntries env (Slug mc) tmpDir (f_entries env) s) = Proceed ->
  streamedDigest env body (MaxArtifactBytes (OTA (cfg (guard s))))
    = fm_SHA256 resp ->
  (f_statErr env = None -> f_renameBackup env = None) ->
  f_renameNew env = Some err ->
  let o := updateFrontend env mc u s in
  let g := guard s in
  st o = s /\
  swapOps (fx o) =
    (RemoveAll (Dir mc +:+ ".bak") ::
     match f_statErr env with
     | None => [Rename (Dir mc) (Dir mc +:+ ".bak")]
     | Some _ => []
     end ++
     [Rename tmpDir (Dir mc); Rename (Dir mc +:+ ".bak") (Dir mc);
      RemoveAll tmpDir])%list /\
  failures (fx o) =
    (if OnUpdateFailure (OTA (cfg g))
     then [(Slug mc, WrapUpdate ErrUpdateApply (Error_ err))] else []) /\
  results (fx o) = [] /\
  progressOf (fx o) =
    (if OnUpdateProgress (OTA (cfg g)) then [0; 3; 5; 8; 9] else []) /\
  hooks (fx o) = [].
Proof.
  intros Hmeta Herr Hget Hmk Hgz Hflow Hsha Hbak Hnew. cbv zeta.
  apply String.eqb_eq in Hsha.
  pose proof (extractEntries_st env (Slug mc) tmpDir (f_entries env) s) as Hst.
  pose proof (extractEntries_reports env (Slug mc) tmpDir (f_entries env) s)
    as (Hres & Hswap & v & d & Hfail).
  pose proof (extractEntries_quiet env (Slug mc) tmpDir (f_entries env) s)
    as (Hqp & _ & Hqh).
  cbv zeta in Hres, Hswap, Hfail, Hqp, Hqh.
  wp_start (updateFrontend env mc u) s.
  frontend_to_swap env mc s Hmeta Herr Hget Hmk Hgz Hsha.
  destruct (f_statErr env) as [e1|]; wp_walk.
  - rewrite Hnew. wp_walk. fx_split.
    rewrite !progressOf_app, !hooks_app, Hres, Hswap, Hfail, Hqp, Hqh.
    by case_flags.
  - rewrite (Hbak eq_refl). wp_walk. rewrite Hnew. wp_walk. fx_split.
    rewrite !progressOf_app, !hooks_app, Hres, Hswap, Hfail, Hqp, Hqh.
    by case_flags.
Qed.

(** X26: the progress reported by an update never goes back and stays
    between 0 and 10 tenths, in every run of [updateBackend] and of
    [updateFrontend]; and 10 tenths are reported only by a run that set
    the new version. *)
Theorem progress_rises_to_completion :
  (forall (env : BackendEnv) (u : updateInfo) (s : Store),
     let o := updateBackend env u s in
     risingWithin 0 10 (progressOf (fx o)) = true /\
     (10 ∈ progressOf (fx o) -> version (guard (st o)) = Latest u)) /\
  (forall (env : FrontendEnv) (mc : ManagedComponent) (u : updateInfo)
          (s : Store),
     let o := updateFrontend env mc u s in
     risingWithin 0 10 (progressOf (fx o)) = true /\
     (10 ∈ progressOf (fx o) ->
      managedVersions (guard (st o)) !! Slug mc = Some (Latest u))).
Proof.
  split.
  - intros env u s. cbv zeta. wp_start (updateBackend env u) s.
    backend_walk ltac:(
      case_flags; (split; [reflexivity|]); intros Hin; exfalso;
      cbn in Hin; split_in; done).
    all: case_flags; (split; [reflexivity|]); intros Hin;
      first [ reflexivity | exfalso; cbn in Hin; split_in; done ].
  - intros env mc u s. cbv zeta. wp_start (updateFrontend env mc u) s.
    frontend_walk env mc s ltac:(
      rewrite ?progressOf_app, ?Hqp; case_flags;
      (split; [reflexivity|]); intros Hin; exfalso;
      cbn in Hin; split_in; done).
    destruct (f_statErr env) as [e1|]; wp_walk.
    + destruct (f_renameNew env) as [e2|]; wp_walk.
      * rewrite ?progressOf_app, ?Hqp; case_flags;
          (split; [reflexivity|]); intros Hin; exfalso;
          cbn in Hin; split_in; done.
      * destruct (PostUpdate mc); wp_walk;
          rewrite ?progressOf_app, ?Hqp; case_flags;
          (split; [reflexivity|]); intros _; cbn;
          apply lookup_insert_eq.
    + destruct (f_renameBackup env) as [e3|]; wp_walk.
      { rewrite ?progressOf_app, ?Hqp; case_flags;
          (split; [reflexivity|]); intros Hin; exfalso;
          cbn in Hin; split_in; done. }
      destruct (f_renameNew env) as [e2|]; wp_walk.
      * rewrite ?progressOf_app, ?Hqp; case_flags;
          (split; [reflexivity|]); intros Hin; exfalso;
          cbn in Hin; split_in; done.
      * destruct (PostUpdate mc); wp_walk;
          rewrite ?progressOf_app, ?Hqp; case_flags;
          (split; [reflexivity|]); intros _; cbn;
          apply lookup_insert_eq.
Qed.

End FrontendSwap.
Section Download.
Context `{Primitives}.
Import Heartbeat Updater Lifecycle.

Lemma substring_prefix_length (n : nat) (s : string) :
  String.length (String.substring 0 n s) = Nat.min n (String.length s) /\
  (String.length s <= n -> String.substring 0 n s = s)%nat.
Proof.
  revert n. induction s as [|c s IH]; intros n.
  - destruct n; cbn; split; try done; lia.
  - destruct n as [|n]; cbn [String.substring String.length Nat.min].
    + split; [done|]. lia.
    + destruct (IH n) as [IHl IHe]. split; [by rewrite IHl|].
      intros Hle. rewrite IHe; [done | lia].
Qed.

(** X27: the download is cut at the size limit.  When
    [downloadArtifactWithProgress] returns a file, the response had status
    200, the file holds the first [maxBytes] bytes of the body (all of it
    when it is not longer, none when the limit is not positive), the digest
    returned is the digest of exactly those bytes, the guard is unchanged
    and nothing is removed. *)
Theorem download_is_size_limited
    (env : BackendEnv) (url : string) (maxBytes : Z) (s : Store)
    (tmp h : string) :
  let o := downloadArtifactWithProgress env url maxBytes s in
  val o = Ok (tmp, h) ->
  exists body,
    getOutcome env = GetResponse StatusOK body /\
    createTemp env = Ok tmp /\
    let data := limited body maxBytes in
    h = hex_EncodeToString (sha256_Sum256 data) /\
    fx o = [EHttpGet (ServerURL (cfg (guard s)) +:+ url);
            EFs (CreateTemp "deploy-guard-update-*");
            EFs (Copy tmp data)] /\
    st o = s /\
    Z.of_nat (String.length data) =
      Z.max 0 (Z.min maxBytes (Z.of_nat (String.length body))) /\
    (Z.of_nat (String.length body) <= maxBytes -> data = body).
Proof.
  cbv zeta. wp_start (downloadArtifactWithProgress env url maxBytes) s.
  unfold downloadArtifactWithProgress. wp_walk.
  destruct (getOutcome env) as [err|err|status body]; wp_walk; [done|done|].
  destruct (Z.eqb_spec status StatusOK) as [->|Hne]; cbn [negb]; wp_walk;
    [|done].
  destruct (createTemp env) as [tmpName|err]; wp_walk; [|done].
  destruct (copyErr env) as [err|]; wp_walk; [done|].
  intros [= <- <-]. exists body. do 5 (split; [done|]).
  unfold limited.
  destruct (substring_prefix_length (Z.to_nat maxBytes) body) as [Hl He].
  split; [rewrite Hl; lia|]. intros Hle. apply He. lia.
Qed.

End Download.

Section Deadline.
Import Heartbeat Lifecycle.

(** One wake-up whose heartbeat gets no usable response. *)
Lemma iteration_unanswered (t : Tick) (gs : GraceStart) (s : Store) :
  unanswered t ->
  let start := match gs with None => nowOf t | Some x => x end in
  let o := iteration t gs s in
  let failed := step (sm (guard s)) EvHeartbeatFail in
  if laterOf t - start >? MaxOfflineDuration (GracePolicy_ (cfg (guard s)))
  then val o = (Return, Some start) /\
       st o = {| guard := setSm (step failed EvGracePeriodExpired) (guard s);
                 disk := disk s |}
  else val o = (Continue, Some start) /\
       st o = {| guard := setSm failed (guard s); disk := disk s |}.
Proof.
  destruct t as [|outcome now later]; [done|]. intros [err Herr]. cbv zeta.
  cbn [nowOf laterOf].
  pose proof (sendHeartbeat_cases outcome s) as Hc. cbv zeta in Hc.
  rewrite Herr in Hc. destruct Hc as (Hv & Hst & _).
  wp_start (iteration (Fired outcome now later) gs) s.
  unfold iteration. wp_walk. apply wp_run.
  destruct (sendHeartbeat outcome s) as [v s1 l]. cbn [val st fx] in *.
  subst v s1. unfold afterHeartbeat. cbn [isFatalError]. unfold eqVar.
  rewrite !bool_decide_eq_false_2 by done. cbn [orb]. wp_walk.
  cbn [cfg setSm].
  destruct (later - match gs with None => now | Some t => t end >?
            MaxOfflineDuration (GracePolicy_ (cfg (guard s)))); wp_walk; done.
Qed.

Lemma heartbeatLoop_cons (t : Tick) (ticks : list Tick) (gs : GraceStart)
    (s : Store) :
  heartbeatLoop (t :: ticks) gs s =
  let r := iteration t gs s in
  match (val r).1 with
  | Return => {| val := val r; st := st r; fx := fx r ++ [] |}
  | Continue =>
      let r' := heartbeatLoop ticks (val r).2 (st r) in
      {| val := val r'; st := st r'; fx := fx r ++ fx r' |}
  end.
Proof.
  cbn [heartbeatLoop]. unfold mbind, M_bind. cbv zeta.
  by destruct (iteration t gs s) as [[[] ?] ? ?].
Qed.

(** X28: the offline deadline.  While no heartbeat gets a usable response,
    the start of the grace period is the time of the first failure (or the
    start already recorded) and is never moved; the loop keeps running, the
    machine being where one [OnHeartbeatFail] puts it, as long as every
    wake-up finds no more than [MaxOfflineDuration] elapsed since that
    start; at the first wake-up that finds more it calls
    [OnGracePeriodExpired] and returns, so that a guard that was ACTIVE or
    in GRACE is LOCKED and [Check] answers [ErrLocked]. *)
Theorem offline_deadline
    (t0 : Tick) (ticks : list Tick) (gs : GraceStart) (s : Store) :
  Forall unanswered (t0 :: ticks) ->
  let start := match gs with None => nowOf t0 | Some x => x end in
  let limit := MaxOfflineDuration (GracePolicy_ (cfg (guard s))) in
  let o := heartbeatLoop (t0 :: ticks) gs s in
  let failed := OnHeartbeatFail (sm (guard s)) in
  if forallb (fun t => negb (laterOf t - start >? limit)) (t0 :: ticks)
  then val o = (Continue, Some start) /\ State_ (guard (st o)) = failed
  else val o = (Return, Some start) /\
       State_ (guard (st o)) = OnGracePeriodExpired failed /\
       (sm (guard s) = StateActive \/ sm (guard s) = StateGrace ->
        Check (guard (st o)) = Some (Var ErrLocked)).
Proof.
  revert t0 gs s. induction ticks as [|t1 rest IH]; intros t0 gs s Hall;
    apply Forall_cons in Hall as [Ht0 Hrest]; cbv zeta;
    pose proof (iteration_unanswered t0 gs s Ht0) as Hit; cbv zeta in Hit;
    rewrite heartbeatLoop_cons; cbv zeta; cbn [forallb];
    destruct (iteration t0 gs s) as [[c g'] s1 l]; cbn [val st fx fst snd] in *;
    destruct (laterOf t0 - _ >? _); destruct Hit as [[= -> ->] ->];
    cbn [negb andb val st fx fst snd guard sm setSm State_].
  - split; [done|]. split; [done|]. unfold Check. cbn [sm setSm].
    intros [-> | ->]; done.
  - done.
  - split; [done|]. split; [done|]. unfold Check. cbn [sm setSm].
    intros [-> | ->]; done.
  - specialize (IH t1 (Some (match gs with None => nowOf t0 | Some x => x end))
                  {| guard := setSm (step (sm (guard s)) EvHeartbeatFail)
                                (guard s);
                     disk := disk s |} Hrest).
    cbv zeta in IH. cbn [guard cfg setSm sm forallb] in IH.
    destruct (negb _ && forallb _ rest).
    + destruct IH as [-> ->]. split; [done|]. by destruct (sm (guard s)).
    + destruct IH as (-> & -> & Hc). split; [done|].
      split; [by destruct (sm (guard s))|].
      intros Hs. apply Hc. destruct Hs as [-> | ->]; cbn; auto.
Qed.

End Deadline.
(** ** The further properties on concrete inputs *)

Section Concrete2.
Import License Heartbeat Updater Lifecycle.

Lemma updateBackend_applies_witness :
  EFs (Apply "/tmp/deploy-guard-update-1" "/srv/app/backend.bak")
    ∈ fx (@updateBackend Sample2.primitives Sample2.backendGood
            Sample.backendUpdate Sample.store) /\
  createTemp Sample2.backendGood = Ok "/tmp/deploy-guard-update-1" /\
  @verifySignature Sample2.primitives Sample.theGuard "binary-bytes"
    "0123456789abcdef0123456789abcdefbinary-bytes" = None.
Proof.
  assert (Hin : EFs (Apply "/tmp/deploy-guard-update-1" "/srv/app/backend.bak")
                  ∈ fx (@updateBackend Sample2.primitives Sample2.backendGood
                          Sample.backendUpdate Sample.store)).
  { apply list_elem_of_In. vm_compute.
    repeat (first [left; reflexivity | right]). }
  split; [exact Hin|].
  destruct (@updateBackend_applies_only_verified Sample2.primitives
              Sample2.backendGood Sample.backendUpdate Sample.store _ _ Hin)
    as (meta & body & exe & Hmeta & _ & _ & Htmp & _ & Hsig & _).
  split; [exact Htmp|]. injection Hmeta as <-. exact Hsig.
Defined.

Lemma updateBackend_success_witness :
  let o := @updateBackend Sample2.primitives Sample2.backendGood
             Sample.backendUpdate Sample.store in
  version (guard (st o)) = "2.0.0" /\
  progressOf (fx o) = [0; 3; 6; 8; 10] /\
  swapOps (fx o) =
    [Apply "/tmp/deploy-guard-update-1" "/srv/app/backend.bak";
     Remove "/tmp/deploy-guard-update-1"].
Proof.
  cbv zeta.
  destruct (@updateBackend_success Sample2.primitives Sample2.backendGood
              Sample.backendUpdate Sample.store
              {| dm_DownloadURL := "/download/backend";
                 dm_SHA256 := "binary-bytes";
                 dm_Signature := "0123456789abcdef0123456789abcdefbinary-bytes";
                 dm_Error := "" |}
              "binary-bytes" "/tmp/deploy-guard-update-1" "/srv/app/backend")
    as (Hst & Hops & _ & _ & _ & Hp); try reflexivity.
  split; [by rewrite Hst|]. split; [exact Hp|].
  unfold swapOps. rewrite Hops. reflexivity.
Defined.

Lemma updateBackend_signature_witness :
  let o := @updateBackend Sample2.primitives Sample2.backendForged
             Sample.backendUpdate Sample.store in
  st o = Sample.store /\
  failures (fx o) =
    [("backend", WrapUpdate ErrUpdateVerify "signature verification failed")] /\
  progressOf (fx o) = [0; 3; 6].
Proof.
  cbv zeta.
  destruct (@updateBackend_signature_failure Sample2.primitives
              Sample2.backendForged Sample.backendUpdate Sample.store
              {| dm_DownloadURL := "/download/backend";
                 dm_SHA256 := "binary-bytes";
                 dm_Signature := "other-key-sig";
                 dm_Error := "" |}
              "binary-bytes" "/tmp/deploy-guard-update-1"
              (Msg "signature verification failed"))
    as (Hst & _ & Hf & _ & Hp & _); try reflexivity.
  split; [exact Hst|]. split; [exact Hf | exact Hp].
Defined.

Lemma updateFrontend_success_witness :
  let o := @updateFrontend Sample2.primitives (Sample2.frontendWith None)
             Sample.web Sample.frontendUpdate Sample.store in
  managedVersions (guard (st o)) !! "frontend" = Some "2.0.0" /\
  swapOps (fx o) =
    [RemoveAll "/srv/app/web.bak"; Rename "/srv/app/web" "/srv/app/web.bak";
     Rename "/tmp/deploy-guard-frontend-1" "/srv/app/web";
     RemoveAll "/tmp/deploy-guard-frontend-1"] /\
  progressOf (fx o) = [0; 3; 5; 8; 9; 10].
Proof.
  cbv zeta.
  destruct (@updateFrontend_success Sample2.primitives
              (Sample2.frontendWith None) Sample.web Sample.frontendUpdate
              Sample.store
              {| fm_DownloadURL := "/download/frontend.tar.gz";
                 fm_SHA256 := "archive-bytes"; fm_Error := "" |}
              "archive-bytes" "/tmp/deploy-guard-frontend-1")
    as (Hst & Hsw & _ & _ & Hp & _); try reflexivity.
  split; [by rewrite Hst|]. split; [exact Hsw | exact Hp].
Defined.

Lemma updateFrontend_rollback_witness :
  let o := @updateFrontend Sample2.primitives
             (Sample2.frontendWith (Some (Msg "rename failed")))
             Sample.web Sample.frontendUpdate Sample.store in
  st o = Sample.store /\
  swapOps (fx o) =
    [RemoveAll "/srv/app/web.bak"; Rename "/srv/app/web" "/srv/app/web.bak";
     Rename "/tmp/deploy-guard-frontend-1" "/srv/app/web";
     Rename "/srv/app/web.bak" "/srv/app/web";
     RemoveAll "/tmp/deploy-guard-frontend-1"] /\
  failures (fx o) = [("frontend", WrapUpdate ErrUpdateApply "rename failed")].
Proof.
  cbv zeta.
  destruct (@updateFrontend_rollback Sample2.primitives
              (Sample2.frontendWith (Some (Msg "rename failed")))
              Sample.web Sample.frontendUpdate Sample.store
              {| fm_DownloadURL := "/download/frontend.tar.gz";
                 fm_SHA256 := "archive-bytes"; fm_Error := "" |}
              "archive-bytes" "/tmp/deploy-guard-frontend-1"
              (Msg "rename failed"))
    as (Hst & Hsw & Hf & _); try reflexivity.
  split; [exact Hst|]. split; [exact Hsw | exact Hf].
Defined.

Lemma download_limit_witness :
  getOutcome Sample2.backendGood = GetResponse StatusOK "binary-bytes" /\
  limited "binary-bytes" 6 = "binary" /\
  fx (@downloadArtifactWithProgress Sample2.primitives Sample2.backendGood
        "/download/backend" 6 Sample.store) =
    [EHttpGet "https://hub.example/download/backend";
     EFs (CreateTemp "deploy-guard-update-*");
     EFs (Copy "/tmp/deploy-guard-update-1" "binary")].
Proof.
  destruct (@download_is_size_limited Sample2.primitives Sample2.backendGood
              "/download/backend" 6 Sample.store
              "/tmp/deploy-guard-update-1" "binary" eq_refl)
    as (body & Hget & _ & _ & Hfx & _).
  split; [reflexivity|]. split; [reflexivity|].
  unfold Sample2.backendGood in Hget. cbn [getOutcome] in Hget.
  injection Hget as <-. exact Hfx.
Defined.

Lemma offline_deadline_witness :
  let o := heartbeatLoop Sample.fiveFailures None Sample.store in
  val o = (Return, Some 1000000000) /\
  Check (guard (st o)) = Some (Var ErrLocked).
Proof.
  cbv zeta.
  assert (Hall : Forall unanswered Sample.fiveFailures).
  { repeat constructor; eexists; reflexivity. }
  pose proof (offline_deadline
                (Fired Sample.unreachable 1000000000 1000000000)
                [Fired Sample.unreachable 1050000000 1050000000;
                 Fired Sample.unreachable 1100000000 1100000000;
                 Fired Sample.unreachable 1150000000 1150000000;
                 Fired Sample.unreachable 1250000000 1250000000]
                None Sample.store Hall) as Hd.
  cbv zeta in Hd.
  change (forallb _ _) with false in Hd. cbv iota in Hd.
  destruct Hd as (Hv & _ & Hc). split; [exact Hv|]. apply Hc. left.
  reflexivity.
Defined.

End Concrete2.
